(** * GeoUtils: the [Raster] object of [geoutils/georaster.py]

    A shallow embedding of the locally written logic of the [Raster] class
    (argument dispatch, validation, coordinate arithmetic, the update
    protocol) together with a small model of the parts of numpy and rasterio
    that this logic calls.

    Conventions.
    - Python numbers (ints and floats alike) are exact rationals [Q]; sizes
      and indices are [Z].  Statements about rationals use [==] ([Qeq]).
      The rounding of binary floating point is modelled where the result
      of the code depends on it, in the grid that [reproject] computes
      from a resolution and bounds: there the numbers are binary64
      (primitive floats), read from the rationals the caller wrote.
    - A Python call that may raise is a function into [result]; exceptions
      carry their Python class and message.
    - What rasterio does behind [rio.open], [MemoryFile], [rio.mask.mask],
      [rio.warp.reproject] and [CRS.from_user_input] is not part of this
      repository: those routines are fields of the class [Rasterio], so every
      theorem holds for any behaviour of them. *)

From Stdlib Require Import String ZArith QArith Qabs Qround Qminmax Bool Lia List.
From Stdlib Require Floats.
Import ListNotations.
Local Open Scope Q_scope.

(** ** Exceptions and the error monad *)

Inductive exn : Type :=
| ValueError (msg : string)
| TypeError (msg : string)
| AttributeError (msg : string)
| AssertionError (msg : string)
| NotImplementedError
| IndexError (msg : string)
| ZeroDivisionError
| UnboundLocalError (msg : string)
| OverflowError (msg : string)
| LibraryError (msg : string).   (* raised inside numpy / rasterio *)

Inductive result (A : Type) : Type :=
| Ok (a : A)
| Raise (e : exn).
Arguments Ok {A} a.
Arguments Raise {A} e.

Definition bind {A B} (m : result A) (k : A -> result B) : result B :=
  match m with
  | Ok a => k a
  | Raise e => Raise e
  end.

Declare Scope py_scope.
Delimit Scope py_scope with py.
Notation "x <- m ;; k" := (bind m (fun x => k))
  (at level 61, m at next level, right associativity) : py_scope.
Notation "' pat <- m ;; k" := (bind m (fun x => match x with pat => k end))
  (at level 61, pat pattern, m at next level, right associativity) : py_scope.
Local Open Scope py_scope.

Definition succeeds {A} (m : result A) : bool :=
  match m with Ok _ => true | Raise _ => false end.

(** ** Rational helpers *)

Definition Qltb (x y : Q) : bool := negb (Qle_bool y x).
Definition Qeqb (x y : Q) : bool := Qeq_bool x y.
Definition ZtoQ (z : Z) : Q := inject_Z z.

(** ** Binary64 numbers (Python [float], [numpy.float64]) *)

Definition float : Set := PrimFloat.float.

Module f64.

Import SpecFloat.

(** The float nearest to an integer and to a rational, ties to even: what
    Python makes of an int operand and of a decimal literal.  Exact when
    the number is a binary64. *)
Definition of_Z (z : Z) : float :=
  FloatOps.SF2Prim (binary_normalize FloatOps.prec FloatOps.emax z 0 false).

Definition of_Q (q : Q) : float :=
  match Qnum q with
  | Z0 => PrimFloat.zero
  | Zpos n =>
      FloatOps.SF2Prim (SFdiv FloatOps.prec FloatOps.emax
                          (S754_finite false n 0) (S754_finite false (Qden q) 0))
  | Zneg n =>
      FloatOps.SF2Prim (SFdiv FloatOps.prec FloatOps.emax
                          (S754_finite true n 0) (S754_finite false (Qden q) 0))
  end.

(** The rational a finite float stands for. *)
Definition to_Q (x : float) : option Q :=
  match FloatOps.Prim2SF x with
  | S754_zero _ => Some 0
  | S754_finite s m e =>
      let n := if s then Zneg m else Zpos m in
      Some (if (e <? 0)%Z then Qmake n (Z.to_pos (2 ^ (- e))) else inject_Z (n * 2 ^ e))
  | S754_infinity _ | S754_nan => None
  end.

Definition is_zero (x : float) : bool := PrimFloat.is_zero x.

(** [np.ceil]: the result is again a float; infinities and NaN are kept,
    and a value in (-1, 0) gives the negative zero. *)
Definition ceil (x : float) : float :=
  match FloatOps.Prim2SF x with
  | S754_finite s m e =>
      if (e <? 0)%Z
      then
        let n := if s then Zneg m else Zpos m in
        let c := (- ((- n) / 2 ^ (- e)))%Z in
        if (c =? 0)%Z && s then PrimFloat.neg_zero else of_Z c
      else x
  | _ => x
  end.

(** Python [int(x)] on a float: towards zero; no integer for an infinity
    or a NaN. *)
Definition to_int (x : float) : result Z :=
  match FloatOps.Prim2SF x with
  | S754_zero _ => Ok 0%Z
  | S754_finite s m e =>
      let n := if s then Zneg m else Zpos m in
      Ok (if (e <? 0)%Z then Z.quot n (2 ^ (- e)) else n * 2 ^ e)%Z
  | S754_infinity _ => Raise (OverflowError "cannot convert float infinity to integer")
  | S754_nan => Raise (ValueError "cannot convert float NaN to integer")
  end.

(** A Python int as operand of a float operation. *)
Definition of_int (z : Z) : result float :=
  if (Z.abs z <? 2 ^ 1024)%Z then Ok (of_Z z)
  else Raise (OverflowError "int too large to convert to float").

End f64.

(** ** numpy *)

Module np.

(** [np.sign] followed by [int(...)]. *)
Definition sign (x : Q) : Z := Z.sgn (Qnum x).

(** Python [int(x)] on a float: truncation towards zero. *)
Definition int (x : Q) : Z := if Qltb x 0 then Qceiling x else Qfloor x.

(** [np.linspace(start, stop, num)] with the default [endpoint=True]:
    [start + k * step] for [k < num], [step = (stop - start) / (num - 1)],
    the last sample overwritten with [stop] when [num > 1]. *)
Definition linspace (start stop : Q) (num : Z) : result (list Q) :=
  if (num <? 0)%Z
  then Raise (LibraryError "Number of samples must be non-negative.")
  else
    let n := Z.to_nat num in
    let div := ZtoQ (num - 1) in
    let step := (stop - start) / div in
    let y := map (fun k => ZtoQ (Z.of_nat k) * step + start) (seq 0 n) in
    Ok (if (1 <? num)%Z then removelast y ++ [stop] else y).

(** The slice [v[::step]] for [step = int(np.sign(..))]. *)
Definition slice_step {A} (v : list A) (step : Z) : result (list A) :=
  match step with
  | 0%Z => Raise (ValueError "slice step cannot be zero")
  | Zpos _ => Ok v
  | Zneg _ => Ok (rev v)
  end.

(** The slice [v[:-1]]. *)
Definition drop_last {A} (v : list A) : list A := removelast v.

(** [np.meshgrid(xx, yy)]: two arrays of shape [(len yy, len xx)]. *)
Definition meshgrid (xx yy : list Q) : list (list Q) * list (list Q) :=
  (map (fun _ => xx) yy, map (fun y => map (fun _ => y) xx) yy).

End np.

(** ** Affine transforms and bounding boxes (affine, rasterio.coords) *)

Record Affine : Type := mkAffine
  { af_a : Q; af_b : Q; af_c : Q; af_d : Q; af_e : Q; af_f : Q }.

Record BoundingBox : Type := mkBoundingBox
  { left : Q; bottom : Q; right : Q; top : Q }.

(** The same two objects with binary64 fields. *)
Record Affine64 : Type := mkAffine64
  { fa_a : float; fa_b : float; fa_c : float; fa_d : float; fa_e : float; fa_f : float }.

Record BoundingBox64 : Type := mkBoundingBox64
  { fleft : float; fbottom : float; fright : float; ftop : float }.

Module affine.

(** [transform * (x, y)]. *)
Definition apply (t : Affine) (x y : Q) : Q * Q :=
  (x * af_a t + y * af_b t + af_c t, x * af_d t + y * af_e t + af_f t).

Definition determinant (t : Affine) : Q := af_a t * af_e t - af_b t * af_d t.

(** [~transform]. *)
Definition invert (t : Affine) : result Affine :=
  let det := determinant t in
  if Qeqb det 0
  then Raise (LibraryError "Cannot invert degenerate transform")
  else
    let idet := 1 / det in
    let ra := af_e t * idet in
    let rb := - af_b t * idet in
    let rd := - af_d t * idet in
    let re := af_a t * idet in
    Ok (mkAffine ra rb (- af_c t * ra - af_f t * rb)
                 rd re (- af_c t * rd - af_f t * re)).

(** [Affine.translation(xoff, yoff)], [Affine.scale(sx, sy)] and the
    product [s * o] of two transforms, in binary64. *)
Definition translation64 (xoff yoff : float) : Affine64 :=
  mkAffine64 PrimFloat.one PrimFloat.zero xoff PrimFloat.zero PrimFloat.one yoff.

Definition scale64 (sx sy : float) : Affine64 :=
  mkAffine64 sx PrimFloat.zero PrimFloat.zero PrimFloat.zero sy PrimFloat.zero.

Definition mul64 (s o : Affine64) : Affine64 :=
  let add := PrimFloat.add in
  let mul := PrimFloat.mul in
  mkAffine64
    (add (mul (fa_a s) (fa_a o)) (mul (fa_b s) (fa_d o)))
    (add (mul (fa_a s) (fa_b o)) (mul (fa_b s) (fa_e o)))
    (add (add (mul (fa_a s) (fa_c o)) (mul (fa_b s) (fa_f o))) (fa_c s))
    (add (mul (fa_d s) (fa_a o)) (mul (fa_e s) (fa_d o)))
    (add (mul (fa_d s) (fa_b o)) (mul (fa_e s) (fa_e o)))
    (add (add (mul (fa_d s) (fa_c o)) (mul (fa_e s) (fa_f o))) (fa_f s)).

(** A transform with rational coefficients as Python holds it. *)
Definition to_f64 (t : Affine) : Affine64 :=
  mkAffine64 (f64.of_Q (af_a t)) (f64.of_Q (af_b t)) (f64.of_Q (af_c t))
             (f64.of_Q (af_d t)) (f64.of_Q (af_e t)) (f64.of_Q (af_f t)).

(** [s == t] between a binary64 transform and one with rational
    coefficients: every coefficient is finite and has the same value. *)
Definition eqb64 (s : Affine64) (t : Affine) : bool :=
  let same (x : float) (q : Q) :=
    match f64.to_Q x with Some v => Qeq_bool v q | None => false end in
  same (fa_a s) (af_a t) && same (fa_b s) (af_b t) && same (fa_c s) (af_c t) &&
  same (fa_d s) (af_d t) && same (fa_e s) (af_e t) && same (fa_f s) (af_f t).

End affine.


(** ** Pixel arrays (numpy.ndarray and numpy.ma.MaskedArray) *)

Inductive dtype : Type :=
| uint8 | int8 | uint16 | int16 | int32 | float32 | float64.

Definition dtype_eqb (x y : dtype) : bool :=
  match x, y with
  | uint8, uint8 | int8, int8 | uint16, uint16 | int16, int16
  | int32, int32 | float32, float32 | float64, float64 => true
  | _, _ => false
  end.

(** A dtype as callers write it: a type object ([np.int8]) or a name. *)
Inductive DtypeSpec : Type :=
| DType (d : dtype)
| DStr (s : string).

(** One array element: its value and its mask bit (always [false] in a
    plain ndarray). *)
Definition cell : Type := (Q * bool)%type.

(** A 3-D array of shape (bands, rows, cols). *)
Record Array : Type := mkArray
  { a_dtype : dtype;
    a_ma : bool;                        (* np.ma.isMaskedArray *)
    a_cells : list (list (list cell)) }.

Module ndarray.

(** [np.dtype(spec)]. *)
Definition resolve (spec : DtypeSpec) : result dtype :=
  match spec with
  | DType d => Ok d
  | DStr s =>
      if String.eqb s "uint8" then Ok uint8
      else if String.eqb s "int8" then Ok int8
      else if String.eqb s "uint16" then Ok uint16
      else if String.eqb s "int16" then Ok int16
      else if String.eqb s "int32" then Ok int32
      else if String.eqb s "float32" then Ok float32
      else if String.eqb s "float64" then Ok float64
      else Raise (LibraryError "data type not understood")
  end.

(** Lowest value and number of values of the integer dtypes. *)
Definition int_range (d : dtype) : option (Z * Z) :=
  match d with
  | uint8 => Some (0, 256)%Z
  | int8 => Some (-128, 256)%Z
  | uint16 => Some (0, 65536)%Z
  | int16 => Some (-32768, 65536)%Z
  | int32 => Some (-2147483648, 4294967296)%Z
  | float32 | float64 => None
  end.

(** Conversion of one value by [astype]: towards zero and modulo the width
    for an integer target, unchanged for a float target. *)
Definition cast (d : dtype) (v : Q) : Q :=
  match int_range d with
  | Some (lo, m) => ZtoQ (lo + (np.int v - lo) mod m)
  | None => v
  end.

(** [arr.astype(spec)]: a new array; a masked array keeps its mask. *)
Definition astype (arr : Array) (spec : DtypeSpec) : result Array :=
  d <- resolve spec ;;
  Ok (mkArray d (a_ma arr)
        (map (map (map (fun c : cell => (cast d (fst c), snd c)))) (a_cells arr))).

(** [arr.shape]. *)
Definition shape (arr : Array) : (Z * Z * Z)%type :=
  let bands := a_cells arr in
  let rows := hd [] bands in
  (Z.of_nat (length bands), Z.of_nat (length rows),
   Z.of_nat (length (hd [] rows))).

(** [arr.flatten()]. *)
Definition flatten (arr : list (list (list cell))) : list cell :=
  concat (concat arr).

(** [np.ma.mean] of a flattened array: the mean of the entries that are not
    masked; [None] stands for the constant [np.ma.masked], returned when no
    entry is left. *)
Definition ma_mean (v : list cell) : option Q :=
  let keep := map fst (filter (fun c : cell => negb (snd c)) v) in
  match keep with
  | [] => None
  | _ => Some (fold_right Qplus 0 keep / ZtoQ (Z.of_nat (length keep)))
  end.

End ndarray.

(** ** Datasets (rasterio) *)

Inductive CRS : Type :=
| EPSG (code : Z)
| WKT (s : string).

(** What callers may pass where a CRS is expected. *)
Inductive CrsInput : Type :=
| CrsInt (code : Z)
| CrsStr (s : string)
| CrsObj (crs : CRS).

(** An open dataset handle: the header and the stored pixels
    (band, row, col). *)
Record Dataset : Type := mkDataset
  { ds_name : string;
    ds_driver : string;
    ds_dtype : dtype;
    ds_nodata : option Q;
    ds_width : Z;
    ds_height : Z;
    ds_count : Z;
    ds_crs : CRS;
    ds_transform : Affine;
    ds_pixels : list (list (list Q)) }.

(** The value stored under ['nodata'] in a metadata dict: whatever the
    caller put there. *)
Inductive PyNodata : Type :=
| NdNone
| NdNum (v : Q)
| NdSeq (l : list Q).

(** The dict [ds.meta], also the keyword arguments of [memfile.open]. *)
Record Meta : Type := mkMeta
  { m_driver : string;
    m_dtype : DtypeSpec;
    m_nodata : PyNodata;
    m_width : Z;
    m_height : Z;
    m_count : Z;
    m_crs : CrsInput;
    m_transform : Affine }.

(** A [rasterio.io.MemoryFile]: empty, or holding a written dataset. *)
Record MemoryFile : Type := mkMemoryFile { mf_contents : option Dataset }.

(** The window of a read: [rio.windows.Window(col_off, row_off, width, height)]. *)
Record Window : Type := mkWindow
  { col_off : Z; row_off : Z; win_width : Z; win_height : Z }.

Module rio.

(** [ds.meta]. *)
Definition meta (ds : Dataset) : Meta :=
  mkMeta (ds_driver ds) (DType (ds_dtype ds))
         (match ds_nodata ds with Some v => NdNum v | None => NdNone end)
         (ds_width ds) (ds_height ds) (ds_count ds) (CrsObj (ds_crs ds))
         (ds_transform ds).

(** [ds.bounds], as (left, bottom, right, top). *)
Definition bounds (ds : Dataset) : BoundingBox :=
  let t := ds_transform ds in
  let w := ZtoQ (ds_width ds) in
  let h := ZtoQ (ds_height ds) in
  if Qeqb (af_b t) 0 && Qeqb (af_d t) 0
  then mkBoundingBox (af_c t) (af_f t + af_e t * h) (af_c t + af_a t * w) (af_f t)
  else
    let '(x1, y1) := affine.apply t 0 h in
    let '(x2, y2) := affine.apply t w h in
    let '(x3, y3) := affine.apply t w 0 in
    let x0 := af_c t in
    let y0 := af_f t in
    mkBoundingBox (Qmin (Qmin x0 x1) (Qmin x2 x3)) (Qmin (Qmin y0 y1) (Qmin y2 y3))
                  (Qmax (Qmax x0 x1) (Qmax x2 x3)) (Qmax (Qmax y0 y1) (Qmax y2 y3)).

(** [ds.dtypes], [ds.indexes], [ds.shape]. *)
Definition dtypes (ds : Dataset) : list dtype :=
  repeat (ds_dtype ds) (Z.to_nat (ds_count ds)).
Definition indexes (ds : Dataset) : list Z :=
  map (fun k => Z.of_nat k + 1)%Z (seq 0 (Z.to_nat (ds_count ds))).
Definition shape (ds : Dataset) : (Z * Z)%type := (ds_height ds, ds_width ds).

(** The conversion of a floored coordinate to a 32-bit integer: a value
    that does not fit comes back as the lowest one. *)
Definition to_int32 (z : Z) : Z :=
  if (-2147483648 <=? z)%Z && (z <=? 2147483647)%Z then z else (-2147483648)%Z.

(** [ds.index(x, y)]: the (row, col) of the pixel that contains (x, y),
    the floor of the inverse transform, as 32-bit integers. *)
Definition index (ds : Dataset) (x y : Q) : result (Z * Z) :=
  inv <- affine.invert (ds_transform ds) ;;
  let '(fcol, frow) := affine.apply inv x y in
  Ok (to_int32 (Qfloor frow), to_int32 (Qfloor fcol)).

(** [rio.transform.from_bounds(west, south, east, north, width, height)]. *)
Definition from_bounds (bb : BoundingBox) (width height : Z) : result Affine :=
  if (width =? 0)%Z || (height =? 0)%Z then Raise ZeroDivisionError
  else Ok (mkAffine ((right bb - left bb) / ZtoQ width) 0 (left bb)
                    0 ((bottom bb - top bb) / ZtoQ height) (top bb)).

(** The same routine in binary64:
    [Affine.translation(west, north) *
     Affine.scale((east - west) / width, (south - north) / height)].
    With Python floats a zero width or height raises; when [east] and
    [south] are numpy floats ([numpy_bounds]) the quotient is an infinity
    or a NaN. *)
Definition divisor (numpy_bounds : bool) (z : Z) : result float :=
  if numpy_bounds then Ok (f64.of_Z z)
  else
    x <- f64.of_int z ;;
    if (z =? 0)%Z then Raise ZeroDivisionError else Ok x.

Definition from_bounds64 (numpy_bounds : bool) (bb : BoundingBox64) (width height : Z)
  : result Affine64 :=
  w <- divisor numpy_bounds width ;;
  let sx := PrimFloat.div (PrimFloat.sub (fright bb) (fleft bb)) w in
  h <- divisor numpy_bounds height ;;
  let sy := PrimFloat.div (PrimFloat.sub (fbottom bb) (ftop bb)) h in
  Ok (affine.mul64 (affine.translation64 (fleft bb) (ftop bb)) (affine.scale64 sx sy)).

(** The stored value of band [b] (0-based) at (row, col), if inside. *)
Definition pixel (ds : Dataset) (b : nat) (row col : Z) : option Q :=
  if (row <? 0)%Z || (col <? 0)%Z then None
  else
    match nth_error (ds_pixels ds) b with
    | None => None
    | Some band =>
        match nth_error band (Z.to_nat row) with
        | None => None
        | Some r => nth_error r (Z.to_nat col)
        end
    end.

Definition is_nodata (ds : Dataset) (v : Q) : bool :=
  match ds_nodata ds with
  | Some nd => Qeqb v nd
  | None => false
  end.

(** [ds.read(masked=masked)]: every band in full. *)
Definition read_all (ds : Dataset) (masked : bool) : Array :=
  mkArray (ds_dtype ds) masked
    (map (map (map (fun v => (v, masked && is_nodata ds v)))) (ds_pixels ds)).

Definition zrange (start len : Z) : list Z :=
  map (fun k => start + Z.of_nat k)%Z (seq 0 (Z.to_nat len)).

(** One band of [ds.read(window=.., fill_value=.., boundless=.., masked=..)]:
    the stored value inside the dataset; outside it the fill value (else
    the nodata value, else 0), masked when a masked array is asked for.
    Unless [boundless], the window is first cropped to the dataset and
    only the part inside is read. *)
Definition read_window_band (ds : Dataset) (b : nat) (win : Window)
    (fill_value : option Q) (boundless masked : bool) : result (list (list cell)) :=
  if (win_width win <? 0)%Z || (win_height win <? 0)%Z
  then Raise (LibraryError "negative window size")
  else
    let fill := match fill_value with
                | Some v => v
                | None => match ds_nodata ds with Some v => v | None => 0 end
                end in
    let rows := zrange (row_off win) (win_height win) in
    let cols := zrange (col_off win) (win_width win) in
    let rows := if boundless then rows
                else filter (fun r => (0 <=? r)%Z && (r <? ds_height ds)%Z) rows in
    let cols := if boundless then cols
                else filter (fun c => (0 <=? c)%Z && (c <? ds_width ds)%Z) cols in
    Ok (map (fun r => map (fun c =>
          match pixel ds b r c with
          | Some v => (v, masked && is_nodata ds v)
          | None => (fill, masked)
          end) cols) rows).

(** [ds.read(indexes=b, window=..)] for a 1-based band number: 2-D. *)
Definition read_window_index (ds : Dataset) (b : Z) (win : Window)
    (fill_value : option Q) (boundless masked : bool) : result (list (list cell)) :=
  if (b <? 1)%Z || (ds_count ds <? b)%Z
  then Raise (IndexError "band index out of range")
  else read_window_band ds (Z.to_nat (b - 1)) win fill_value boundless masked.

(** [ds.read(window=..)] without [indexes]: every band, 3-D. *)
Fixpoint read_window_bands (ds : Dataset) (bs : list Z) (win : Window)
    (fill_value : option Q) (boundless masked : bool)
  : result (list (list (list cell))) :=
  match bs with
  | [] => Ok []
  | b :: bs' =>
      band <- read_window_index ds b win fill_value boundless masked ;;
      rest <- read_window_bands ds bs' win fill_value boundless masked ;;
      Ok (band :: rest)
  end.

Definition read_window (ds : Dataset) (win : Window)
    (fill_value : option Q) (boundless masked : bool)
  : result (list (list (list cell))) :=
  read_window_bands ds (indexes ds) win fill_value boundless masked.

(** [memfile.open()] on a file that was written before. *)
Definition memfile_open (m : MemoryFile) : result Dataset :=
  match mf_contents m with
  | Some ds => Ok ds
  | None => Raise (LibraryError "MemoryFile is empty")
  end.

End rio.

(** ** The rasterio routines that stay abstract *)

Inductive Resampling : Type := nearest | bilinear | cubic.

(** [dst_res]: one number or a tuple. *)
Inductive DstRes : Type :=
| ResNum (r : Q)
| ResTuple (l : list Q).

(** The keyword arguments assembled for [rio.warp.reproject];
    [destination] is an array of ones, of which only the shape matters. *)
Record ReprojKwargs : Type := mkReprojKwargs
  { src_transform : Affine;
    src_crs : CRS;
    dst_crs : CRS;
    resampling : Resampling;
    dst_nodata : option Q;
    dst_resolution : option DstRes;
    dst_transform : option Affine64;
    destination : option (Z * Z * Z) }.

(** The value of a dataset attribute that this model does not look
    into, known by its printed form. *)
Inductive PyObject : Type :=
| Obj (repr : string).

Class Rasterio : Type :=
  { (** [rio.open(filename, 'r')] *)
    rio_open : string -> result Dataset;
    (** [MemoryFile(open(filename, 'rb')).open()] *)
    memfile_from_path : string -> result Dataset;
    (** [memfile.open] with the metadata as keywords, then
        [ds.write(imgdata)]; also
        [rio.open(mfh, 'w', ..)] in [from_array] *)
    memfile_write : Meta -> option Array -> result MemoryFile;
    (** [rio.mask.mask(ds, [bbox], crop=True, all_touched=True)] *)
    mask_mask : Dataset -> BoundingBox -> result (Array * Affine);
    (** [rio.warp.reproject(source, **kwargs)] *)
    warp_reproject : option Array -> ReprojKwargs -> result (Array * Affine);
    (** [rio.windows.from_bounds(xmin, ymin, xmax, ymax, transform)]:
        the (width, height) of the window *)
    windows_from_bounds : BoundingBox -> Affine -> result (Q * Q);
    (** [CRS.from_user_input], [CRS.from_epsg] *)
    from_user_input : CrsInput -> result CRS;
    from_epsg : Z -> result CRS;
    (** [os.path.exists], [os.path.abspath] *)
    path_exists : string -> bool;
    abspath : string -> string;
    (** [rio.open(filename, 'w', driver=.., ..)] followed by
        [dst.write(save_data)]: the dataset written to disk *)
    rio_create : string -> Meta -> list (string * string) -> Array -> result Dataset;
    (** [getattr(ds, name)] for a name outside the default attributes:
        the value, or the AttributeError of a dataset without it *)
    dataset_getattr : Dataset -> string -> result PyObject }.

(** ** The Raster object *)

(** The dataset attributes copied onto the object by [_read_attrs] and read
    back as [self.width], [self.bounds], ...  ([dataset_mask] and [res] are
    copied too; no method embedded here reads them.) *)
Record Attrs : Type := mkAttrs
  { bounds : BoundingBox;
    count : Z;
    crs : CRS;
    driver : string;
    dtypes : list dtype;
    height : Z;
    indexes : list Z;
    name : string;
    nodata : option Q;
    shape : Z * Z;
    transform : Affine;
    width : Z }.

Record Raster : Type := mkRaster
  { filename : option string;
    matches_disk : option bool;      (* None, True or False *)
    ds : Dataset;
    _saved_attrs : list string;
    attrs : Attrs;
    _masked : bool;
    _data : option Array;
    nbands : option Z;
    isLoaded : bool;
    (* the attributes copied under names outside the defaults *)
    extras : list (string * PyObject) }.

Definition default_attrs : list string :=
  ["bounds"; "count"; "crs"; "dataset_mask"; "driver"; "dtypes"; "height";
   "indexes"; "name"; "nodata"; "res"; "shape"; "transform"; "width"]%string.

(** [self.data] (the property getter). *)
Definition data (self : Raster) : option Array := _data self.

Definition getattrs (d : Dataset) : Attrs :=
  mkAttrs (rio.bounds d) (ds_count d) (ds_crs d) (ds_driver d) (rio.dtypes d)
          (ds_height d) (rio.indexes d) (ds_name d) (ds_nodata d) (rio.shape d)
          (ds_transform d) (ds_width d).

(** [setattr(self, name, value)] for a name outside the defaults. *)
Definition setattr_extra (l : list (string * PyObject)) (a : string) (v : PyObject)
  : list (string * PyObject) :=
  (a, v) :: filter (fun p => negb (String.eqb (fst p) a)) l.

(** The loop [for attr in attrs: setattr(self, attr, getattr(self.ds, attr))]:
    a default name is always there and lands in [attrs]; any other name is
    asked of the dataset, and the first one it lacks ends the loop. *)
Fixpoint copy_attrs {RIO : Rasterio} (d : Dataset) (names : list string)
    (acc : list (string * PyObject)) : result (list (string * PyObject)) :=
  match names with
  | [] => Ok acc
  | a :: rest =>
      if existsb (String.eqb a) default_attrs
      then copy_attrs d rest acc
      else v <- dataset_getattr d a ;; copy_attrs d rest (setattr_extra acc a v)
  end.

(** [_read_attrs(attrs)]: the names kept are the caller's, completed with
    the defaults; the values are read from [self.ds].  With [attrs=None]
    only the defaults are read, and what was copied under other names
    stays as it is. *)
Definition _read_attrs {RIO : Rasterio} (self : Raster) (extra : option (list string))
  : result Raster :=
  match extra with
  | None =>
      Ok (mkRaster (filename self) (matches_disk self) (ds self) default_attrs
            (getattrs (ds self)) (_masked self) (_data self) (nbands self)
            (isLoaded self) (extras self))
  | Some l =>
      let saved :=
        fold_left (fun acc a => if existsb (String.eqb a) acc then acc else acc ++ [a])
                  default_attrs l in
      ex <- copy_attrs (ds self) saved (extras self) ;;
      Ok (mkRaster (filename self) (matches_disk self) (ds self) saved
            (getattrs (ds self)) (_masked self) (_data self) (nbands self)
            (isLoaded self) ex)
  end.

(** [load()] with [bands=None]. *)
Definition load (self : Raster) : Raster :=
  let arr := rio.read_all (ds self) (_masked self) in
  mkRaster (filename self) (matches_disk self) (ds self) (_saved_attrs self)
           (attrs self) (_masked self) (Some arr)
           (Some (fst (fst (ndarray.shape arr)))) (isLoaded self) (extras self).

(** *** Coordinates *)

(** [xy2ij(x, y)]. *)
Definition xy2ij (self : Raster) (x y : Q) : result (Z * Z) :=
  rio.index (ds self) x y.

(** [outside_image(xi, yj, index)].  When [index] is false the converted
    pair is bound to [xi, xj]: [yj] keeps the caller's value. *)
Definition outside_image (self : Raster) (xi yj : Q) (index : bool) : result bool :=
  xi' <- (if negb index
          then '(i, _) <- xy2ij self xi yj ;; Ok (ZtoQ i)
          else Ok xi) ;;
  if Qltb xi' 0 || Qltb yj 0 then Ok true
  else if Qltb (ZtoQ (ds_width (ds self))) xi' || Qltb (ZtoQ (ds_height (ds self))) yj
       then Ok true
       else Ok false.

Inductive CoordsReturn : Type :=
| Grid (xx yy : list (list Q))     (* np.meshgrid(xx[:-1], yy[:-1]) *)
| Axes (xx yy : list Q).           (* xx[:-1], yy[:-1] *)

(** [coords(offset, grid)]. *)
Definition coords (self : Raster) (offset : string) (grid : bool) : result CoordsReturn :=
  if negb (String.eqb offset "corner" || String.eqb offset "center")
  then Raise (AssertionError "ctype is not one of 'corner', 'center'")
  else
    let xmin := left (bounds (attrs self)) in
    let xmax := right (bounds (attrs self)) in
    let dx := af_a (transform (attrs self)) in
    let dy := af_e (transform (attrs self)) in
    xs <- np.linspace xmin xmax (width (attrs self) + 1) ;;
    xx <- np.slice_step xs (np.sign dx) ;;
    ys <- np.linspace xmin xmax (height (attrs self) + 1) ;;
    yy <- np.slice_step ys (np.sign dy) ;;
    let xx := if String.eqb offset "center" then map (fun x => x + dx / 2) xx else xx in
    let yy := if String.eqb offset "center" then map (fun y => y + dy / 2) yy else yy in
    if grid
    then let '(gx, gy) := np.meshgrid (np.drop_last xx) (np.drop_last yy) in Ok (Grid gx gy)
    else Ok (Axes (np.drop_last xx) (np.drop_last yy)).

(** *** Values at coordinates *)

(** What the name [window] is bound to inside [value_at_coords]: the
    argument ([None] or an int) and, from line 993 on, the rasterio window.
    [format_value] is a closure over that name and looks it up when called. *)
Inductive WindowVar : Type :=
| WNone
| WInt (n : Z)
| WWindow (w : Window).

Definition is_not_None (w : WindowVar) : bool :=
  match w with WNone => false | _ => true end.

(** The output of one [ds.read]: 3-D without [indexes], 2-D with one. *)
Inductive ReadOut : Type :=
| Out3 (a : list (list (list cell)))
| Out2 (a : list (list cell)).

Definition flatten_out (o : ReadOut) : list cell :=
  match o with
  | Out3 a => ndarray.flatten a
  | Out2 a => concat a
  end.

(** A value handed back by [format_value]. *)
Inductive Value : Type :=
| VReduced (r : option Q)       (* reducer_function(value.flatten()) *)
| VRow (l : list cell)          (* value[0, 0] of a 3-D array *)
| VCell (c : cell).             (* value[0, 0] of a 2-D array *)

Definition format_value (window : WindowVar) (reducer_function : list cell -> option Q)
    (value : ReadOut) : result Value :=
  if is_not_None window
  then Ok (VReduced (reducer_function (flatten_out value)))
  else
    match value with
    | Out3 ((row :: _) :: _) => Ok (VRow row)
    | Out2 ((c :: _) :: _) => Ok (VCell c)
    | _ => Raise (IndexError "index 0 is out of bounds")
    end.

Inductive PyBand : Type :=
| BandNone
| BandInt (b : Z)
| BandOther.

Inductive VacValue : Type :=
| One (v : Value)
| PerBand (d : list (Z * Value)).     (* the dict {band: value} *)

Inductive VacWin : Type :=
| WinOne (w : ReadOut)
| WinPerBand (d : list (Z * ReadOut)).

Inductive VacReturn : Type :=
| RetValue (v : VacValue)
| RetValueWin (v : VacValue) (w : VacWin).

(** The loop over [self.indexes] of the multi-band case. *)
Fixpoint vac_bands (d : Dataset) (fmt : ReadOut -> result Value) (win : Window)
    (fill : option Q) (boundless masked : bool) (bs : list Z)
  : result (list (Z * Value) * list (Z * ReadOut)) :=
  match bs with
  | [] => Ok ([], [])
  | b :: bs' =>
      a <- rio.read_window_index d b win fill boundless masked ;;
      val <- fmt (Out2 a) ;;
      '(vs, ws) <- vac_bands d fmt win fill boundless masked bs' ;;
      Ok ((b, val) :: vs, (b, Out2 a) :: ws)
  end.

(** [value_at_coords(x, y, latlon, band, masked, window, return_window,
    boundless, reducer_function)]. *)
Definition value_at_coords (self : Raster) (x y : Q) (latlon : bool) (band : PyBand)
    (masked : bool) (window : option Z) (return_window boundless : bool)
    (reducer_function : list cell -> option Q) : result VacReturn :=
  if match window with Some w => negb (w mod 2 =? 1)%Z | None => false end
  then Raise (ValueError "Window must be an odd number.")
  else if latlon then Raise NotImplementedError
  else
    '(row, col) <- rio.index (ds self) x y ;;
    let '(col, row, width, height) :=
      match window with
      | Some w =>
          let half_win := (ZtoQ w - 1) / 2 in
          (ZtoQ col - half_win, ZtoQ row - half_win, w, w)
      | None => (ZtoQ col, ZtoQ row, 1%Z, 1%Z)
      end in
    let col := np.int col in
    let row := np.int row in
    let window := WWindow (mkWindow col row width height) in
    let win := mkWindow col row width height in
    let fmt := format_value window reducer_function in
    let fill := nodata (attrs self) in
    match band with
    | BandNone =>
        if match nbands self with Some 1%Z => true | _ => false end
        then
          a <- rio.read_window (ds self) win fill boundless masked ;;
          value <- fmt (Out3 a) ;;
          Ok (if return_window then RetValueWin (One value) (WinOne (Out3 a))
              else RetValue (One value))
        else
          '(vs, ws) <- vac_bands (ds self) fmt win fill boundless masked
                         (indexes (attrs self)) ;;
          Ok (if return_window then RetValueWin (PerBand vs) (WinPerBand ws)
              else RetValue (PerBand vs))
    | BandInt b =>
        a <- rio.read_window_index (ds self) b win fill boundless masked ;;
        value <- fmt (Out2 a) ;;
        if return_window
        then Raise (UnboundLocalError "local variable 'win' referenced before assignment")
        else Ok (RetValue (One value))
    | BandOther => Raise (ValueError "Value provided for band was not int or None.")
    end.

(** ** Construction and the update protocol *)

(** The [filename] argument of the constructor. *)
Inductive PyFilename : Type :=
| FStr (s : string)
| FMemoryFile (m : MemoryFile)
| FArray (a : Array)
| FOther.                         (* any other object *)

(** Second arguments of the [isinstance] calls in [__init__]:  [str] and
    [rio.io.MemoryFile] are classes, [np.array] is a builtin function. *)
Inductive ClassInfo : Type :=
| cls_str
| cls_MemoryFile
| fn_np_array.

Definition isinstance (v : PyFilename) (c : ClassInfo) : result bool :=
  match c with
  | cls_str => Ok (match v with FStr _ => true | _ => false end)
  | cls_MemoryFile => Ok (match v with FMemoryFile _ => true | _ => false end)
  | fn_np_array =>
      Raise (TypeError "isinstance() arg 2 must be a type or tuple of types")
  end.

(** What a mutating method leaves behind: the object, the lines printed,
    and how the call ended. *)
Definition effect : Type := Raster * list string * result unit.

Definition state_of (e : effect) : Raster := fst (fst e).
Definition stdout_of (e : effect) : list string := snd (fst e).
Definition outcome_of (e : effect) : result unit := snd e.

(** Ends a method whose last statement is [self._update(..)]: the object
    is replaced when the update went through and kept otherwise. *)
Definition commit (self : Raster) (out : list string) (r : result Raster) : effect :=
  match r with
  | Ok self' => (self', out, Ok tt)
  | Raise e => (self, out, Raise e)
  end.

Definition set_matches_disk (self : Raster) (v : option bool) : Raster :=
  mkRaster (filename self) v (ds self) (_saved_attrs self) (attrs self)
           (_masked self) (_data self) (nbands self) (isLoaded self) (extras self).

Definition set_ds (self : Raster) (d : Dataset) : Raster :=
  mkRaster (filename self) (matches_disk self) d (_saved_attrs self) (attrs self)
           (_masked self) (_data self) (nbands self) (isLoaded self) (extras self).

Definition set__data (self : Raster) (a : option Array) : Raster :=
  mkRaster (filename self) (matches_disk self) (ds self) (_saved_attrs self)
           (attrs self) (_masked self) a (nbands self) (isLoaded self) (extras self).

Section Methods.

Context {RIO : Rasterio}.

(** [Raster(filename, attrs, load_data, bands, masked, as_memfile)].
    [bands] is accepted and not used. *)
Definition __init__ (file : PyFilename) (extra : option (list string))
    (load_data masked as_memfile : bool) : result Raster :=
  '(fname, d) <-
    match file with
    | FStr s =>                                   (* isinstance(filename, str) *)
        d <- (if as_memfile then memfile_from_path s else rio_open s) ;;
        Ok (Some (abspath s), d)
    | FMemoryFile m =>                            (* isinstance(filename, rio.io.MemoryFile) *)
        d <- rio.memfile_open m ;;
        Ok (None, d)
    | _ =>
        is_arr <- isinstance file fn_np_array ;;
        if is_arr
        then Raise (ValueError
          "np.array provided as filename. Did you mean to call Raster.from_array(...) instead? ")
        else Raise (ValueError "filename argument not recognised.")
    end ;;
  let self := mkRaster fname None d default_attrs (getattrs d) masked None None false [] in
  self <- _read_attrs self extra ;;
  if load_data
  then
    let self := load self in
    is_str <- isinstance file cls_str ;;
    Ok (mkRaster (filename self)
          (if is_str then Some true else matches_disk self)
          (ds self) (_saved_attrs self) (attrs self) (_masked self)
          (_data self)
          (option_map (fun a => fst (fst (ndarray.shape a))) (_data self))
          true (extras self))
  else Ok self.

(** The [transform] and [data] arguments of [from_array]. *)
Inductive PyTransform : Type :=
| TAffine (t : Affine)
| TTuple (l : list Q)
| TOther.

Inductive NdData : Type :=
| Data2 (d : dtype) (ma : bool) (rows : list (list cell))
| Data3 (a : Array).

(** [Raster.from_array(data, transform, crs, nodata)]. *)
Definition from_array (data : NdData) (transform : PyTransform) (crs : CrsInput)
    (nodata : PyNodata) : result Raster :=
  transform <-
    match transform with
    | TAffine t => Ok t
    | TTuple (a :: b :: c :: d :: e :: f :: third_row) =>
        (* Affine(a, b, c, d, e, f, g=0.0, h=0.0, i=1.0): the third row is
           not part of the georeferencing that is written *)
        if (length third_row <=? 3)%nat then Ok (mkAffine a b c d e f)
        else Raise (TypeError "__new__() takes from 7 to 10 positional arguments")
    | TTuple _ => Raise (TypeError "__new__() missing required positional arguments")
    | TOther => Raise (ValueError "transform argument needs to be Affine or tuple.")
    end ;;
  crs <- match crs with
         | CrsInt code => c <- from_epsg code ;; Ok (CrsObj c)
         | other => Ok other
         end ;;
  let data := match data with
              | Data2 d ma rows => mkArray d ma [rows]     (* np.expand_dims(data, 0) *)
              | Data3 a => a
              end in
  let '(nb, h, w) := ndarray.shape data in
  mfh <- memfile_write (mkMeta "GTiff" (DType (a_dtype data)) nodata w h nb crs transform)
                       (Some data) ;;
  __init__ (FMemoryFile mfh) None true true false.

(** [_update(imgdata, metadata, vrt_to_driver)]: the new state of the
    object; an exception leaves the object as it was, since every
    assignment comes after the calls that can raise. *)
Definition _update (self : Raster) (imgdata : option Array) (metadata : option Meta)
    (vrt_to_driver : string) : result Raster :=
  let imgdata := match imgdata with None => data self | Some a => Some a end in
  let metadata := match metadata with None => rio.meta (ds self) | Some m => m end in
  let metadata :=
    if String.eqb (m_driver metadata) "VRT"
    then mkMeta vrt_to_driver (m_dtype metadata) (m_nodata metadata) (m_width metadata)
                (m_height metadata) (m_count metadata) (m_crs metadata)
                (m_transform metadata)
    else metadata in
  memfile <- memfile_write metadata imgdata ;;
  d <- rio.memfile_open memfile ;;
  let self := set_ds self d in
  self <- _read_attrs self None ;;
  let self := set_matches_disk self (Some false) in
  Ok (if isLoaded self then load self else self).

(** *** crop, shift *)

Inductive CropGeom : Type :=
| CropRaster (r : Raster)
| CropVector
| CropList (l : list Q)           (* a list or tuple of coordinates *)
| CropOther.

Definition with_size_transform (m : Meta) (h w : Z) (t : Affine) : Meta :=
  mkMeta (m_driver m) (m_dtype m) (m_nodata m) w h (m_count m) (m_crs m) t.

(** [np.zeros(shape)] and [np.ones(shape)] refuse a negative dimension. *)
Definition np_alloc (shape : Z * Z * Z) : result (Z * Z * Z) :=
  let '(n, h, w) := shape in
  if (n <? 0)%Z || (h <? 0)%Z || (w <? 0)%Z
  then Raise (ValueError "negative dimensions are not allowed")
  else Ok shape.

(** [crop(cropGeom, mode)]. *)
Definition crop (self : Raster) (cropGeom : CropGeom) (mode : string) : effect :=
  commit self [] (
    if negb (String.eqb mode "match_extent" || String.eqb mode "match_pixel")
    then Raise (AssertionError "mode must be one of 'match_pixel', 'match_extent'")
    else
      bb <- match cropGeom with
            | CropRaster r =>
                let b := bounds (attrs r) in
                Ok (mkBoundingBox (left b) (bottom b) (right b) (top b))
            | CropVector => Raise NotImplementedError
            | CropList [xmin; ymin; xmax; ymax] => Ok (mkBoundingBox xmin ymin xmax ymax)
            | CropList _ => Raise (ValueError "wrong number of values to unpack")
            | CropOther =>
                Raise (ValueError "cropGeom must be a Raster, Vector, or list of coordinates.")
            end ;;
      let meta := rio.meta (ds self) in
      if String.eqb mode "match_pixel"
      then
        '(crop_img, tfm) <- mask_mask (ds self) bb ;;
        let '(_, h, w) := ndarray.shape crop_img in
        _update self (Some crop_img) (Some (with_size_transform meta h w tfm)) "GTiff"
      else
        '(win_w, win_h) <- windows_from_bounds bb (transform (attrs self)) ;;
        let new_height := np.int win_h in
        let new_width := np.int win_w in
        new_tfm <- rio.from_bounds bb new_width new_height ;;
        arr <- match data self with
               | Some a => Ok a
               | None => Raise (AttributeError "'NoneType' object has no attribute 'dtype'")
               end ;;
        nb <- (if isLoaded self
               then match nbands self with
                    | Some n => Ok n
                    | None => Raise (TypeError "'NoneType' object cannot be interpreted as an integer")
                    end
               else Ok (count (attrs self))) ;;
        new_img <- np_alloc (nb, new_height, new_width) ;;
        '(crop_img, tfm) <-
          warp_reproject (data self)
            (mkReprojKwargs (transform (attrs self)) (crs (attrs self)) (crs (attrs self))
               nearest None None (Some (affine.to_f64 new_tfm)) (Some new_img)) ;;
        _update self (Some crop_img)
                (Some (with_size_transform meta new_height new_width tfm)) "GTiff").

(** [shift(xoff, yoff)]. *)
Definition shift (self : Raster) (xoff yoff : Q) : effect :=
  let meta := rio.meta (ds self) in
  let t := transform (attrs self) in
  let t' := mkAffine (af_a t) (af_b t) (af_c t + xoff) (af_d t) (af_e t) (af_f t + yoff) in
  commit self []
    (_update self None (Some (with_size_transform meta (m_height meta) (m_width meta) t'))
             "GTiff").

(** *** set_ndv, set_dtypes *)

(** The [ndv] argument: a number, a sequence of numbers, anything else. *)
Inductive PyNdv : Type :=
| NdvNum (v : Q)
| NdvSeq (l : list Q)
| NdvOther.

(** Lines 593-606: the checks on [ndv] and its broadcast; gives the lines
    printed and the value [ndv] is bound to afterwards. *)
Definition ndv_normalise (count : Z) (ndv : PyNdv) : list string * result PyNodata :=
  match ndv with
  | NdvOther =>
      ([], Raise (ValueError "Type of ndv not understood, must be list or float or int"))
  | NdvNum v =>
      if (1 <? count)%Z
      then (["Several raster band: using nodata value for all bands"%string],
            Ok (NdSeq (repeat v (Z.to_nat count))))
      else ([], Ok (NdNum v))
  | NdvSeq l =>
      if (count =? 1)%Z
      then (["Only one raster band: using first nodata value provided"%string],
            match l with
            | v :: _ => Ok (NdNum v)
            | [] => Raise (IndexError "list index out of range")
            end)
      else ([], Ok (NdSeq l))
  end.

(** [imgdata.data[.., mask] = v] and [imgdata[.., imgdata == pre] = v] on
    one band; the value is stored in the array's dtype. *)
Definition fill_masked (d : dtype) (v : Q) (band : list (list cell)) : list (list cell) :=
  map (map (fun c : cell => if snd c then (ndarray.cast d v, snd c) else c)) band.

Definition replace_eq (d : dtype) (pre v : Q) (band : list (list cell)) : list (list cell) :=
  map (map (fun c : cell => if Qeqb (fst c) pre then (ndarray.cast d v, snd c) else c)) band.

Fixpoint update_nth {A} (i : nat) (f : A -> A) (l : list A) : list A :=
  match l, i with
  | [], _ => []
  | x :: l', O => f x :: l'
  | x :: l', S i' => x :: update_nth i' f l'
  end.

(** The loop [for i in range(self.count)] of lines 630-635, run on the
    array in place: gives the array as the loop leaves it. *)
Fixpoint ndv_loop (bands : list nat) (ndv : PyNodata) (arr : Array) : Array * result unit :=
  match bands with
  | [] => (arr, Ok tt)
  | i :: rest =>
      if a_ma arr
      then
        match ndv with
        | NdSeq l =>
            match nth_error l i with
            | None => (arr, Raise (IndexError "list index out of range"))
            | Some v =>
                if (i <? length (a_cells arr))%nat
                then ndv_loop rest ndv
                       (mkArray (a_dtype arr) (a_ma arr)
                          (update_nth i (fill_masked (a_dtype arr) v) (a_cells arr)))
                else (arr, Raise (IndexError "index is out of bounds for axis 0"))
            end
        | _ => (arr, Raise (TypeError "'float' object is not subscriptable"))
        end
      else
        if (i <? length (a_cells arr))%nat
        then (arr, Raise (TypeError "'float' object is not subscriptable"))  (* pre_ndv[i] *)
        else (arr, Raise (IndexError "index is out of bounds for axis 0"))
  end.

(** Lines 614-637: the array after the in-place rewrite, and the value
    passed on as [imgdata]. *)
Definition ndv_rewrite (count : Z) (pre_ndv : option Q) (update_array : bool)
    (ndv : PyNodata) (imgdata : option Array) : option Array * result (option Array) :=
  match update_array, pre_ndv with
  | true, Some pre =>
      match imgdata with
      | None =>
          (* [imgdata[:]], resp. [imgdata[i, :]] in the first turn of the loop *)
          if (count =? 1)%Z || (0 <? count)%Z
          then (None, Raise (TypeError "'NoneType' object is not subscriptable"))
          else (None, Ok None)
      | Some arr =>
          if (count =? 1)%Z
          then
            match ndv with
            | NdNum v =>
                let arr' :=
                  mkArray (a_dtype arr) (a_ma arr)
                    (map (if a_ma arr then fill_masked (a_dtype arr) v
                          else replace_eq (a_dtype arr) pre v) (a_cells arr)) in
                (Some arr', Ok (Some arr'))
            | _ => (Some arr, Raise (LibraryError "cannot assign this value to the selection"))
            end
          else
            let '(arr', r) := ndv_loop (seq 0 (Z.to_nat count)) ndv arr in
            (Some arr', _ <- r ;; Ok (Some arr'))
      end
  | _, _ => (imgdata, Ok None)
  end.

(** [set_ndv(ndv, update_array)]. *)
Definition set_ndv (self : Raster) (ndv : PyNdv) (update_array : bool) : effect :=
  let '(out, r) := ndv_normalise (count (attrs self)) ndv in
  match r with
  | Raise e => (self, out, Raise e)
  | Ok ndv =>
      let meta := rio.meta (ds self) in
      let meta := mkMeta (m_driver meta) (m_dtype meta) ndv (m_width meta) (m_height meta)
                         (m_count meta) (m_crs meta) (m_transform meta) in
      let '(data', r) :=
        ndv_rewrite (count (attrs self)) (nodata (attrs self)) update_array ndv (data self) in
      let self := set__data self data' in
      commit self out (imgdata <- r ;; _update self imgdata (Some meta) "GTiff")
  end.

(** The [dtypes] argument: one type or name, a sequence, anything else. *)
Inductive PyDtypes : Type :=
| DtOne (d : DtypeSpec)
| DtSeq (l : list DtypeSpec)
| DtOther.

(** Lines 652-660. *)
Definition dtypes_normalise (count : Z) (dtypes : PyDtypes)
  : list string * result (list DtypeSpec) :=
  match dtypes with
  | DtOther =>
      ([], Raise (ValueError "Type of dtypes not understood, must be list or type or str"))
  | DtOne d =>
      (["Several raster band: using data type for all bands"%string],
       Ok (repeat d (Z.to_nat count)))
  | DtSeq l =>
      if (count =? 1)%Z
      then (["Only one raster band: using first data type provided"%string], Ok l)
      else ([], Ok l)
  end.

(** Lines 670-679: the array handed to [_update].  With several bands the
    loop header iterates over the integer [imgdata.shape[0]]. *)
Definition dtypes_cast (count : Z) (update_array : bool) (first : DtypeSpec)
    (imgdata : option Array) : result (option Array) :=
  if update_array
  then
    match imgdata with
    | None => Raise (AttributeError "'NoneType' object has no attribute 'astype'")
    | Some arr =>
        arr' <- ndarray.astype arr first ;;
        if (count =? 1)%Z
        then Ok (Some arr')
        else Raise (TypeError "'int' object is not iterable")
    end
  else Ok None.

(** [set_dtypes(dtypes, update_array)]. *)
Definition set_dtypes (self : Raster) (dtypes : PyDtypes) (update_array : bool) : effect :=
  let '(out, r) := dtypes_normalise (count (attrs self)) dtypes in
  commit self out (
    dtypes <- r ;;
    let meta := rio.meta (ds self) in
    first <- match dtypes with
             | d :: _ => Ok d
             | [] => Raise (IndexError "tuple index out of range")
             end ;;
    let meta := mkMeta (m_driver meta) first (m_nodata meta) (m_width meta) (m_height meta)
                       (m_count meta) (m_crs meta) (m_transform meta) in
    imgdata <- dtypes_cast (count (attrs self)) update_array first (data self) ;;
    _update self imgdata (Some meta) "GTiff").

(** *** reproject *)

Inductive DstRef : Type :=
| RefRaster (r : Raster)
| RefDataset (d : Dataset)        (* rasterio.io.DatasetReader *)
| RefMemoryFile (m : MemoryFile)
| RefPath (s : string)
| RefOther.

(** [dst_bounds]: a BoundingBox, or a dict with the four keys. *)
Inductive DstBounds : Type :=
| BoundsBox (bb : BoundingBox)
| BoundsDict (l b r t : Q).

(** The grid parameters as they stand after argument validation. *)
Record GridArgs : Type := mkGridArgs
  { g_crs : CRS;
    g_size : option (Z * Z);
    g_res : option DstRes;
    g_bounds : option DstBounds }.

(** Lines 460-480: the reference raster and what is read from it. *)
Definition read_ref (dst_ref : DstRef) : result (CRS * (Z * Z) * BoundingBox) :=
  match dst_ref with
  | RefRaster r =>
      Ok (crs (attrs r), (width (attrs r), height (attrs r)), bounds (attrs r))
  | RefDataset d => Ok (ds_crs d, (ds_width d, ds_height d), rio.bounds d)
  | RefMemoryFile _ => Raise (AttributeError "'MemoryFile' object has no attribute 'crs'")
  | RefPath s =>
      if path_exists s
      then
        r <- __init__ (FStr s) None false true false ;;
        Ok (crs (attrs r), (width (attrs r), height (attrs r)), bounds (attrs r))
      else Raise (AssertionError "Reference raster does not exist")
  | RefOther =>
      Raise (ValueError
        "Type of dst_ref not understood, must be path to file (str), Raster or rasterio data set")
  end.

(** Lines 452-488: argument validation. *)
Definition reproject_validate (dst_ref : option DstRef) (dst_crs : option CrsInput)
    (dst_size : option (Z * Z)) (dst_bounds : option DstBounds) (dst_res : option DstRes)
  : result GridArgs :=
  g <- match dst_ref, dst_crs with
       | Some _, Some _ =>
           Raise (ValueError "Either of `dst_ref` or `dst_crs` must be set. Not both.")
       | None, None => Raise (ValueError "One of `dst_ref` or `dst_crs` must be set.")
       | Some ref, None =>
           '(c, size, bb) <- read_ref ref ;;
           Ok (mkGridArgs c (Some size) None (Some (BoundsBox bb)))
       | None, Some c =>
           c <- from_user_input c ;;
           Ok (mkGridArgs c dst_size dst_res dst_bounds)
       end ;;
  match g_size g, g_res g with
  | Some _, Some _ => Raise (ValueError "dst_size and dst_res both specified. Specify only one.")
  | _, _ => Ok g
  end.

(** Lines 503-507: a dict of bounds becomes a BoundingBox. *)
Definition as_bounding_box (b : DstBounds) : BoundingBox :=
  match b with
  | BoundsBox bb => bb
  | BoundsDict l b r t => mkBoundingBox l b r t
  end.

(** The four bounds as the floats Python holds. *)
Definition bounds_to_f64 (bb : BoundingBox) : BoundingBox64 :=
  mkBoundingBox64 (f64.of_Q (left bb)) (f64.of_Q (bottom bb))
                  (f64.of_Q (right bb)) (f64.of_Q (top bb)).

(** Lines 511-536, in binary64: with a resolution and bounds, the size
    and the adjusted bounds.  The quotient of line 527 is one of Python
    floats and raises on a zero resolution; the one of line 528 has a
    numpy float on the left ([np.abs]) and gives an infinity or a NaN,
    which [int] then refuses.  [dst_width] and [dst_height] stay floats,
    so the adjusted bounds are numpy floats. *)
Definition size_from_res (bb : BoundingBox) (dst_res : DstRes)
  : result ((Z * Z) * BoundingBox64) :=
  '(xres, yres) <-
    match dst_res with
    | ResTuple (x :: y :: _) => Ok (x, y)
    | ResTuple _ => Raise (IndexError "tuple index out of range")
    | ResNum r => Ok (r, r)
    end ;;
  let xres := f64.of_Q xres in
  let yres := f64.of_Q yres in
  let b := bounds_to_f64 bb in
  if f64.is_zero xres then Raise ZeroDivisionError
  else
    let dst_width := f64.ceil (PrimFloat.div (PrimFloat.sub (fright b) (fleft b)) xres) in
    let dst_height :=
      f64.ceil (PrimFloat.div (PrimFloat.abs (PrimFloat.sub (fbottom b) (ftop b))) yres) in
    w <- f64.to_int dst_width ;;
    h <- f64.to_int dst_height ;;
    let x1 := PrimFloat.add (fleft b) (PrimFloat.mul xres dst_width) in
    let y1 := PrimFloat.sub (ftop b) (PrimFloat.mul yres dst_height) in
    Ok ((w, h), mkBoundingBox64 (fleft b) y1 x1 (ftop b)).

(** Lines 503-550: the keyword arguments for the warp and the transform
    fixed in advance, if any.  Bounds that come out of [size_from_res] are
    numpy floats, the others Python floats. *)
Definition reproject_grid (count : Z) (g : GridArgs) (kw : ReprojKwargs)
  : result (ReprojKwargs * option Affine64) :=
  let dst_bounds := option_map as_bounding_box (g_bounds g) in
  '(kw, dst_size, dst_bounds) <-
    match g_res g, dst_bounds with
    | Some res, None =>
        Ok (mkReprojKwargs (src_transform kw) (src_crs kw) (dst_crs kw) (resampling kw)
              (dst_nodata kw) (Some res) (dst_transform kw) (destination kw),
            g_size g, None)
    | Some res, Some bb =>
        '(size, bb') <- size_from_res bb res ;;
        Ok (kw, Some size, Some (true, bb'))
    | None, Some bb => Ok (kw, g_size g, Some (false, bounds_to_f64 bb))
    | None, None => Ok (kw, g_size g, None)
    end ;;
  match dst_size with
  | Some (nx, ny) =>
      let dst_shape := (count, ny, nx) in
      '(kw, fixed) <-
        match dst_bounds with
        | Some (numpy_bounds, bb) =>
            t <- rio.from_bounds64 numpy_bounds bb nx ny ;;
            Ok (mkReprojKwargs (src_transform kw) (src_crs kw) (dst_crs kw) (resampling kw)
                  (dst_nodata kw) (dst_resolution kw) (Some t) (destination kw), Some t)
        | None => Ok (kw, None)
        end ;;
      dst_data <- np_alloc dst_shape ;;
      Ok (mkReprojKwargs (src_transform kw) (src_crs kw) (dst_crs kw) (resampling kw)
            (dst_nodata kw) (dst_resolution kw) (dst_transform kw) (Some dst_data),
          fixed)
  | None => Ok (kw, None)
  end.

(** [self.nodata], under a name the arguments of [reproject] do not hide. *)
Definition self_nodata (self : Raster) : option Q := nodata (attrs self).

Definition affine_eqb (s t : Affine) : bool :=
  Qeqb (af_a s) (af_a t) && Qeqb (af_b s) (af_b t) && Qeqb (af_c s) (af_c t) &&
  Qeqb (af_d s) (af_d t) && Qeqb (af_e s) (af_e t) && Qeqb (af_f s) (af_f t).

(** [reproject(dst_ref, dst_crs, dst_size, dst_bounds, dst_res, nodata,
    dtype, resampling)]: a new Raster; nothing is assigned on [self]. *)
Definition reproject (self : Raster) (dst_ref : option DstRef) (dst_crs : option CrsInput)
    (dst_size : option (Z * Z)) (dst_bounds : option DstBounds) (dst_res : option DstRes)
    (nodata : PyNodata) (dtype : option DtypeSpec) (resampling : Resampling)
  : result Raster :=
  g <- reproject_validate dst_ref dst_crs dst_size dst_bounds dst_res ;;
  _ <- match dtype, dtypes (attrs self) with
       | None, [] => Raise (IndexError "tuple index out of range")
       | _, _ => Ok tt
       end ;;
  let reproj_kwargs :=
    mkReprojKwargs (transform (attrs self)) (crs (attrs self)) (g_crs g) resampling
                   (self_nodata self) None None None in
  '(reproj_kwargs, fixed) <- reproject_grid (count (attrs self)) g reproj_kwargs ;;
  '(dst_data, dst_transformed) <- warp_reproject (data self) reproj_kwargs ;;
  _ <- match fixed with
       | Some t =>
           if affine.eqb64 t dst_transformed then Ok tt else Raise (AssertionError "")
       | None => Ok tt
       end ;;
  from_array (Data3 dst_data) (TAffine dst_transformed) (CrsObj (g_crs g)) nodata.

(** *** save *)

(** A file on disk as [save] leaves it, and the files written so far. *)
Record DiskFile : Type := mkDiskFile
  { df_dataset : Dataset;
    df_tags : list (string * string);
    df_gcps : option (list (list Q) * option CRS) }.

Definition FileSystem : Type := list (string * DiskFile).

Inductive PyBlank : Type :=
| BlankNone
| BlankNum (v : Q)
| BlankOther.

Inductive PyGcps : Type :=
| GcpList (l : list (list Q))
| GcpOther.

(** What a call hands back when it does not raise. *)
Inductive PyReturn : Type :=
| RetNone
| RetException (e : exn).         (* an exception object, returned *)

Definition identity_affine : Affine := mkAffine 1 0 0 0 1 0.

(** Lines 730-761: the file is created and filled, then tagged, then the
    ground control points are checked and attached. *)
Definition save_write (self : Raster) (file : string) (driver : string) (save_data : Array)
    (co_opts metadata : list (string * string)) (gcps : PyGcps) (gcps_crs : option CRS)
    (fs : FileSystem) : FileSystem * list string * result PyReturn :=
  let d0 := ds self in
  match rio_create driver
          (mkMeta driver (DType (a_dtype save_data))
             (match ds_nodata d0 with Some v => NdNum v | None => NdNone end)
             (ds_width d0) (ds_height d0) (ds_count d0) (CrsObj (ds_crs d0))
             (ds_transform d0))
          co_opts save_data with
  | Raise e => (fs, [], Raise e)
  | Ok written =>
      let fs' := (file, mkDiskFile written metadata None) :: fs in
      match gcps with
      | GcpOther => (fs', [], Raise (ValueError "gcps must be a list"))
      | GcpList [] => (fs', [], Ok RetNone)
      | GcpList l =>
          if existsb (fun g => negb ((length g =? 4)%nat || (length g =? 5)%nat)) l
          then (fs', [], Raise (LibraryError "GroundControlPoint: wrong number of arguments"))
          else
            ((file, mkDiskFile written metadata (Some (l, gcps_crs))) :: fs,
             if affine_eqb (ds_transform written) identity_affine then []
             else ["A geotransform previously set is going to be cleared due to the setting of GCPs."%string],
             Ok RetNone)
      end
  end.

(** [save(filename, driver, dtype, blank_value, co_opts, metadata, gcps,
    gcps_crs)]: the files after the call, the warnings, and the outcome. *)
Definition save (self : Raster) (file : string) (driver : string)
    (dtype : option DtypeSpec) (blank_value : PyBlank) (co_opts metadata : list (string * string))
    (gcps : PyGcps) (gcps_crs : option CRS) (fs : FileSystem)
  : FileSystem * list string * result PyReturn :=
  match dtype, data self with
  | None, None => (fs, [], Raise (AttributeError "'NoneType' object has no attribute 'dtype'"))
  | _, _ =>
      match data self, blank_value with
      | None, BlankNone =>
          (fs, [], Ok (RetException
             (AttributeError "No data loaded, and alterative blank_value not set.")))
      | _, BlankOther =>
          (fs, [], Raise (ValueError "blank_values must be one of int, float (or None)."))
      | _, BlankNum v =>
          let d0 := ds self in
          save_write self file driver
            (mkArray float64 false
               (repeat (repeat (repeat (v, false) (Z.to_nat (ds_width d0)))
                               (Z.to_nat (ds_height d0)))
                       (Z.to_nat (ds_count d0))))
            co_opts metadata gcps gcps_crs fs
      | Some a, BlankNone => save_write self file driver a co_opts metadata gcps gcps_crs fs
      end
  end.

End Methods.

(** ** A reference instance of the library, and example rasters

    The instance below fixes one behaviour of the abstract routines, enough
    to run the methods on concrete rasters: datasets are written as given
    when dtype, nodata and shape fit (a nodata value outside the range of
    the dtype is refused); the warp and the mask are the identity where
    that is what rasterio computes (same CRS and grid, a box covering the
    raster) and fail otherwise; a dataset has the attributes [meta],
    [profile], [mode] and [closed] beside the default ones. *)

Definition example_transform : Affine := mkAffine 30 0 478000 0 (-30) 3108140.

Definition example_pixels (nb h w : nat) : list (list (list Q)) :=
  map (fun b => map (fun r => map (fun c =>
         ZtoQ (Z.of_nat ((b * 7 + r * 3 + c) mod 200))) (seq 0 w)) (seq 0 h)) (seq 0 nb).

(** One band, 100 x 100, 30 m pixels, rooted at (478000, 3108140). *)
Definition example_ds : Dataset :=
  mkDataset "dem.tif" "GTiff" uint8 (Some 255) 100 100 1 (EPSG 32645) example_transform
            (example_pixels 1 100 100).

(** Three bands, 4 rows, 5 columns. *)
Definition example_rgb : Dataset :=
  mkDataset "rgb.tif" "GTiff" uint8 (Some 255) 5 4 3 (EPSG 32645) example_transform
            (example_pixels 3 4 5).

Definition crs_eqb (x y : CRS) : bool :=
  match x, y with
  | EPSG a, EPSG b => (a =? b)%Z
  | WKT a, WKT b => String.eqb a b
  | _, _ => false
  end.

Definition ref_from_user_input (c : CrsInput) : result CRS :=
  match c with
  | CrsInt code => Ok (EPSG code)
  | CrsStr s => Ok (WKT s)
  | CrsObj c => Ok c
  end.

(** Whether a nodata value lies in the range of a dtype. *)
Definition in_dtype_range (d : dtype) (v : Q) : bool :=
  match ndarray.int_range d with
  | Some (lo, m) => Qle_bool (ZtoQ lo) v && Qle_bool v (ZtoQ (lo + m - 1))
  | None =>
      let top := match d with
                 | float32 => ZtoQ ((2 ^ 24 - 1) * 2 ^ 104)
                 | _ => ZtoQ ((2 ^ 53 - 1) * 2 ^ 971)
                 end in
      Qle_bool (- top) v && Qle_bool v top
  end.

Definition ref_write (nm : string) (meta : Meta) (imgdata : option Array) : result Dataset :=
  match imgdata with
  | None => Raise (LibraryError "cannot write None")
  | Some arr =>
      d <- ndarray.resolve (m_dtype meta) ;;
      nd <- match m_nodata meta with
            | NdNone => Ok None
            | NdNum v =>
                if in_dtype_range d v then Ok (Some v)
                else Raise (ValueError
                  "Given nodata value is beyond the valid range of its data type")
            | NdSeq _ => Raise (LibraryError "nodata must be a number")
            end ;;
      c <- ref_from_user_input (m_crs meta) ;;
      if negb (dtype_eqb d (a_dtype arr))
      then Raise (LibraryError "the array's dtype does not match the file's dtype")
      else
        let '(nb, h, w) := ndarray.shape arr in
        if negb ((nb =? m_count meta)%Z && (h =? m_height meta)%Z && (w =? m_width meta)%Z)
        then Raise (LibraryError "Source shape is inconsistent with given indexes")
        else Ok (mkDataset nm (m_driver meta) d nd (m_width meta) (m_height meta)
                           (m_count meta) c (m_transform meta)
                           (map (map (map fst)) (a_cells arr)))
  end.

Definition ref_open (s : string) : result Dataset :=
  if String.eqb s "dem.tif" then Ok example_ds
  else if String.eqb s "rgb.tif" then Ok example_rgb
  else Raise (LibraryError "No such file or directory").

Definition ref_mask (d : Dataset) (bb : BoundingBox) : result (Array * Affine) :=
  let b := rio.bounds d in
  if Qle_bool (left bb) (left b) && Qle_bool (bottom bb) (bottom b) &&
     Qle_bool (right b) (right bb) && Qle_bool (top b) (top bb)
  then Ok (rio.read_all d false, ds_transform d)
  else Raise (LibraryError "mask: box inside the raster, not covered by this instance").

Definition ref_warp (src : option Array) (kw : ReprojKwargs) : result (Array * Affine) :=
  match src with
  | None => Raise (LibraryError "source is None")
  | Some arr =>
      if crs_eqb (src_crs kw) (dst_crs kw) &&
         match dst_resolution kw with None => true | Some _ => false end &&
         match dst_transform kw with
         | None => true
         | Some t => affine.eqb64 t (src_transform kw)
         end &&
         match destination kw with
         | None => true
         | Some (nb, h, w) =>
             let '(nb', h', w') := ndarray.shape arr in
             (nb =? nb')%Z && (h =? h')%Z && (w =? w')%Z
         end
      then Ok (arr, src_transform kw)
      else Raise (LibraryError "warp: change of grid, not covered by this instance")
  end.

Definition ref_getattr (d : Dataset) (a : string) : result PyObject :=
  if String.eqb a "meta" then Ok (Obj (String.append "meta of " (ds_name d)))
  else if String.eqb a "profile" then Ok (Obj (String.append "profile of " (ds_name d)))
  else if String.eqb a "mode" then Ok (Obj "r")
  else if String.eqb a "closed" then Ok (Obj "False")
  else Raise (AttributeError
         (String.append "'DatasetReader' object has no attribute " a)).

#[local] Instance reference_rasterio : Rasterio :=
  {| rio_open := ref_open;
     memfile_from_path := ref_open;
     memfile_write := fun meta imgdata =>
       d <- ref_write "/vsimem/file.tif" meta imgdata ;; Ok (mkMemoryFile (Some d));
     mask_mask := ref_mask;
     warp_reproject := ref_warp;
     windows_from_bounds := fun bb t =>
       if Qeqb (af_a t) 0 || Qeqb (af_e t) 0 then Raise ZeroDivisionError
       else Ok ((right bb - left bb) / af_a t, (bottom bb - top bb) / af_e t);
     from_user_input := ref_from_user_input;
     from_epsg := fun code => Ok (EPSG code);
     path_exists := fun s => String.eqb s "dem.tif" || String.eqb s "rgb.tif";
     abspath := fun s => String.append "/data/" s;
     rio_create := fun driver meta _ arr => ref_write "out.tif" meta (Some arr);
     dataset_getattr := ref_getattr |}.

(** The example rasters, opened from disk with the data loaded. *)
Definition example_raster : result Raster := __init__ (FStr "dem.tif") None true true false.
Definition example_raster_rgb : result Raster := __init__ (FStr "rgb.tif") None true true false.

Definition unwrap (r : result Raster) (default : Raster) : Raster :=
  match r with Ok x => x | Raise _ => default end.

Definition blank_raster : Raster :=
  mkRaster None None example_ds default_attrs (getattrs example_ds) true None None false [].

Definition dem : Raster := unwrap example_raster blank_raster.
Definition rgb : Raster := unwrap example_raster_rgb blank_raster.

(** ** Definitions used to state the properties *)

(** Pointwise [==] of two coordinate axes and of two coordinate grids, as
    a test. *)
Fixpoint Qlist_eqb (u v : list Q) : bool :=
  match u, v with
  | [], [] => true
  | x :: u', y :: v' => Qeq_bool x y && Qlist_eqb u' v'
  | _, _ => false
  end.

Fixpoint Qgrid_eqb (u v : list (list Q)) : bool :=
  match u, v with
  | [], [] => true
  | x :: u', y :: v' => Qlist_eqb x y && Qgrid_eqb u' v'
  | _, _ => false
  end.

Definition Qgrid_eq (u v : list (list Q)) : Prop := Forall2 (Forall2 Qeq) u v.

(** The grid whose entry (i, j) is [x0 + j * dx], resp. [y0 + i * dy]. *)
Definition x_grid (x0 dx : Q) (rows cols : nat) : list (list Q) :=
  repeat (map (fun j => x0 + ZtoQ (Z.of_nat j) * dx) (seq 0 cols)) rows.

Definition y_grid (y0 dy : Q) (rows cols : nat) : list (list Q) :=
  map (fun i => repeat (y0 + ZtoQ (Z.of_nat i) * dy) cols) (seq 0 rows).

(** The cell a boundless read gives at (row, col) of band [b]: the stored
    value, masked if it is the nodata value and a masked array is asked
    for; beyond the edge the fill value, masked. *)
Definition cell_at (d : Dataset) (fill_value : option Q) (masked : bool) (b : nat)
    (row col : Z) : cell :=
  match rio.pixel d b row col with
  | Some v => (v, masked && rio.is_nodata d v)
  | None =>
      (match fill_value with
       | Some v => v
       | None => match ds_nodata d with Some v => v | None => 0 end
       end, masked)
  end.




(** [xres, yres] as lines 518-523 read them from [dst_res]. *)
Definition res_pair (dst_res : DstRes) : option (Q * Q) :=
  match dst_res with
  | ResNum r => Some (r, r)
  | ResTuple (x :: y :: _) => Some (x, y)
  | ResTuple _ => None
  end.

(** Lines 552-564: the call of the warp with the assembled keyword
    arguments, the check of the transform it reports against the one fixed
    in advance, and the new Raster. *)
Definition warp_onto {RIO : Rasterio} (self : Raster) (kw : ReprojKwargs)
    (nodata : PyNodata) : result Raster :=
  '(dst_data, dst_transformed) <- warp_reproject (data self) kw ;;
  _ <- match dst_transform kw with
       | Some t =>
           if affine.eqb64 t dst_transformed then Ok tt else Raise (AssertionError "")
       | None => Ok tt
       end ;;
  from_array (Data3 dst_data) (TAffine dst_transformed) (CrsObj (dst_crs kw)) nodata.

(** The x coordinate where a grid of [w] columns ends and the y
    coordinate where one of [h] rows ends, as exact numbers. *)
Definition right_edge (t : Affine64) (w : Z) : option Q :=
  match f64.to_Q (fa_c t), f64.to_Q (fa_a t) with
  | Some c, Some a => Some (c + a * ZtoQ w)
  | _, _ => None
  end.

Definition bottom_edge (t : Affine64) (h : Z) : option Q :=
  match f64.to_Q (fa_f t), f64.to_Q (fa_e t) with
  | Some f, Some e => Some (f + e * ZtoQ h)
  | _, _ => None
  end.

(** ** Further methods of the Raster object *)

(** The value assigned through the [data] setter. *)
Inductive PyNewData : Type :=
| NewArray (a : Array)            (* an ndarray, masked or not *)
| NewOther.                       (* anything else *)

Definition shape_eqb (s t : Z * Z * Z) : bool :=
  let '(a, b, c) := s in
  let '(a', b', c') := t in
  (a =? a')%Z && (b =? b')%Z && (c =? c')%Z.

(** The setter of the [data] property (lines 210-232); the messages are
    given without the shape and dtype they are formatted with. *)
Definition data_setter (self : Raster) (new_data : PyNewData) : effect :=
  match new_data with
  | NewOther => (self, [], Raise (ValueError "New data must be a numpy array."))
  | NewArray a =>
      match _data self with
      | None => (self, [], Raise (AttributeError "'NoneType' object has no attribute 'shape'"))
      | Some old =>
          if negb (shape_eqb (ndarray.shape a) (ndarray.shape old))
          then (self, [],
                Raise (ValueError "New data must be of the same shape as existing data"))
          else if negb (dtype_eqb (a_dtype a) (a_dtype old))
          then (self, [],
                Raise (ValueError "New data must be of the same type as existing data"))
          else (set__data self (Some a), [], Ok tt)
      end
  end.

(** [copy(new_array)]. *)
Definition copy {RIO : Rasterio} (self : Raster) (new_array : option NdData)
  : result Raster :=
  let data := match new_array with
              | Some a => Some a
              | None => option_map Data3 (data self)
              end in
  match data with
  | None => Raise (AttributeError "'NoneType' object has no attribute 'shape'")
  | Some d =>
      from_array d (TAffine (transform (attrs self))) (CrsObj (crs (attrs self)))
                 (match nodata (attrs self) with Some v => NdNum v | None => NdNone end)
  end.

(** *** interp_points *)

(** The slice [l[start:stop]] of Python: a negative bound counts from the
    end, bounds are clipped to the list. *)
Definition py_slice {A} (l : list A) (start stop : Z) : list A :=
  let n := Z.of_nat (length l) in
  let norm := fun k => if (k <? 0)%Z then Z.max 0 (k + n) else Z.min k n in
  firstn (Z.to_nat (norm stop - norm start)) (skipn (Z.to_nat (norm start)) l).

(** [arr[k]] on the first axis: a negative index counts from the end. *)
Definition py_index {A} (l : list A) (k : Z) : result A :=
  let n := Z.of_nat (length l) in
  let k' := if (k <? 0)%Z then (k + n)%Z else k in
  if (k' <? 0)%Z || (n <=? k')%Z
  then Raise (IndexError "index is out of bounds for axis 0")
  else match nth_error l (Z.to_nat k') with
       | Some x => Ok x
       | None => Raise (IndexError "index is out of bounds for axis 0")
       end.

(** The numerical kernels of [interp_points], which this repository takes
    from scipy and numpy: [griddata(points, values, xi, method)[0]] and
    [np.nanmean].  [None] stands for NaN. *)
Class Interpolation : Type :=
  { griddata : list Q -> list Q -> list cell -> Q * Q -> string -> result (option Q);
    nanmean : list cell -> option Q }.

(** What the [except] branch prints. *)
Inductive Printed : Type :=
| PLine (s : string)
| PPoint (pt : Q * Q)
| PIndex (i j : Z)
| PAxis (v : list Q)
| PWindow (z : list (list cell)).

Definition is_spline_mode (mode : string) : bool :=
  String.eqb mode "linear" || String.eqb mode "cubic" || String.eqb mode "quintic"
  || String.eqb mode "nearest".

(** The body of the loop for one point: the lines printed and the value
    appended to [rpts]. *)
Definition interp_point {NUM : Interpolation} (self : Raster) (xx yy : list Q)
    (nsize : Z) (mode : string) (band : Z) (pt : Q * Q)
  : list Printed * result (option Q) :=
  match xy2ij self (fst pt) (snd pt) with
  | Raise e => ([], Raise e)
  | Ok (i, j) =>
      match outside_image self (ZtoQ i) (ZtoQ j) true with
      | Raise e => ([], Raise e)
      | Ok true => ([], Ok None)
      | Ok false =>
          let x := py_slice xx (j - nsize) (j + nsize + 1) in
          let y := py_slice yy (i - nsize) (i + nsize + 1) in
          match data self with
          | None => ([], Raise (TypeError "'NoneType' object is not subscriptable"))
          | Some arr =>
              match py_index (a_cells arr) (band - 1) with
              | Raise e => ([], Raise e)
              | Ok rows =>
                  let z := map (fun r => py_slice r (j - nsize) (j + nsize + 1))
                               (py_slice rows (i - nsize) (i + nsize + 1)) in
                  if is_spline_mode mode
                  then
                    let '(gx, gy) := np.meshgrid x y in
                    match griddata (concat gx) (concat gy) (concat z) pt mode with
                    | Ok v => ([], Ok v)
                    | Raise _ =>
                        ([PLine "Interpolation failed for:"; PPoint pt; PIndex i j;
                          PAxis x; PAxis y; PWindow z], Ok None)
                    end
                  else ([], Ok (nanmean (concat z)))
              end
          end
      end
  end.

(** The loop over [pts]. *)
Fixpoint interp_loop {NUM : Interpolation} (self : Raster) (xx yy : list Q)
    (nsize : Z) (mode : string) (band : Z) (pts : list (Q * Q))
  : list Printed * result (list (option Q)) :=
  match pts with
  | [] => ([], Ok [])
  | pt :: rest =>
      match interp_point self xx yy nsize mode band pt with
      | (out, Raise e) => (out, Raise e)
      | (out, Ok v) =>
          match interp_loop self xx yy nsize mode band rest with
          | (out', Raise e) => (out ++ out', Raise e)
          | (out', Ok vs) => (out ++ out', Ok (v :: vs))
          end
      end
  end.

(** [interp_points(pts, nsize, mode, band)]; each point is a pair. *)
Definition interp_points {NUM : Interpolation} (self : Raster) (pts : list (Q * Q))
    (nsize : Z) (mode : string) (band : Z) : list Printed * result (list (option Q)) :=
  if negb (String.eqb mode "mean" || is_spline_mode mode)
  then ([], Raise (AssertionError "mode must be mean, linear, cubic, quintic or nearest."))
  else
    match coords self "center" false with
    | Raise e => ([], Raise e)
    | Ok (Grid _ _) => ([], Raise (TypeError "grid=False gives the axes"))  (* not reached *)
    | Ok (Axes xx yy) => interp_loop self xx yy nsize mode band pts
    end.

(** ** Definitions used to state the further properties *)

(** The cached state agrees with the dataset handle: the copied attributes
    are those of [ds], and loaded data is what [ds] holds. *)
Definition coherent (self : Raster) : Prop :=
  attrs self = getattrs (ds self)
  /\ (isLoaded self = true ->
      _data self = Some (rio.read_all (ds self) (_masked self))
      /\ nbands self = Some (Z.of_nat (length (ds_pixels (ds self))))).

(** The names of the attributes and methods a Raster has of its own. *)
Definition raster_members : list string :=
  ["filename"; "matches_disk"; "ds"; "_saved_attrs"; "_masked"; "_data"; "nbands";
   "isLoaded"; "data"; "from_array"; "_read_attrs"; "_update"; "info"; "copy"; "load";
   "crop"; "clip"; "reproject"; "shift"; "set_ndv"; "set_dtypes"; "save"; "to_xarray";
   "get_bounds_projected"; "intersection"; "show"; "value_at_coords"; "coords"; "xy2ij";
   "ij2xy"; "outside_image"; "interp_points"]%string.

(** A name the object keeps for itself: one of its members, or a private
    or special name (leading underscore).  Copying a dataset attribute
    under such a name would overwrite a part of the object. *)
Definition own_name (a : string) : bool :=
  existsb (String.eqb a) raster_members
  || match a with
     | String c _ => Ascii.eqb c (Ascii.ascii_of_nat 95)
     | EmptyString => true
     end.

(** [getattr(self, a)] for a name outside the defaults. *)
Definition lookup (l : list (string * PyObject)) (a : string) : option PyObject :=
  option_map snd (find (fun p => String.eqb (fst p) a) l).

Definition extra_attr (self : Raster) (a : string) : option PyObject :=
  lookup (extras self) a.

(** A library that stores in a memory file what it is given: the header
    fields of the metadata, the dtype they name, and the values of the
    array. *)
Definition writes_as_given (RIO : Rasterio) : Prop :=
  forall meta arr mf,
    memfile_write meta (Some arr) = Ok mf ->
    exists d,
      mf_contents mf = Some d
      /\ ds_transform d = m_transform meta
      /\ ds_width d = m_width meta
      /\ ds_height d = m_height meta
      /\ ds_count d = m_count meta
      /\ ds_pixels d = map (map (map fst)) (a_cells arr)
      /\ (forall c, m_crs meta = CrsObj c -> ds_crs d = c)
      /\ ds_nodata d = match m_nodata meta with
                       | NdNum v => Some v
                       | _ => None
                       end
      /\ ndarray.resolve (m_dtype meta) = Ok (ds_dtype d).

(** The three-band example opened with [masked=False]: plain arrays. *)
Definition rgb_plain : Raster :=
  unwrap (__init__ (FStr "rgb.tif") None true false false) blank_raster.

(** The three-band example opened with [attrs=['meta']]. *)
Definition rgb_with_meta : Raster :=
  unwrap (__init__ (FStr "rgb.tif") (Some ["meta"%string]) true true false) blank_raster.

(** Kernels to run [interp_points] on examples: both answer the mean of
    the window, and [griddata] fails on an empty one. *)
#[local] Instance mean_kernels : Interpolation :=
  {| griddata := fun _ _ z _ _ =>
       match z with
       | [] => Raise (LibraryError "No points given")
       | _ => Ok (ndarray.ma_mean z)
       end;
     nanmean := ndarray.ma_mean |}.

(** A north-up grid: no rotation, x growing to the right, y falling. *)
Definition north_up (t : Affine) : Prop :=
  af_b t == 0 /\ af_d t == 0 /\ 0 < af_a t /\ af_e t < 0.

(** * Properties *)

(** ** Arithmetic lemmas *)

Lemma Qltb_lt x y : Qltb x y = true <-> x < y.
Proof.
  unfold Qltb. rewrite negb_true_iff.
  split; intro H.
  - apply Qnot_le_lt. intro Hle. apply Qle_bool_iff in Hle. congruence.
  - destruct (Qle_bool y x) eqn:E; [| reflexivity].
    apply Qle_bool_iff in E. exfalso. exact (Qlt_not_le _ _ H E).
Qed.

Lemma Qltb_ge x y : Qltb x y = false <-> y <= x.
Proof.
  unfold Qltb. rewrite negb_false_iff. apply Qle_bool_iff.
Qed.

Lemma int_of_Z (z : Z) : np.int (inject_Z z) = z.
Proof.
  unfold np.int. destruct (Qltb (inject_Z z) 0); [apply Qceiling_Z | apply Qfloor_Z].
Qed.


Lemma Qlist_eqb_spec (u v : list Q) : Qlist_eqb u v = true <-> Forall2 Qeq u v.
Proof.
  revert v. induction u as [| x u IH]; intros [| y v]; simpl; split; intro H;
    try discriminate; try constructor; try (inversion H; fail).
  - apply andb_true_iff in H. apply Qeq_bool_iff. tauto.
  - apply andb_true_iff in H. apply IH. tauto.
  - inversion H; subst. apply andb_true_iff. split.
    + now apply Qeq_bool_iff.
    + now apply IH.
Qed.

Lemma Qgrid_eqb_spec (u v : list (list Q)) : Qgrid_eqb u v = true <-> Qgrid_eq u v.
Proof.
  unfold Qgrid_eq.
  revert v. induction u as [| x u IH]; intros [| y v]; simpl; split; intro H;
    try discriminate; try constructor; try (inversion H; fail).
  - apply andb_true_iff in H. apply Qlist_eqb_spec. tauto.
  - apply andb_true_iff in H. apply IH. tauto.
  - inversion H; subst. apply andb_true_iff. split.
    + now apply Qlist_eqb_spec.
    + now apply IH.
Qed.

(** ** outside_image *)

Lemma outside_image_index_eq (self : Raster) (xi yj : Q) :
  outside_image self xi yj true =
  Ok (Qltb xi 0 || Qltb yj 0 ||
      (Qltb (ZtoQ (ds_width (ds self))) xi || Qltb (ZtoQ (ds_height (ds self))) yj)).
Proof.
  unfold outside_image. simpl.
  destruct (Qltb xi 0 || Qltb yj 0); simpl; [reflexivity |].
  destruct (Qltb (ZtoQ (ds_width (ds self))) xi || Qltb (ZtoQ (ds_height (ds self))) yj);
    reflexivity.
Qed.

(** C1.  With [index=True], [outside_image] answers [False] for the index
    pair (width, height), the pair one past the last pixel: the test is
    [xi > width or yj > height].  It does answer [True] when an input is
    negative or exceeds the width, resp. height, and [False] for (0, 0). *)
Theorem outside_image_width_height (self : Raster) :
  (0 <= ds_width (ds self))%Z -> (0 <= ds_height (ds self))%Z ->
  outside_image self (ZtoQ (ds_width (ds self))) (ZtoQ (ds_height (ds self))) true = Ok false
  /\ (forall xi yj, xi < 0 \/ yj < 0 \/ ZtoQ (ds_width (ds self)) < xi
                    \/ ZtoQ (ds_height (ds self)) < yj ->
                    outside_image self xi yj true = Ok true)
  /\ outside_image self 0 0 true = Ok false.
Proof.
  intros Hw Hh.
  assert (Hw0 : 0 <= ZtoQ (ds_width (ds self))).
  { change (inject_Z 0 <= inject_Z (ds_width (ds self))). now rewrite <- Zle_Qle. }
  assert (Hh0 : 0 <= ZtoQ (ds_height (ds self))).
  { change (inject_Z 0 <= inject_Z (ds_height (ds self))). now rewrite <- Zle_Qle. }
  repeat split.
  - rewrite outside_image_index_eq. f_equal.
    rewrite (proj2 (Qltb_ge _ _) Hw0), (proj2 (Qltb_ge _ _) Hh0).
    rewrite (proj2 (Qltb_ge _ _) (Qle_refl _)), (proj2 (Qltb_ge _ _) (Qle_refl _)).
    reflexivity.
  - intros xi yj H. rewrite outside_image_index_eq. f_equal.
    destruct H as [H | [H | [H | H]]]; apply Qltb_lt in H; rewrite H;
      repeat rewrite orb_true_r; reflexivity.
  - rewrite outside_image_index_eq. f_equal.
    rewrite (proj2 (Qltb_ge _ _) Hw0), (proj2 (Qltb_ge _ _) Hh0).
    reflexivity.
Qed.

Lemma outside_image_width_height_witness :
  outside_image dem 100 100 true = Ok false.
Proof.
  refine (proj1 (outside_image_width_height dem _ _)); vm_compute; discriminate.
Defined.

(** ** coords *)

(** [coords] reads the copied attributes only. *)
Lemma coords_attrs (self other : Raster) (offset : string) (grid : bool) :
  attrs self = attrs other -> coords self offset grid = coords other offset grid.
Proof.
  intro H. unfold coords. rewrite H. reflexivity.
Qed.

(** The gridded answer is the mesh of the two axes. *)
Lemma coords_grid_axes (self : Raster) (offset : string) :
  coords self offset true =
  match coords self offset false with
  | Ok (Axes xx yy) => Ok (Grid (fst (np.meshgrid xx yy)) (snd (np.meshgrid xx yy)))
  | Ok other => Ok other
  | Raise e => Raise e
  end.
Proof.
  unfold coords.
  destruct (negb (String.eqb offset "corner" || String.eqb offset "center"));
    [reflexivity |].
  destruct (np.linspace _ _ (width _ + 1)) as [xs | e]; [| reflexivity]. simpl.
  destruct (np.slice_step xs _) as [xx | e]; [| reflexivity]. simpl.
  destruct (np.linspace _ _ (height _ + 1)) as [ys | e]; [| reflexivity]. simpl.
  destruct (np.slice_step ys _) as [yy | e]; reflexivity.
Qed.

Lemma meshgrid_x (xx yy xs : list Q) :
  Forall2 Qeq xx xs -> Qgrid_eq (fst (np.meshgrid xx yy)) (repeat xs (length yy)).
Proof.
  intro H. unfold Qgrid_eq, np.meshgrid. simpl.
  induction yy; simpl; constructor; assumption.
Qed.

Lemma meshgrid_y (xx yy ys : list Q) :
  Forall2 Qeq yy ys ->
  Qgrid_eq (snd (np.meshgrid xx yy)) (map (fun y => repeat y (length xx)) ys).
Proof.
  unfold Qgrid_eq, np.meshgrid. simpl.
  intro H. induction H as [| y y' yy ys Hy _ IH]; simpl; constructor; [| exact IH].
  clear - Hy. induction xx; simpl; constructor; assumption.
Qed.

Lemma Qgrid_eq_common (g u v : list (list Q)) :
  Qgrid_eq g u -> Qgrid_eq g v -> Qgrid_eq u v.
Proof.
  unfold Qgrid_eq. intro H. revert v.
  induction H as [| x a g u Hxa _ IH]; intros v Hv; inversion Hv; subst; constructor.
  - clear - Hxa H1. revert y H1.
    induction Hxa as [| p q x a Hpq _ IHx]; intros y Hy; inversion Hy; subst; constructor.
    + rewrite <- Hpq. assumption.
    + apply IHx. assumption.
  - apply IH. assumption.
Qed.

(** C2.  On the single-band 100 x 100 raster with transform
    (30, 0, 478000, 0, -30, 3108140), [coords(offset='corner')] returns
    x-values that start at 478000 and grow by 30 per column, and y-values
    that start at 481000 and fall by 30 per row: the y axis is sampled
    between [xmin] and [xmax].  The y-values that start at 3108140 are not
    what is returned. *)
Theorem coords_corner_example (self : Raster) :
  attrs self = getattrs (ds self) ->
  ds_transform (ds self) = example_transform ->
  ds_width (ds self) = 100%Z ->
  ds_height (ds self) = 100%Z ->
  exists gx gy,
    coords self "corner" true = Ok (Grid gx gy)
    /\ Qgrid_eq gx (x_grid 478000 30 100 100)
    /\ Qgrid_eq gy (y_grid 481000 (-30) 100 100)
    /\ ~ Qgrid_eq gy (y_grid 3108140 (-30) 100 100).
Proof.
  intros Ha Ht Hw Hh.
  set (other :=
         mkRaster None None (ds self) default_attrs
           (mkAttrs (mkBoundingBox 478000 (3108140 + -30 * 100) (478000 + 30 * 100) 3108140)
              (count (attrs self)) (crs (attrs self)) (driver (attrs self))
              (dtypes (attrs self)) 100 (indexes (attrs self)) (name (attrs self))
              (nodata (attrs self)) (shape (attrs self)) example_transform 100)
           true None None false []).
  assert (Hattrs : attrs self = attrs other).
  { unfold other. simpl. rewrite Ha. unfold getattrs. simpl.
    unfold rio.bounds. rewrite Ht, Hw, Hh. reflexivity. }
  rewrite (coords_attrs self other "corner" true Hattrs), coords_grid_axes.
  assert (E : exists xx yy, coords other "corner" false = Ok (Axes xx yy)
                /\ Qlist_eqb xx (map (fun j => 478000 + ZtoQ (Z.of_nat j) * 30) (seq 0 100)) = true
                /\ Qlist_eqb yy (map (fun i => 481000 + ZtoQ (Z.of_nat i) * -30) (seq 0 100)) = true).
  { eexists. eexists. split; [vm_compute; reflexivity |].
    split; vm_compute; reflexivity. }
  destruct E as (xx & yy & -> & Hx & Hy).
  exists (fst (np.meshgrid xx yy)), (snd (np.meshgrid xx yy)).
  split; [reflexivity |].
  apply Qlist_eqb_spec in Hx, Hy.
  assert (Lx : length xx = 100%nat).
  { rewrite (Forall2_length Hx), length_map, length_seq. reflexivity. }
  assert (Ly : length yy = 100%nat).
  { rewrite (Forall2_length Hy), length_map, length_seq. reflexivity. }
  assert (Gy : Qgrid_eq (snd (np.meshgrid xx yy)) (y_grid 481000 (-30) 100 100)).
  { unfold y_grid.
    rewrite <- (map_map (fun i => 481000 + ZtoQ (Z.of_nat i) * -30)
                        (fun y => repeat y 100%nat)).
    pose proof (meshgrid_y xx yy _ Hy) as G. rewrite Lx in G. exact G. }
  split; [| split].
  - unfold x_grid. pose proof (meshgrid_x xx yy _ Hx) as G.
    rewrite Ly in G. exact G.
  - exact Gy.
  - intro H. pose proof (Qgrid_eq_common _ _ _ Gy H) as C.
    apply Qgrid_eqb_spec in C. vm_compute in C. discriminate C.
Qed.

Lemma coords_corner_example_witness :
  exists gx gy,
    coords dem "corner" true = Ok (Grid gx gy)
    /\ Qgrid_eq gx (x_grid 478000 30 100 100)
    /\ Qgrid_eq gy (y_grid 481000 (-30) 100 100)
    /\ ~ Qgrid_eq gy (y_grid 3108140 (-30) 100 100).
Proof.
  apply (coords_corner_example dem); reflexivity.
Defined.

(** ** The update protocol and matches_disk *)

Lemma _update_matches_disk {RIO : Rasterio} (self self' : Raster)
    (imgdata : option Array) (metadata : option Meta) (vrt_to_driver : string) :
  _update self imgdata metadata vrt_to_driver = Ok self' ->
  matches_disk self' = Some false.
Proof.
  unfold _update.
  destruct (memfile_write _ _) as [memfile | e]; simpl; [| discriminate].
  destruct (rio.memfile_open memfile) as [d | e]; simpl; [| discriminate].
  intro H. injection H as <-.
  destruct (isLoaded self); reflexivity.
Qed.

Lemma commit_ok (self : Raster) (out : list string) (r : result Raster) :
  outcome_of (commit self out r) = Ok tt ->
  r = Ok (state_of (commit self out r)).
Proof.
  destruct r as [self' | e]; simpl; [reflexivity | discriminate].
Qed.

(** A method that ends in [commit] and completes leaves the flag false. *)
Lemma commit_matches_disk {RIO : Rasterio} (self : Raster) (out : list string)
    (r : result Raster) :
  (forall self', r = Ok self' -> matches_disk self' = Some false) ->
  outcome_of (commit self out r) = Ok tt ->
  matches_disk (state_of (commit self out r)) = Some false.
Proof.
  intros Hr Hc. apply Hr. apply commit_ok. exact Hc.
Qed.

Lemma bind_ok {A B} (m : result A) (k : A -> result B) (b : B) :
  bind m k = Ok b -> exists a, m = Ok a /\ k a = Ok b.
Proof.
  destruct m as [a | e]; simpl; [| discriminate]. intro H. exists a. auto.
Qed.

Lemma Ok_inj {A} (a b : A) : Ok a = Ok b -> a = b.
Proof.
  intro H. injection H as ->. reflexivity.
Qed.

Ltac bind_inv H :=
  repeat match type of H with
         | bind _ _ = Ok _ =>
             let a := fresh "a" in
             let Ha := fresh "Ha" in
             apply bind_ok in H; destruct H as (a & Ha & H)
         | (if ?c then _ else _) = Ok _ => destruct c; try discriminate H
         | (let '(_, _) := ?p in _) = Ok _ => destruct p
         | Raise _ = Ok _ => discriminate H
         end.

Lemma crop_matches_disk {RIO : Rasterio} (self : Raster) (g : CropGeom) (mode : string) :
  outcome_of (crop self g mode) = Ok tt ->
  matches_disk (state_of (crop self g mode)) = Some false.
Proof.
  unfold crop. apply commit_matches_disk. intros self' H.
  bind_inv H; eapply _update_matches_disk; eassumption.
Qed.

Lemma shift_matches_disk {RIO : Rasterio} (self : Raster) (xoff yoff : Q) :
  outcome_of (shift self xoff yoff) = Ok tt ->
  matches_disk (state_of (shift self xoff yoff)) = Some false.
Proof.
  unfold shift. apply commit_matches_disk. intros self' H.
  eapply _update_matches_disk; eassumption.
Qed.

Lemma set_ndv_matches_disk {RIO : Rasterio} (self : Raster) (ndv : PyNdv) (upd : bool) :
  outcome_of (set_ndv self ndv upd) = Ok tt ->
  matches_disk (state_of (set_ndv self ndv upd)) = Some false.
Proof.
  unfold set_ndv.
  destruct (ndv_normalise _ ndv) as [out [nd | e]]; [| discriminate].
  destruct (ndv_rewrite _ _ _ _ _) as [data' r].
  apply commit_matches_disk. intros self' H.
  bind_inv H; eapply _update_matches_disk; eassumption.
Qed.

Lemma set_dtypes_matches_disk {RIO : Rasterio} (self : Raster) (dt : PyDtypes) (upd : bool) :
  outcome_of (set_dtypes self dt upd) = Ok tt ->
  matches_disk (state_of (set_dtypes self dt upd)) = Some false.
Proof.
  unfold set_dtypes.
  destruct (dtypes_normalise _ dt) as [out r].
  apply commit_matches_disk. intros self' H.
  bind_inv H; eapply _update_matches_disk; eassumption.
Qed.

(** [_read_attrs] assigns the copied attributes and nothing else. *)
Lemma _read_attrs_fields {RIO : Rasterio} (self r : Raster) (extra : option (list string)) :
  _read_attrs self extra = Ok r ->
  filename r = filename self /\ matches_disk r = matches_disk self /\ ds r = ds self
  /\ attrs r = getattrs (ds self) /\ _masked r = _masked self /\ _data r = _data self
  /\ nbands r = nbands self /\ isLoaded r = isLoaded self.
Proof.
  unfold _read_attrs. destruct extra as [l |]; intro H.
  - apply bind_ok in H. destruct H as (ex & _ & H).
    apply Ok_inj in H. rewrite <- H. cbn. repeat split.
  - apply Ok_inj in H. rewrite <- H. cbn. repeat split.
Qed.

(** A Raster built from a memory file was never backed by disk. *)
Lemma init_memfile_matches_disk {RIO : Rasterio} (m : MemoryFile)
    (extra : option (list string)) (load_data masked as_memfile : bool) (r : Raster) :
  __init__ (FMemoryFile m) extra load_data masked as_memfile = Ok r ->
  matches_disk r = None /\ filename r = None.
Proof.
  unfold __init__. cbn [isinstance bind].
  destruct (rio.memfile_open m) as [d | e]; cbn [bind]; [| discriminate].
  intro H. apply bind_ok in H. destruct H as (s0 & Hs & H).
  apply _read_attrs_fields in Hs. cbn [filename matches_disk] in Hs.
  destruct Hs as (Hf & Hm & _).
  destruct load_data; apply Ok_inj in H; rewrite <- H;
    cbn [matches_disk filename load]; split; assumption.
Qed.

Lemma from_array_matches_disk {RIO : Rasterio} (data : NdData) (t : PyTransform)
    (c : CrsInput) (nd : PyNodata) (r : Raster) :
  from_array data t c nd = Ok r -> matches_disk r = None.
Proof.
  unfold from_array. intro H.
  apply bind_ok in H. destruct H as (t' & _ & H).
  apply bind_ok in H. destruct H as (c' & _ & H).
  destruct (ndarray.shape _) as [[nb h] w].
  apply bind_ok in H. destruct H as (mfh & _ & H).
  apply init_memfile_matches_disk in H. tauto.
Qed.

Lemma reproject_matches_disk {RIO : Rasterio} (self : Raster) (dst_ref : option DstRef)
    (dst_crs : option CrsInput) (dst_size : option (Z * Z)) (dst_bounds : option DstBounds)
    (dst_res : option DstRes) (nd : PyNodata) (dtype : option DtypeSpec)
    (resampling : Resampling) (r : Raster) :
  reproject self dst_ref dst_crs dst_size dst_bounds dst_res nd dtype resampling = Ok r ->
  matches_disk r = None.
Proof.
  unfold reproject. intro H.
  apply bind_ok in H. destruct H as (g & _ & H).
  apply bind_ok in H. destruct H as (? & _ & H).
  apply bind_ok in H. destruct H as ([kw fixed] & _ & H).
  apply bind_ok in H. destruct H as ([dst_data dst_transformed] & _ & H).
  apply bind_ok in H. destruct H as (? & _ & H).
  eapply from_array_matches_disk. exact H.
Qed.

(** C3, as the code has it.  [crop], [shift], [set_ndv] and [set_dtypes]
    end in [_update], and when one of them completes [matches_disk] is
    [False].  [reproject] does not go through [_update]: it assigns nothing
    on the object and returns a new Raster, built from a memory file, whose
    [matches_disk] is [None]. *)
Theorem mutators_clear_matches_disk (RIO : Rasterio) (self : Raster) :
  (forall g mode, outcome_of (crop self g mode) = Ok tt ->
                  matches_disk (state_of (crop self g mode)) = Some false)
  /\ (forall xoff yoff, outcome_of (shift self xoff yoff) = Ok tt ->
                        matches_disk (state_of (shift self xoff yoff)) = Some false)
  /\ (forall ndv upd, outcome_of (set_ndv self ndv upd) = Ok tt ->
                      matches_disk (state_of (set_ndv self ndv upd)) = Some false)
  /\ (forall dt upd, outcome_of (set_dtypes self dt upd) = Ok tt ->
                     matches_disk (state_of (set_dtypes self dt upd)) = Some false)
  /\ (forall dst_ref dst_crs dst_size dst_bounds dst_res nd dtype resampling r,
         reproject self dst_ref dst_crs dst_size dst_bounds dst_res nd dtype resampling
         = Ok r -> matches_disk r = None).
Proof.
  repeat split; intros.
  - now apply crop_matches_disk.
  - now apply shift_matches_disk.
  - now apply set_ndv_matches_disk.
  - now apply set_dtypes_matches_disk.
  - eapply reproject_matches_disk; eassumption.
Qed.

Lemma mutators_clear_matches_disk_witness :
  matches_disk (state_of (crop dem (CropRaster dem) "match_pixel")) = Some false
  /\ matches_disk (state_of (shift dem 10 10)) = Some false
  /\ matches_disk (state_of (set_ndv dem (NdvNum 254) true)) = Some false
  /\ matches_disk (state_of (set_dtypes dem (DtOne (DStr "float32")) true)) = Some false
  /\ (exists r, reproject rgb None (Some (CrsInt 32645)) None None None NdNone None nearest
                = Ok r /\ matches_disk r = None).
Proof.
  destruct (mutators_clear_matches_disk reference_rasterio dem) as (Hc & Hs & Hn & Hd & _).
  destruct (mutators_clear_matches_disk reference_rasterio rgb) as (_ & _ & _ & _ & Hr).
  split; [apply Hc; vm_compute; reflexivity |].
  split; [apply Hs; vm_compute; reflexivity |].
  split; [apply Hn; vm_compute; reflexivity |].
  split; [apply Hd; vm_compute; reflexivity |].
  destruct (reproject rgb None (Some (CrsInt 32645)) None None None NdNone None nearest)
    as [r | e] eqn:E.
  - exists r. split; [reflexivity |]. eapply Hr. exact E.
  - vm_compute in E. discriminate E.
Defined.

(** C3 as stated fails for [reproject]: on the example raster opened from
    disk the call completes, the Raster it returns has [matches_disk = None]
    and the object it was called on still has [matches_disk = True]. *)
Lemma reproject_matches_disk_counterexample :
  exists r, reproject rgb None (Some (CrsInt 32645)) None None None NdNone None nearest = Ok r
            /\ matches_disk r <> Some false
            /\ matches_disk rgb <> Some false.
Proof.
  eexists. split; [vm_compute; reflexivity |].
  split; vm_compute; discriminate.
Qed.

(** ** reproject: argument validation *)

Lemma reproject_validate_succeeds (RIO : Rasterio) (dst_ref : option DstRef)
    (dst_crs : option CrsInput) (dst_size : option (Z * Z)) (dst_bounds : option DstBounds)
    (dst_res : option DstRes) :
  succeeds (reproject_validate dst_ref dst_crs dst_size dst_bounds dst_res) = true <->
  (exists ref, dst_ref = Some ref /\ dst_crs = None /\ succeeds (read_ref ref) = true)
  \/ (exists c, dst_ref = None /\ dst_crs = Some c /\ succeeds (from_user_input c) = true
                /\ ~ (dst_size <> None /\ dst_res <> None)).
Proof.
  unfold reproject_validate.
  destruct dst_ref as [ref |], dst_crs as [c |]; cbn [bind succeeds].
  - split; [discriminate |].
    intros [(r & _ & H & _) | (c' & H & _)]; discriminate H.
  - split.
    + intro H. left. exists ref. repeat split.
      destruct (read_ref ref) as [[[c sz] bb] |]; [reflexivity | discriminate H].
    + intros [(r & Hr & _ & H) | (c' & H & _)]; [| discriminate H].
      injection Hr as <-.
      destruct (read_ref ref) as [[[c sz] bb] |]; [reflexivity | discriminate H].
  - split.
    + intro H. right. exists c.
      destruct (from_user_input c) as [c' |]; [| discriminate H].
      repeat split. cbn [bind g_size g_res] in H.
      intros [Hs Hr]. destruct dst_size; [| congruence]. destruct dst_res; [| congruence].
      discriminate H.
    + intros [(r & H & _) | (c' & _ & Hc & Hok & Hn)]; [discriminate H |].
      injection Hc as <-.
      destruct (from_user_input c) as [c' |]; [| discriminate Hok].
      cbn [bind g_size g_res].
      destruct dst_size as [sz |]; [| reflexivity].
      destruct dst_res as [rs |]; [| reflexivity].
      exfalso. apply Hn. split; discriminate.
  - split; [discriminate |].
    intros [(r & H & _) | (c' & _ & H & _)]; discriminate H.
Qed.

(** C4, as the code has it.  [reproject] raises ValueError when both
    [dst_ref] and [dst_crs] are given, when neither is given, and when
    [dst_ref] is absent, [dst_crs] is one rasterio accepts and both
    [dst_size] and [dst_res] are given.  It gets past validation exactly
    when either [dst_ref] alone is given and can be read as a reference
    (then [dst_size] and [dst_res] are overwritten from the reference,
    whatever the caller gave), or [dst_crs] alone is given, is accepted,
    and at most one of [dst_size] and [dst_res] is given. *)
Theorem reproject_validate_spec (RIO : Rasterio) (dst_ref : option DstRef)
    (dst_crs : option CrsInput) (dst_size : option (Z * Z)) (dst_bounds : option DstBounds)
    (dst_res : option DstRes) :
  (dst_ref <> None -> dst_crs <> None ->
   reproject_validate dst_ref dst_crs dst_size dst_bounds dst_res
   = Raise (ValueError "Either of `dst_ref` or `dst_crs` must be set. Not both."))
  /\ (dst_ref = None -> dst_crs = None ->
      reproject_validate dst_ref dst_crs dst_size dst_bounds dst_res
      = Raise (ValueError "One of `dst_ref` or `dst_crs` must be set."))
  /\ (forall c, dst_ref = None -> dst_crs = Some c -> succeeds (from_user_input c) = true ->
                dst_size <> None -> dst_res <> None ->
      reproject_validate dst_ref dst_crs dst_size dst_bounds dst_res
      = Raise (ValueError "dst_size and dst_res both specified. Specify only one."))
  /\ (succeeds (reproject_validate dst_ref dst_crs dst_size dst_bounds dst_res) = true <->
      (exists ref, dst_ref = Some ref /\ dst_crs = None /\ succeeds (read_ref ref) = true)
      \/ (exists c, dst_ref = None /\ dst_crs = Some c
                    /\ succeeds (from_user_input c) = true
                    /\ ~ (dst_size <> None /\ dst_res <> None))).
Proof.
  split; [| split; [| split]].
  - intros Hr Hc. destruct dst_ref; [| congruence]. destruct dst_crs; [| congruence].
    reflexivity.
  - intros -> ->. reflexivity.
  - intros c -> -> Hok Hs Hr. unfold reproject_validate.
    destruct (from_user_input c) as [c' |]; [| discriminate Hok].
    destruct dst_size; [| congruence]. destruct dst_res; [| congruence]. reflexivity.
  - apply reproject_validate_succeeds.
Qed.

Lemma reproject_validate_spec_witness :
  reproject_validate (Some (RefRaster rgb)) (Some (CrsInt 32645)) None None None
  = Raise (ValueError "Either of `dst_ref` or `dst_crs` must be set. Not both.")
  /\ reproject_validate None None None None None
     = Raise (ValueError "One of `dst_ref` or `dst_crs` must be set.")
  /\ reproject_validate None (Some (CrsInt 32645)) (Some (10, 10)%Z) None (Some (ResNum 30))
     = Raise (ValueError "dst_size and dst_res both specified. Specify only one.")
  /\ succeeds (reproject_validate None (Some (CrsInt 32645)) (Some (10, 10)%Z) None None)
     = true.
Proof.
  split; [| split; [| split]].
  - apply (reproject_validate_spec reference_rasterio); discriminate.
  - apply (reproject_validate_spec reference_rasterio); reflexivity.
  - apply (proj1 (proj2 (proj2 (reproject_validate_spec reference_rasterio
             None (Some (CrsInt 32645)) (Some (10, 10)%Z) None (Some (ResNum 30)))))
             (CrsInt 32645)); try reflexivity; discriminate.
  - apply (proj2 (proj2 (proj2 (reproject_validate_spec reference_rasterio
             None (Some (CrsInt 32645)) (Some (10, 10)%Z) None None)))).
    right. exists (CrsInt 32645). repeat split.
    intros [_ H]. apply H. reflexivity.
Defined.

(** C4 as stated fails: with a reference raster, [reproject] gets past
    validation although both [dst_size] and [dst_res] are given. *)
Lemma reproject_validate_counterexample :
  ~ (forall dst_ref dst_crs dst_size dst_bounds dst_res,
        succeeds (reproject_validate (RIO := reference_rasterio)
                    dst_ref dst_crs dst_size dst_bounds dst_res) = true <->
        ((dst_ref <> None /\ dst_crs = None) \/ (dst_ref = None /\ dst_crs <> None))
        /\ ~ (dst_size <> None /\ dst_res <> None)).
Proof.
  intro H.
  destruct (H (Some (RefRaster rgb)) None (Some (10, 10)%Z) None (Some (ResNum 30)))
    as [H1 _].
  destruct H1 as [_ Hn]; [reflexivity |].
  apply Hn. split; discriminate.
Qed.

(** ** reproject: size and bounds from a resolution *)

(** [reproject] reads the dtype of the first band when none is given. *)
Lemma reproject_dtype (self : Raster) (dt : option DtypeSpec) :
  (dt = None -> dtypes (attrs self) <> []) ->
  match dt, dtypes (attrs self) with
  | None, [] => Raise (IndexError "tuple index out of range")
  | _, _ => Ok tt
  end = Ok tt.
Proof.
  intro H. destruct dt; [reflexivity |].
  destruct (dtypes (attrs self)); [exfalso; now apply H | reflexivity].
Qed.

Lemma reproject_with_res_bounds {RIO : Rasterio} (self : Raster) (c : CrsInput) (c' : CRS)
    (bounds : DstBounds) (res : DstRes) (xres yres : Q) (nd : PyNodata)
    (dt : option DtypeSpec) (rs : Resampling) (W H : Z) :
  from_user_input c = Ok c' ->
  (dt = None -> dtypes (attrs self) <> []) ->
  res_pair res = Some (xres, yres) ->
  let b := bounds_to_f64 (as_bounding_box bounds) in
  let x := f64.of_Q xres in
  let y := f64.of_Q yres in
  let width := f64.ceil (PrimFloat.div (PrimFloat.sub (fright b) (fleft b)) x) in
  let height :=
    f64.ceil (PrimFloat.div (PrimFloat.abs (PrimFloat.sub (fbottom b) (ftop b))) y) in
  f64.is_zero x = false ->
  f64.to_int width = Ok W ->
  f64.to_int height = Ok H ->
  np_alloc (count (attrs self), H, W) = Ok (count (attrs self), H, W) ->
  let right' := PrimFloat.add (fleft b) (PrimFloat.mul x width) in
  let bottom' := PrimFloat.sub (ftop b) (PrimFloat.mul y height) in
  let t := affine.mul64 (affine.translation64 (fleft b) (ftop b))
             (affine.scale64
                (PrimFloat.div (PrimFloat.sub right' (fleft b)) (f64.of_Z W))
                (PrimFloat.div (PrimFloat.sub bottom' (ftop b)) (f64.of_Z H))) in
  reproject self None (Some c) None (Some bounds) (Some res) nd dt rs
  = warp_onto self
      (mkReprojKwargs (transform (attrs self)) (crs (attrs self)) c' rs (self_nodata self)
         None (Some t) (Some (count (attrs self), H, W)))
      nd.
Proof.
  intros Hc Hdt Hp b x y width height Hx HW HH Halloc right' bottom' t.
  unfold reproject, reproject_validate. rewrite Hc.
  cbn [bind g_size g_res g_crs g_bounds].
  rewrite (reproject_dtype self dt Hdt). cbn [bind].
  unfold reproject_grid. cbn [g_res g_bounds g_size option_map].
  assert (Hs : size_from_res (as_bounding_box bounds) res
               = Ok ((W, H), mkBoundingBox64 (fleft b) bottom' right' (ftop b))).
  { unfold size_from_res.
    assert (Hu : match res with
                 | ResTuple (x0 :: y0 :: _) => Ok (x0, y0)
                 | ResTuple _ => Raise (IndexError "tuple index out of range")
                 | ResNum r => Ok (r, r)
                 end = Ok (xres, yres)).
    { destruct res as [r | [| x0 [| y0 l]]]; try discriminate Hp;
        cbn [res_pair] in Hp; apply (f_equal (fun o => match o with Some p => p | None => (0, 0) end)) in Hp;
        cbn beta iota in Hp; rewrite Hp; reflexivity. }
    rewrite Hu. cbn [bind]. fold x y b. rewrite Hx. fold width height.
    rewrite HW, HH. cbn [bind]. reflexivity. }
  rewrite Hs. cbn [bind].
  unfold rio.from_bounds64, rio.divisor. cbn [bind fleft fright fbottom ftop].
  fold t. cbn [bind src_transform src_crs dst_crs resampling dst_nodata dst_resolution
                 dst_transform destination].
  rewrite Halloc. cbn [bind]. unfold warp_onto.
  cbn [dst_transform dst_crs g_crs]. reflexivity.
Qed.

(** C5, as the code has it.  In [reproject], a resolution given together
    with bounds (and a CRS) fixes the grid in binary64: the width is the
    ceiling of the rounded quotient [(right - left) / xres], the height
    the ceiling of the rounded quotient [|bottom - top| / yres], the right
    bound becomes [left + xres * width] and the bottom bound
    [top - yres * height], each product and sum rounded; the warp is
    called with a destination of shape (count, height, width) and with
    the transform [from_bounds] makes of the adjusted bounds and that
    size, and its result becomes the new Raster. *)
Theorem reproject_size_from_res (RIO : Rasterio) (self : Raster) (c : CrsInput) (c' : CRS)
    (bounds : DstBounds) (res : DstRes) (xres yres : Q) (nd : PyNodata)
    (dt : option DtypeSpec) (rs : Resampling) (W H : Z) :
  from_user_input c = Ok c' ->
  (dt = None -> dtypes (attrs self) <> []) ->
  res_pair res = Some (xres, yres) ->
  let b := bounds_to_f64 (as_bounding_box bounds) in
  let x := f64.of_Q xres in
  let y := f64.of_Q yres in
  let width := f64.ceil (PrimFloat.div (PrimFloat.sub (fright b) (fleft b)) x) in
  let height :=
    f64.ceil (PrimFloat.div (PrimFloat.abs (PrimFloat.sub (fbottom b) (ftop b))) y) in
  f64.is_zero x = false ->
  f64.to_int width = Ok W ->
  f64.to_int height = Ok H ->
  np_alloc (count (attrs self), H, W) = Ok (count (attrs self), H, W) ->
  let right' := PrimFloat.add (fleft b) (PrimFloat.mul x width) in
  let bottom' := PrimFloat.sub (ftop b) (PrimFloat.mul y height) in
  let t := affine.mul64 (affine.translation64 (fleft b) (ftop b))
             (affine.scale64
                (PrimFloat.div (PrimFloat.sub right' (fleft b)) (f64.of_Z W))
                (PrimFloat.div (PrimFloat.sub bottom' (ftop b)) (f64.of_Z H))) in
  reproject self None (Some c) None (Some bounds) (Some res) nd dt rs
  = warp_onto self
      (mkReprojKwargs (transform (attrs self)) (crs (attrs self)) c' rs (self_nodata self)
         None (Some t) (Some (count (attrs self), H, W)))
      nd.
Proof.
  exact (reproject_with_res_bounds self c c' bounds res xres yres nd dt rs W H).
Qed.

Lemma reproject_size_from_res_witness :
  exists r,
    reproject dem None (Some (CrsInt 32645)) None
      (Some (BoundsBox (mkBoundingBox 478000 3105140 481000 3108140))) (Some (ResNum 30))
      NdNone None nearest = Ok r
    /\ width (attrs r) = 100%Z /\ height (attrs r) = 100%Z.
Proof.
  eexists.
  rewrite (reproject_size_from_res reference_rasterio dem (CrsInt 32645) (EPSG 32645)
             (BoundsBox (mkBoundingBox 478000 3105140 481000 3108140)) (ResNum 30) 30 30
             NdNone None nearest 100 100 eq_refl);
    [vm_compute; repeat split
    | intros _; vm_compute; discriminate
    | reflexivity
    | vm_compute; reflexivity
    | vm_compute; reflexivity
    | vm_compute; reflexivity
    | vm_compute; reflexivity].
Defined.

(** C5 as stated fails, on both counts.  With bounds (0, 0, 0.9, 0.9) and
    the resolution 0.3 the rounded quotient is 3, so for every library and
    every raster the warp is asked for a grid of 3 x 3 pixels; that grid
    ends left of the requested right bound (of the number 0.9 and of the
    float [q] that stands for it) and above the requested bottom bound:
    the bounds are not adjusted outward.  With bounds (0.2, 0, 0.5, 0.3)
    and the resolution 0.1 the grid is again 3 x 3, and the pixel width
    [a] of the transform handed to the warp is smaller than the float [x]
    that stands for 0.1: the pixel size is not exactly the resolution. *)
Lemma reproject_size_from_res_counterexample :
  (exists t r b q,
     (forall (RIO : Rasterio) (self : Raster) c c' nd dt rs,
         from_user_input c = Ok c' ->
         (dt = None -> dtypes (attrs self) <> []) ->
         (0 <= count (attrs self))%Z ->
         reproject self None (Some c) None
           (Some (BoundsBox (mkBoundingBox 0 0 (9 # 10) (9 # 10)))) (Some (ResNum (3 # 10)))
           nd dt rs
         = warp_onto self
             (mkReprojKwargs (transform (attrs self)) (crs (attrs self)) c' rs
                (self_nodata self) None (Some t) (Some (count (attrs self), 3, 3)%Z))
             nd)
     /\ right_edge t 3 = Some r /\ r < 9 # 10
     /\ f64.to_Q (f64.of_Q (9 # 10)) = Some q /\ r < q
     /\ bottom_edge t 3 = Some b /\ 0 < b)
  /\ (exists t a x,
        (forall (RIO : Rasterio) (self : Raster) c c' nd dt rs,
            from_user_input c = Ok c' ->
            (dt = None -> dtypes (attrs self) <> []) ->
            (0 <= count (attrs self))%Z ->
            reproject self None (Some c) None
              (Some (BoundsBox (mkBoundingBox (2 # 10) 0 (5 # 10) (3 # 10))))
              (Some (ResNum (1 # 10))) nd dt rs
            = warp_onto self
                (mkReprojKwargs (transform (attrs self)) (crs (attrs self)) c' rs
                   (self_nodata self) None (Some t) (Some (count (attrs self), 3, 3)%Z))
                nd)
        /\ f64.to_Q (fa_a t) = Some a
        /\ f64.to_Q (f64.of_Q (1 # 10)) = Some x
        /\ a < x).
Proof.
  assert (Halloc : forall self : Raster,
             (0 <= count (attrs self))%Z ->
             np_alloc (count (attrs self), 3, 3)%Z = Ok (count (attrs self), 3, 3)%Z).
  { intros self Hn. unfold np_alloc.
    destruct (count (attrs self) <? 0)%Z eqn:E; [apply Z.ltb_lt in E; lia | reflexivity]. }
  split.
  - eexists. eexists. eexists. eexists.
    split; [| split; [| split; [| split; [| split; [| split]]]]].
    + intros RIO self c c' nd dt rs Hc Hdt Hn.
      apply (reproject_with_res_bounds self c c'
               (BoundsBox (mkBoundingBox 0 0 (9 # 10) (9 # 10))) (ResNum (3 # 10))
               (3 # 10) (3 # 10) nd dt rs 3 3 Hc Hdt eq_refl);
        try (vm_compute; reflexivity).
      exact (Halloc self Hn).
    + vm_compute. reflexivity.
    + vm_compute. reflexivity.
    + vm_compute. reflexivity.
    + vm_compute. reflexivity.
    + vm_compute. reflexivity.
    + vm_compute. reflexivity.
  - eexists. eexists. eexists.
    split; [| split; [| split]].
    + intros RIO self c c' nd dt rs Hc Hdt Hn.
      apply (reproject_with_res_bounds self c c'
               (BoundsBox (mkBoundingBox (2 # 10) 0 (5 # 10) (3 # 10))) (ResNum (1 # 10))
               (1 # 10) (1 # 10) nd dt rs 3 3 Hc Hdt eq_refl);
        try (vm_compute; reflexivity).
      exact (Halloc self Hn).
    + vm_compute. reflexivity.
    + vm_compute. reflexivity.
    + vm_compute. reflexivity.
Qed.

(** ** value_at_coords *)



Lemma zrange1 (s : Z) : rio.zrange s 1 = [s].
Proof.
  unfold rio.zrange. simpl. rewrite Z.add_0_r. reflexivity.
Qed.


Lemma read_window1 (d : Dataset) (b : nat) (row col : Z) (fill : option Q) (masked : bool) :
  rio.read_window_band d b (mkWindow col row 1 1) fill true masked
  = Ok [[cell_at d fill masked b row col]].
Proof.
  unfold rio.read_window_band. cbn [win_width win_height col_off row_off].
  rewrite !zrange1. cbn [Z.ltb Z.compare orb negb andb]. reflexivity.
Qed.


Lemma read_window_index_band (d : Dataset) (b : Z) (win : Window) (fill : option Q)
    (boundless masked : bool) :
  (1 <= b <= ds_count d)%Z ->
  rio.read_window_index d b win fill boundless masked
  = rio.read_window_band d (Z.to_nat (b - 1)) win fill boundless masked.
Proof.
  intro H. unfold rio.read_window_index.
  replace ((b <? 1)%Z || (ds_count d <? b)%Z) with false; [reflexivity |].
  symmetry. apply orb_false_iff. split; apply Z.ltb_ge; lia.
Qed.






(** ** set_ndv *)

(** C7.  On a raster with several bands, [set_ndv] with one number leaves
    the object in the same state, and ends the same way, as [set_ndv] with
    the list that repeats the number once per band; only the notice printed
    differs. *)
Theorem set_ndv_scalar_broadcast (RIO : Rasterio) (self : Raster) (v : Q)
    (update_array : bool) :
  (1 < count (attrs self))%Z ->
  let once_per_band := NdvSeq (repeat v (Z.to_nat (count (attrs self)))) in
  state_of (set_ndv self (NdvNum v) update_array)
  = state_of (set_ndv self once_per_band update_array)
  /\ outcome_of (set_ndv self (NdvNum v) update_array)
     = outcome_of (set_ndv self once_per_band update_array)
  /\ stdout_of (set_ndv self (NdvNum v) update_array)
     = ["Several raster band: using nodata value for all bands"%string]
  /\ stdout_of (set_ndv self once_per_band update_array) = [].
Proof.
  intros Hc once_per_band. unfold once_per_band, set_ndv, ndv_normalise.
  assert (H1 : (1 <? count (attrs self))%Z = true) by (apply Z.ltb_lt; exact Hc).
  assert (H2 : (count (attrs self) =? 1)%Z = false) by (apply Z.eqb_neq; lia).
  rewrite H1, H2.
  destruct (ndv_rewrite _ _ _ _ _) as [data' r].
  destruct (bind r _) as [self' | e]; repeat split; reflexivity.
Qed.

Lemma set_ndv_scalar_broadcast_witness :
  state_of (set_ndv rgb (NdvNum 254) true)
  = state_of (set_ndv rgb (NdvSeq [254; 254; 254]) true)
  /\ outcome_of (set_ndv rgb (NdvNum 254) true)
     = outcome_of (set_ndv rgb (NdvSeq [254; 254; 254]) true).
Proof.
  destruct (set_ndv_scalar_broadcast reference_rasterio rgb 254 true) as (Hs & Ho & _).
  - vm_compute. reflexivity.
  - split; [exact Hs | exact Ho].
Defined.

(** ** set_dtypes *)

(** C8.  On a loaded raster with more than one band, [set_dtypes] with
    [update_array=True] raises TypeError from the loop header
    [for i in imgdata.shape[0]] for every dtype that numpy accepts, given
    alone or first in a sequence: nothing is committed, and the object stays
    as it was. *)
Theorem set_dtypes_multiband_raises (RIO : Rasterio) (self : Raster) (arr : Array)
    (dtypes : PyDtypes) (first : DtypeSpec) :
  (1 < count (attrs self))%Z ->
  data self = Some arr ->
  succeeds (ndarray.resolve first) = true ->
  dtypes = DtOne first \/ (exists rest, dtypes = DtSeq (first :: rest)) ->
  outcome_of (set_dtypes self dtypes true) = Raise (TypeError "'int' object is not iterable")
  /\ state_of (set_dtypes self dtypes true) = self.
Proof.
  intros Hc Hd Hr Hdt. unfold set_dtypes.
  assert (H2 : (count (attrs self) =? 1)%Z = false) by (apply Z.eqb_neq; lia).
  assert (Hcast : dtypes_cast (count (attrs self)) true first (data self)
                  = Raise (TypeError "'int' object is not iterable")).
  { unfold dtypes_cast. rewrite Hd, H2. unfold ndarray.astype.
    destruct (ndarray.resolve first); [reflexivity | discriminate Hr]. }
  destruct Hdt as [-> | [rest ->]]; unfold dtypes_normalise.
  - destruct (Z.to_nat (count (attrs self))) as [| n] eqn:En; [lia |].
    cbn [repeat bind]. rewrite Hcast. split; reflexivity.
  - rewrite H2. cbn [bind]. rewrite Hcast. split; reflexivity.
Qed.

Lemma set_dtypes_multiband_raises_witness :
  outcome_of (set_dtypes rgb (DtOne (DStr "float32")) true)
  = Raise (TypeError "'int' object is not iterable").
Proof.
  refine (proj1 (set_dtypes_multiband_raises reference_rasterio rgb
                   (rio.read_all example_rgb true) (DtOne (DStr "float32"))
                   (DStr "float32") _ _ _ _)).
  - vm_compute. reflexivity.
  - vm_compute. reflexivity.
  - reflexivity.
  - left. reflexivity.
Defined.

(** ** save *)

(** C9.  [save] on a Raster without data and with [blank_value=None]:
    with the default [dtype=None] the first statement raises AttributeError
    on [self.data.dtype]; with a [dtype] given, the AttributeError is built
    and handed back as the return value, and nothing is raised.  Either way
    no file is written. *)
Theorem save_no_data (RIO : Rasterio) (self : Raster) (file driver : string)
    (co_opts metadata : list (string * string)) (gcps : PyGcps) (gcps_crs : option CRS)
    (fs : FileSystem) :
  data self = None ->
  save self file driver None BlankNone co_opts metadata gcps gcps_crs fs
  = (fs, [], Raise (AttributeError "'NoneType' object has no attribute 'dtype'"))
  /\ (forall dtype,
        save self file driver (Some dtype) BlankNone co_opts metadata gcps gcps_crs fs
        = (fs, [], Ok (RetException
             (AttributeError "No data loaded, and alterative blank_value not set.")))).
Proof.
  intro Hd. unfold save. rewrite Hd. split; [reflexivity | intro dtype; reflexivity].
Qed.

Lemma save_no_data_witness :
  save blank_raster "out.tif" "GTiff" (Some (DStr "uint8")) BlankNone [] [] (GcpList []) None []
  = ([], [], Ok (RetException
       (AttributeError "No data loaded, and alterative blank_value not set."))).
Proof.
  refine (proj2 (save_no_data reference_rasterio blank_raster "out.tif" "GTiff" [] []
                   (GcpList []) None [] _) (DStr "uint8")).
  reflexivity.
Defined.

(** ** The constructor *)

(** C10.  For a [filename] that is neither a str nor a MemoryFile the
    constructor raises TypeError, from [isinstance(filename, np.array)]
    whose second argument is a function; so neither of the two ValueErrors
    written for such arguments is ever raised. *)
Theorem init_unrecognised_filename (RIO : Rasterio) (file : PyFilename)
    (extra : option (list string)) (load_data masked as_memfile : bool) :
  (forall s, file <> FStr s) ->
  (forall m, file <> FMemoryFile m) ->
  __init__ file extra load_data masked as_memfile
  = Raise (TypeError "isinstance() arg 2 must be a type or tuple of types")
  /\ __init__ file extra load_data masked as_memfile
     <> Raise (ValueError
          "np.array provided as filename. Did you mean to call Raster.from_array(...) instead? ")
  /\ __init__ file extra load_data masked as_memfile
     <> Raise (ValueError "filename argument not recognised.").
Proof.
  intros Hs Hm.
  assert (E : __init__ file extra load_data masked as_memfile
              = Raise (TypeError "isinstance() arg 2 must be a type or tuple of types")).
  { destruct file as [s | m | a |].
    - exfalso. exact (Hs s eq_refl).
    - exfalso. exact (Hm m eq_refl).
    - reflexivity.
    - reflexivity. }
  rewrite E. repeat split; discriminate.
Qed.

Lemma init_unrecognised_filename_witness :
  __init__ (FArray (rio.read_all example_rgb false)) None true true false
  = Raise (TypeError "isinstance() arg 2 must be a type or tuple of types").
Proof.
  refine (proj1 (init_unrecognised_filename reference_rasterio
                   (FArray (rio.read_all example_rgb false)) None true true false _ _));
    intros ? C; discriminate C.
Defined.

(** * Further properties *)

(** ** Construction *)

Lemma is_default_spec (a : string) :
  existsb (String.eqb a) default_attrs = true <-> In a default_attrs.
Proof.
  rewrite existsb_exists. split.
  - intros (x & Hx & E). apply String.eqb_eq in E. now subst.
  - intro H. exists a. split; [exact H | apply String.eqb_refl].
Qed.

Lemma lookup_setattr (acc : list (string * PyObject)) (a b : string) (v : PyObject) :
  lookup (setattr_extra acc a v) b = if String.eqb a b then Some v else lookup acc b.
Proof.
  unfold lookup, setattr_extra. cbn [find fst].
  destruct (String.eqb a b) eqn:E; [reflexivity |].
  f_equal. induction acc as [| p acc IH]; [reflexivity |].
  cbn [filter find]. destruct (String.eqb (fst p) a) eqn:Ea; cbn [negb].
  - apply String.eqb_eq in Ea. rewrite Ea, E. exact IH.
  - cbn [find]. destruct (String.eqb (fst p) b); [reflexivity | exact IH].
Qed.

(** When the dataset has every name asked for, the loop of [_read_attrs]
    ends normally and each such name holds the value read. *)
Lemma copy_attrs_ok {RIO : Rasterio} (d : Dataset) (names : list string) :
  forall acc,
    (forall a, In a names -> In a default_attrs \/ exists v, dataset_getattr d a = Ok v) ->
    exists ex,
      copy_attrs d names acc = Ok ex
      /\ (forall a v, In a names -> ~ In a default_attrs -> dataset_getattr d a = Ok v ->
                      lookup ex a = Some v)
      /\ (forall a, ~ In a names \/ In a default_attrs -> lookup ex a = lookup acc a).
Proof.
  induction names as [| a0 rest IH]; intros acc Hall.
  - exists acc. split; [reflexivity |]. split; [intros a v [] | reflexivity].
  - cbn [copy_attrs].
    assert (Hrest : forall a, In a rest ->
                      In a default_attrs \/ exists v, dataset_getattr d a = Ok v).
    { intros a Ha. apply Hall. now right. }
    destruct (existsb (String.eqb a0) default_attrs) eqn:E.
    + apply is_default_spec in E.
      destruct (IH acc Hrest) as (ex & Hex & H1 & H2).
      exists ex. split; [exact Hex |]. split.
      * intros a v [-> | Ha] Hn Hv; [contradiction | now apply H1].
      * intros a [Hn | Hd]; apply H2; [left; intro C; apply Hn; now right | now right].
    + assert (Hn0 : ~ In a0 default_attrs).
      { intro C. apply is_default_spec in C. congruence. }
      destruct (Hall a0 (or_introl eq_refl)) as [C | (v0 & Hv0)]; [contradiction |].
      rewrite Hv0. cbn [bind].
      destruct (IH (setattr_extra acc a0 v0) Hrest) as (ex & Hex & H1 & H2).
      exists ex. split; [exact Hex |]. split.
      * intros a v Ha Hn Hv.
        destruct (in_dec string_dec a rest) as [Hin | Hout]; [now apply H1 |].
        destruct Ha as [-> | Ha]; [| contradiction].
        rewrite (H2 a (or_introl Hout)), lookup_setattr, String.eqb_refl.
        congruence.
      * intros a Ha. 
        assert (Hne : String.eqb a0 a = false).
        { apply String.eqb_neq. intros ->. destruct Ha as [Ha | Ha];
            [apply Ha; now left | contradiction]. }
        rewrite H2, lookup_setattr, Hne; [reflexivity |].
        destruct Ha as [Ha | Ha]; [left; intro C; apply Ha; now right | now right].
Qed.

(** The first name the dataset lacks ends the loop with its error. *)
Lemma copy_attrs_fail {RIO : Rasterio} (d : Dataset) (a : string) (post : list string)
    (e : exn) (pre : list string) :
  forall acc,
    (forall b, In b pre -> In b default_attrs \/ exists v, dataset_getattr d b = Ok v) ->
    ~ In a default_attrs -> dataset_getattr d a = Raise e ->
    copy_attrs d (pre ++ a :: post) acc = Raise e.
Proof.
  induction pre as [| b pre IH]; intros acc Hpre Hn He.
  - cbn [app copy_attrs].
    destruct (existsb (String.eqb a) default_attrs) eqn:E.
    + apply is_default_spec in E. contradiction.
    + rewrite He. reflexivity.
  - cbn [app copy_attrs].
    destruct (existsb (String.eqb b) default_attrs) eqn:E.
    + apply IH; [intros ? ?; apply Hpre; now right | assumption | assumption].
    + destruct (Hpre b (or_introl eq_refl)) as [C | (v & Hv)].
      * apply is_default_spec in C. congruence.
      * rewrite Hv. cbn [bind].
        apply IH; [intros ? ?; apply Hpre; now right | assumption | assumption].
Qed.

(** The names kept are the caller's, followed by the defaults that were
    missing. *)
Lemma saved_names (l : list string) :
  forall defaults,
    exists rest,
      fold_left (fun acc a => if existsb (String.eqb a) acc then acc else acc ++ [a])
                defaults l = l ++ rest
      /\ (forall a, In a rest -> In a defaults).
Proof.
  intro defaults. revert l.
  induction defaults as [| d0 ds IH]; intro l.
  - exists []. split; [cbn; now rewrite app_nil_r | intros a []].
  - cbn [fold_left].
    destruct (existsb (String.eqb d0) l).
    + destruct (IH l) as (rest & E & Hr). exists rest. split; [exact E |].
      intros a Ha. right. now apply Hr.
    + destruct (IH (l ++ [d0])) as (rest & E & Hr). exists (d0 :: rest).
      split; [rewrite E, <- app_assoc; reflexivity |].
      intros a [-> | Ha]; [now left | right; now apply Hr].
Qed.

Lemma init_ok {RIO : Rasterio} (file : PyFilename) (extra : option (list string))
    (load_data masked as_memfile : bool) (r : Raster) :
  __init__ file extra load_data masked as_memfile = Ok r ->
  isLoaded r = load_data /\ _masked r = masked /\ coherent r
  /\ (load_data = false -> _data r = None /\ nbands r = None /\ matches_disk r = None)
  /\ exists fname d,
       ds r = d /\ filename r = fname
       /\ (exists s1,
             _read_attrs (mkRaster fname None d default_attrs (getattrs d) masked
                                   None None false []) extra = Ok s1
             /\ extras r = extras s1 /\ _saved_attrs r = _saved_attrs s1)
       /\ match file with
          | FStr s => fname = Some (abspath s)
                      /\ (if as_memfile then memfile_from_path s else rio_open s) = Ok d
                      /\ (load_data = true -> matches_disk r = Some true)
          | FMemoryFile m => fname = None /\ rio.memfile_open m = Ok d
                             /\ matches_disk r = None
          | _ => False
          end.
Proof.
  unfold __init__. intro H.
  apply bind_ok in H. destruct H as ([fname d] & Hopen & H).
  assert (Hfile : match file with
                  | FStr s => fname = Some (abspath s)
                              /\ (if as_memfile then memfile_from_path s else rio_open s) = Ok d
                  | FMemoryFile m => fname = None /\ rio.memfile_open m = Ok d
                  | _ => False
                  end).
  { destruct file as [s | m | a |]; try discriminate Hopen.
    - destruct (if as_memfile then memfile_from_path s else rio_open s) as [d' | e];
        [| discriminate Hopen].
      cbn [bind] in Hopen. apply Ok_inj in Hopen. injection Hopen as <- <-. auto.
    - destruct (rio.memfile_open m) as [d' | e]; [| discriminate Hopen].
      cbn [bind] in Hopen. apply Ok_inj in Hopen. injection Hopen as <- <-. auto. }
  clear Hopen. cbv zeta in H.
  apply bind_ok in H. destruct H as (s1 & Hs1 & H).
  pose proof (_read_attrs_fields _ _ _ Hs1) as F.
  cbn [filename matches_disk ds attrs _masked _data nbands isLoaded] in F.
  destruct F as (Ff & Fm & Fd & Fa & Fk & Fdt & Fn & Fl).
  destruct load_data.
  - apply bind_ok in H. destruct H as (is_str & Hs & H).
    apply Ok_inj in H. rewrite <- H.
    cbn [isLoaded _masked load filename ds attrs _data nbands matches_disk extras
         _saved_attrs].
    rewrite Fk, Fd, Fa, Ff.
    split; [reflexivity |]. split; [reflexivity |]. split.
    { unfold coherent. cbn [attrs ds isLoaded _data _masked nbands].
      rewrite ?Fk, ?Fd, ?Fa.
      split; [reflexivity |]. intros _. split; [reflexivity |].
      unfold ndarray.shape, rio.read_all. cbn [option_map a_cells fst].
      rewrite length_map. reflexivity. }
    split; [discriminate |].
    exists fname, d. split; [reflexivity |]. split; [reflexivity |].
    split; [exists s1; repeat split; exact Hs1 |].
    destruct file as [s | m | a |]; try contradiction.
    + destruct Hfile as [Hf Ho]. repeat split; try assumption.
      cbn in Hs. apply Ok_inj in Hs. rewrite <- Hs. reflexivity.
    + destruct Hfile as [Hf Ho]. repeat split; try assumption.
      cbn in Hs. apply Ok_inj in Hs. rewrite <- Hs. exact Fm.
  - apply Ok_inj in H. rewrite <- H. rewrite Fl, Fk.
    split; [reflexivity |]. split; [reflexivity |]. split.
    { unfold coherent. rewrite Fa, Fd, Fl. split; [reflexivity | discriminate]. }
    split; [intros _; repeat split; assumption |].
    exists fname, d. split; [exact Fd |]. split; [exact Ff |].
    split; [exists s1; repeat split; exact Hs1 |].
    destruct file as [s | m | a |]; try contradiction.
    + destruct Hfile as [Hf Ho]. repeat split; try assumption. discriminate.
    + destruct Hfile as [Hf Ho]. repeat split; assumption.
Qed.

(** X1.  [Raster(path, attrs=names)], for names that are not names of the
    object's own members.  A failure to open is passed on.  When the file
    opens, the first requested name that is neither a default attribute
    nor an attribute of the dataset ends the constructor with the
    AttributeError of [getattr].  When the dataset has every requested
    name, the object records the absolute path and the handle, agrees
    with the handle, and holds under each requested name the value read
    from the handle; with [load_data] it is loaded and [matches_disk] is
    [True], without it no data is held and [matches_disk] stays [None]. *)
Theorem init_from_path (RIO : Rasterio) (s : string) (extra : option (list string))
    (load_data masked as_memfile : bool) :
  let opened := if as_memfile then memfile_from_path s else rio_open s in
  let requested := match extra with Some l => l | None => [] end in
  (forall a, In a requested -> own_name a = false) ->
  (forall e, opened = Raise e ->
             __init__ (FStr s) extra load_data masked as_memfile = Raise e)
  /\ (forall d pre a post e,
        opened = Ok d -> requested = pre ++ a :: post ->
        (forall b, In b pre -> In b default_attrs \/ exists v, dataset_getattr d b = Ok v) ->
        ~ In a default_attrs -> dataset_getattr d a = Raise e ->
        __init__ (FStr s) extra load_data masked as_memfile = Raise e)
  /\ (forall d,
        opened = Ok d ->
        (forall a, In a requested ->
                   In a default_attrs \/ exists v, dataset_getattr d a = Ok v) ->
        exists r,
          __init__ (FStr s) extra load_data masked as_memfile = Ok r
          /\ ds r = d
          /\ filename r = Some (abspath s)
          /\ isLoaded r = load_data
          /\ matches_disk r = (if load_data then Some true else None)
          /\ (load_data = false -> _data r = None /\ nbands r = None)
          /\ coherent r
          /\ (forall a v, In a requested -> ~ In a default_attrs ->
                          dataset_getattr d a = Ok v -> extra_attr r a = Some v)).
Proof.
  intros opened requested _. split; [| split].
  - intros e He. unfold __init__. fold opened. rewrite He. reflexivity.
  - intros d pre a post e Hd Hreq Hpre Hn He.
    unfold __init__. fold opened. rewrite Hd. cbn [bind]. cbv zeta.
    destruct extra as [l |]; [| destruct pre; discriminate Hreq].
    cbn [_read_attrs ds extras]. subst requested. cbv beta iota in Hreq.
    destruct (saved_names l default_attrs) as (rest & -> & _).
    rewrite Hreq, <- app_assoc. cbn [app].
    rewrite (copy_attrs_fail d a (post ++ rest) e pre [] Hpre Hn He). reflexivity.
  - intros d Hd Hall.
    assert (Hread : exists s1,
               _read_attrs (mkRaster (Some (abspath s)) None d default_attrs (getattrs d)
                                     masked None None false []) extra = Ok s1
               /\ (forall a v, In a requested -> ~ In a default_attrs ->
                               dataset_getattr d a = Ok v -> lookup (extras s1) a = Some v)).
    { destruct extra as [l |].
      - cbn [_read_attrs ds extras].
        destruct (saved_names l default_attrs) as (rest & -> & Hrest).
        destruct (copy_attrs_ok d (l ++ rest) []) as (ex & -> & H1 & _).
        { intros a Ha. apply in_app_or in Ha. destruct Ha as [Ha | Ha];
            [now apply Hall | left; now apply Hrest]. }
        cbn [bind]. eexists. split; [reflexivity |]. cbn [extras].
        intros a v Ha Hn Hv. apply (H1 a v); [apply in_or_app; now left | exact Hn | exact Hv].
      - eexists. split; [reflexivity |]. intros a v []. }
    destruct Hread as (s1 & Hs1 & Hex).
    destruct (__init__ (FStr s) extra load_data masked as_memfile) as [r | e] eqn:E.
    + exists r. split; [reflexivity |].
      destruct (init_ok _ _ _ _ _ _ E)
        as (Hl & Hm & Hc & Hnl & fname & d' & Hds & Hf & (s1' & Hs1' & Hx & _)
            & Hfn & Ho & Hmd).
      fold opened in Ho. rewrite Hd in Ho. apply Ok_inj in Ho. subst d' fname.
      rewrite <- Ho, Hfn, Hs1 in Hs1'. apply Ok_inj in Hs1'. subst s1'.
      split; [symmetry; exact Ho |]. split; [exact Hfn |]. split; [exact Hl |].
      split; [destruct load_data; [apply Hmd; reflexivity | apply Hnl; reflexivity] |].
      split; [intro Hf'; split; apply Hnl; exact Hf' |].
      split; [exact Hc |].
      intros a v Ha Hn Hv. unfold extra_attr. rewrite Hx. now apply Hex.
    + exfalso. unfold __init__ in E. fold opened in E. rewrite Hd in E.
      cbn [bind] in E. cbv zeta in E. rewrite Hs1 in E. cbn [bind] in E.
      destruct load_data; discriminate E.
Qed.

Lemma init_from_path_witness :
  (exists r, __init__ (FStr "rgb.tif") (Some ["meta"%string]) true true false = Ok r
             /\ filename r = Some "/data/rgb.tif"%string
             /\ matches_disk r = Some true
             /\ extra_attr r "meta" = Some (Obj "meta of rgb.tif"))
  /\ __init__ (FStr "rgb.tif") (Some ["no_such_attribute"%string]) true true false
     = Raise (AttributeError "'DatasetReader' object has no attribute no_such_attribute").
Proof.
  split.
  - destruct (proj2 (proj2 (init_from_path reference_rasterio "rgb.tif"
                              (Some ["meta"%string]) true true false
                              ltac:(intros a [<- | []]; reflexivity)))
                example_rgb eq_refl)
      as (r & H & _ & Hf & _ & Hm & _ & _ & Hx).
    { intros a [<- | []]. right. eexists. reflexivity. }
    exists r. split; [exact H |]. split; [exact Hf |]. split; [exact Hm |].
    apply Hx; [now left | | reflexivity].
    intro C. apply is_default_spec in C. discriminate C.
  - apply (proj1 (proj2 (init_from_path reference_rasterio "rgb.tif"
                           (Some ["no_such_attribute"%string]) true true false
                           ltac:(intros a [<- | []]; reflexivity)))
             example_rgb [] "no_such_attribute"%string []); try reflexivity.
    + intros b [].
    + intro C. apply is_default_spec in C. discriminate C.
Defined.

Lemma from_array_ok {RIO : Rasterio} (data : NdData) (t : PyTransform) (c : CrsInput)
    (nd : PyNodata) (r : Raster) :
  from_array data t c nd = Ok r ->
  filename r = None /\ matches_disk r = None /\ isLoaded r = true /\ _masked r = true
  /\ coherent r.
Proof.
  unfold from_array. intro H.
  apply bind_ok in H. destruct H as (t' & _ & H).
  apply bind_ok in H. destruct H as (c' & _ & H).
  destruct (ndarray.shape _) as [[nb h] w].
  apply bind_ok in H. destruct H as (mfh & _ & H).
  destruct (init_ok _ _ _ _ _ _ H)
    as (Hl & Hm & Hc & _ & fname & d & _ & Hf & _ & -> & _ & Hmd).
  split; [exact Hf |]. split; [exact Hmd |]. split; [exact Hl |].
  split; [exact Hm | exact Hc].
Qed.

(** X2.  Every Raster made in memory - by [from_array], by [copy] and by
    [reproject] - has no file name, [matches_disk = None], is loaded, and
    agrees with its dataset handle. *)
Theorem in_memory_rasters (RIO : Rasterio) (r : Raster) :
  (exists data t c nd, from_array data t c nd = Ok r)
  \/ (exists self new_array, copy self new_array = Ok r)
  \/ (exists self dst_ref dst_crs dst_size dst_bounds dst_res nd dtype resampling,
         reproject self dst_ref dst_crs dst_size dst_bounds dst_res nd dtype resampling
         = Ok r) ->
  filename r = None /\ matches_disk r = None /\ isLoaded r = true /\ coherent r.
Proof.
  assert (F : forall data t c nd, from_array data t c nd = Ok r ->
              filename r = None /\ matches_disk r = None /\ isLoaded r = true
              /\ coherent r).
  { intros data t c nd H. destruct (from_array_ok _ _ _ _ _ H) as (? & ? & ? & ? & ?).
    auto. }
  intros [(data & t & c & nd & H) | [(self & na & H) | H]].
  - eapply F; eassumption.
  - unfold copy in H.
    destruct (match na with Some a => Some a | None => option_map Data3 (data self) end);
      [| discriminate H].
    eapply F; eassumption.
  - destruct H as (self & dst_ref & dst_crs & dst_size & dst_bounds & dst_res & nd & dtype
                   & resampling & H).
    unfold reproject in H.
    apply bind_ok in H. destruct H as (g & _ & H).
    apply bind_ok in H. destruct H as (? & _ & H).
    apply bind_ok in H. destruct H as ([kw fixed] & _ & H).
    apply bind_ok in H. destruct H as ([dst_data dst_transformed] & _ & H).
    apply bind_ok in H. destruct H as (? & _ & H).
    eapply F; eassumption.
Qed.

Lemma in_memory_rasters_witness :
  exists r, copy rgb None = Ok r /\ filename r = None /\ matches_disk r = None.
Proof.
  destruct (copy rgb None) as [r | e] eqn:E.
  - exists r. split; [reflexivity |].
    destruct (in_memory_rasters reference_rasterio r) as (Hf & Hm & _).
    + right. left. exists rgb, None. exact E.
    + split; assumption.
  - vm_compute in E. discriminate E.
Defined.

(** ** The update protocol keeps the object coherent *)

Lemma _update_refreshes {RIO : Rasterio} (self self' : Raster)
    (imgdata : option Array) (metadata : option Meta) (vrt_to_driver : string) :
  _update self imgdata metadata vrt_to_driver = Ok self' ->
  coherent self' /\ _saved_attrs self' = default_attrs
  /\ filename self' = filename self /\ _masked self' = _masked self
  /\ isLoaded self' = isLoaded self
  /\ (isLoaded self = false -> _data self' = _data self /\ nbands self' = nbands self)
  /\ extras self' = extras self.
Proof.
  unfold _update.
  destruct (memfile_write _ _) as [memfile | e]; cbn [bind]; [| discriminate].
  destruct (rio.memfile_open memfile) as [d | e]; cbn [bind]; [| discriminate].
  intro H. apply Ok_inj in H. rewrite <- H. clear H.
  cbn [isLoaded set_matches_disk _read_attrs set_ds].
  destruct (isLoaded self) eqn:L.
  - unfold coherent, load.
    cbn [attrs ds isLoaded _data _masked nbands _saved_attrs filename extras].
    repeat split; try reflexivity; try discriminate; try exact L.
    unfold ndarray.shape, rio.read_all. cbn [a_cells fst].
    rewrite length_map. reflexivity.
  - unfold coherent.
    cbn [attrs ds isLoaded _data _masked nbands _saved_attrs filename extras].
    repeat split; try reflexivity; try assumption;
      exfalso; cbn [isLoaded set_matches_disk _read_attrs set_ds] in H; congruence.
Qed.

(** X3.  When [crop], [shift], [set_ndv] or [set_dtypes] completes, the
    default attributes of the object are those of its new dataset handle,
    the saved attribute names are the defaults, loaded data is what the
    handle holds, and file name, masking and loaded state are as before.
    What the constructor copied under other names is not read again: it
    stays as it was read from the former handle. *)
Theorem mutators_refresh (RIO : Rasterio) (self : Raster) (e : effect) :
  (exists g mode, e = crop self g mode)
  \/ (exists xoff yoff, e = shift self xoff yoff)
  \/ (exists ndv upd, e = set_ndv self ndv upd)
  \/ (exists dt upd, e = set_dtypes self dt upd) ->
  outcome_of e = Ok tt ->
  coherent (state_of e) /\ _saved_attrs (state_of e) = default_attrs
  /\ filename (state_of e) = filename self /\ _masked (state_of e) = _masked self
  /\ isLoaded (state_of e) = isLoaded self
  /\ extras (state_of e) = extras self.
Proof.
  assert (C : forall s out r,
             (forall s', r = Ok s' -> exists i m v, _update s i m v = Ok s') ->
             outcome_of (commit s out r) = Ok tt ->
             coherent (state_of (commit s out r))
             /\ _saved_attrs (state_of (commit s out r)) = default_attrs
             /\ filename (state_of (commit s out r)) = filename s
             /\ _masked (state_of (commit s out r)) = _masked s
             /\ isLoaded (state_of (commit s out r)) = isLoaded s
             /\ extras (state_of (commit s out r)) = extras s).
  { intros s out r Hr Hc. apply commit_ok in Hc.
    destruct (Hr _ Hc) as (i & m & v & Hu).
    apply _update_refreshes in Hu. tauto. }
  intros [(g & mode & ->) | [(xoff & yoff & ->) | [(ndv & upd & ->) | (dt & upd & ->)]]].
  - unfold crop. apply C. intros s' H.
    bind_inv H; eauto.
  - unfold shift. apply C. intros s' H. eauto.
  - unfold set_ndv.
    destruct (ndv_normalise _ ndv) as [out [nd | e]]; [| discriminate].
    destruct (ndv_rewrite _ _ _ _ _) as [data' r].
    intro Ho.
    apply (C (set__data self data') out) in Ho; [exact Ho |].
    intros s' H. bind_inv H; eauto.
  - unfold set_dtypes.
    destruct (dtypes_normalise _ dt) as [out r].
    apply C. intros s' H. bind_inv H; eauto.
Qed.

Lemma mutators_refresh_witness :
  coherent (state_of (shift rgb_with_meta 10 10))
  /\ filename (state_of (shift rgb_with_meta 10 10)) = filename rgb_with_meta
  /\ extra_attr (state_of (shift rgb_with_meta 10 10)) "meta"
     = Some (Obj "meta of rgb.tif")
  /\ dataset_getattr (ds (state_of (shift rgb_with_meta 10 10))) "meta"
     = Ok (Obj "meta of /vsimem/file.tif").
Proof.
  destruct (mutators_refresh reference_rasterio rgb_with_meta (shift rgb_with_meta 10 10))
    as (Hc & _ & Hf & _ & _ & Hx).
  - right. left. exists 10, 10. reflexivity.
  - vm_compute. reflexivity.
  - split; [exact Hc |]. split; [exact Hf |].
    split; [unfold extra_attr; rewrite Hx; reflexivity | vm_compute; reflexivity].
Defined.

Lemma commit_raise (self : Raster) (out : list string) (r : result Raster) (e : exn) :
  outcome_of (commit self out r) = Raise e -> state_of (commit self out r) = self.
Proof.
  destruct r as [s | e']; [discriminate | reflexivity].
Qed.

Lemma set__data_same (self : Raster) : set__data self (_data self) = self.
Proof. destruct self. reflexivity. Qed.

(** X4.  A mutating method that raises leaves the object as it was:
    [crop], [shift], [set_dtypes] and [set_ndv] without [update_array]
    assign nothing before [_update] has gone through.  [set_ndv] with
    [update_array] rewrites the pixel array in place first, so after a
    failure the object differs from before in its array at most. *)
Theorem mutators_fail_unchanged (RIO : Rasterio) (self : Raster) (err : exn) :
  (forall g mode, outcome_of (crop self g mode) = Raise err ->
                  state_of (crop self g mode) = self)
  /\ (forall xoff yoff, outcome_of (shift self xoff yoff) = Raise err ->
                        state_of (shift self xoff yoff) = self)
  /\ (forall dt upd, outcome_of (set_dtypes self dt upd) = Raise err ->
                     state_of (set_dtypes self dt upd) = self)
  /\ (forall ndv, outcome_of (set_ndv self ndv false) = Raise err ->
                  state_of (set_ndv self ndv false) = self)
  /\ (forall ndv, outcome_of (set_ndv self ndv true) = Raise err ->
                  exists a, state_of (set_ndv self ndv true) = set__data self a).
Proof.
  split; [| split; [| split; [| split]]].
  - intros g mode. unfold crop. apply commit_raise.
  - intros xoff yoff. unfold shift. apply commit_raise.
  - intros dt upd. unfold set_dtypes.
    destruct (dtypes_normalise _ dt) as [out r]. apply commit_raise.
  - intros ndv. unfold set_ndv.
    destruct (ndv_normalise _ ndv) as [out [nd | e]]; [| reflexivity].
    unfold ndv_rewrite. unfold data. rewrite set__data_same. apply commit_raise.
  - intros ndv. unfold set_ndv.
    destruct (ndv_normalise _ ndv) as [out [nd | e]].
    + destruct (ndv_rewrite _ _ _ _ _) as [data' r]. intro H.
      exists data'. apply commit_raise in H. exact H.
    + intros _. exists (_data self). cbn. symmetry. apply set__data_same.
Qed.

Lemma mutators_fail_unchanged_witness :
  state_of (set_dtypes rgb (DtOne (DStr "int8")) true) = rgb.
Proof.
  refine (proj1 (proj2 (proj2 (mutators_fail_unchanged reference_rasterio rgb
            (TypeError "'int' object is not iterable")))) (DtOne (DStr "int8")) true _).
  vm_compute. reflexivity.
Defined.

(** ** set_ndv and set_dtypes: arguments *)

(** X5.  On a single-band raster, [set_ndv] with a sequence uses its first
    element: state and outcome are those of [set_ndv] with that number, and
    a notice is printed.  An empty sequence raises IndexError after the
    notice, and an argument that is neither a number nor a sequence raises
    ValueError; in both cases the object is unchanged. *)
Theorem set_ndv_single_band_sequence (RIO : Rasterio) (self : Raster) (update_array : bool) :
  count (attrs self) = 1%Z ->
  (forall v rest,
      state_of (set_ndv self (NdvSeq (v :: rest)) update_array)
      = state_of (set_ndv self (NdvNum v) update_array)
      /\ outcome_of (set_ndv self (NdvSeq (v :: rest)) update_array)
         = outcome_of (set_ndv self (NdvNum v) update_array)
      /\ stdout_of (set_ndv self (NdvSeq (v :: rest)) update_array)
         = ["Only one raster band: using first nodata value provided"%string]
      /\ stdout_of (set_ndv self (NdvNum v) update_array) = [])
  /\ set_ndv self (NdvSeq []) update_array
     = (self, ["Only one raster band: using first nodata value provided"%string],
        Raise (IndexError "list index out of range"))
  /\ set_ndv self NdvOther update_array
     = (self, [],
        Raise (ValueError "Type of ndv not understood, must be list or float or int")).
Proof.
  intro Hc. split; [| split].
  - intros v rest. unfold set_ndv, ndv_normalise. rewrite Hc.
    change ((1 <? 1)%Z) with false. change ((1 =? 1)%Z) with true. cbv iota.
    destruct (ndv_rewrite _ _ _ _ _) as [data' r].
    destruct (bind r _) as [self' | e]; repeat split; reflexivity.
  - unfold set_ndv, ndv_normalise. rewrite Hc. reflexivity.
  - reflexivity.
Qed.

Lemma set_ndv_single_band_sequence_witness :
  state_of (set_ndv dem (NdvSeq [254; 1]) true) = state_of (set_ndv dem (NdvNum 254) true).
Proof.
  refine (proj1 (proj1 (set_ndv_single_band_sequence reference_rasterio dem true _)
                   254 [1])).
  vm_compute. reflexivity.
Defined.

(** X6.  On a raster with several bands whose data is a plain (unmasked)
    array and whose nodata value is set, [set_ndv] with [update_array]
    raises TypeError in the first turn of the loop, on [pre_ndv[i]] (the
    old nodata value is a float): nothing is rewritten and the object is
    unchanged. *)
Theorem set_ndv_multiband_unmasked_raises (RIO : Rasterio) (self : Raster) (arr : Array)
    (pre : Q) (ndv : PyNdv) :
  (1 < count (attrs self))%Z ->
  data self = Some arr ->
  a_ma arr = false ->
  a_cells arr <> [] ->
  nodata (attrs self) = Some pre ->
  ndv <> NdvOther ->
  outcome_of (set_ndv self ndv true) = Raise (TypeError "'float' object is not subscriptable")
  /\ state_of (set_ndv self ndv true) = self.
Proof.
  intros Hc Hd Hma Hcells Hpre Hndv.
  assert (H1 : (1 <? count (attrs self))%Z = true) by (apply Z.ltb_lt; exact Hc).
  assert (H2 : (count (attrs self) =? 1)%Z = false) by (apply Z.eqb_neq; lia).
  assert (Hseq : exists n, seq 0 (Z.to_nat (count (attrs self))) = 0%nat :: n).
  { destruct (Z.to_nat (count (attrs self))) as [| k] eqn:E; [lia |].
    eexists. reflexivity. }
  destruct Hseq as [n Hseq].
  assert (Hlen : (0 <? length (a_cells arr))%nat = true).
  { destruct (a_cells arr); [contradiction | reflexivity]. }
  assert (Hrw : forall nd,
             ndv_rewrite (count (attrs self)) (nodata (attrs self)) true nd (data self)
             = (Some arr, Raise (TypeError "'float' object is not subscriptable"))).
  { intro nd. unfold ndv_rewrite. rewrite Hpre, Hd, H2, Hseq.
    cbn [ndv_loop]. rewrite Hma, Hlen. reflexivity. }
  unfold data in Hd.
  destruct ndv as [v | l |]; [| | contradiction];
    unfold set_ndv, ndv_normalise; rewrite ?H1, ?H2, Hrw; cbn [bind commit];
    unfold outcome_of, state_of; cbn [fst snd];
    (split; [reflexivity | rewrite <- Hd; apply set__data_same]).
Qed.

Lemma set_ndv_multiband_unmasked_raises_witness :
  outcome_of (set_ndv rgb_plain (NdvNum 254) true)
  = Raise (TypeError "'float' object is not subscriptable").
Proof.
  refine (proj1 (set_ndv_multiband_unmasked_raises reference_rasterio rgb_plain
                   (rio.read_all example_rgb false) 255 (NdvNum 254) _ _ _ _ _ _)).
  - vm_compute. reflexivity.
  - vm_compute. reflexivity.
  - reflexivity.
  - vm_compute. discriminate.
  - vm_compute. reflexivity.
  - discriminate.
Defined.

(** X7.  [set_dtypes] uses the first dtype only: on a raster with at least
    one band, a sequence that starts with a dtype gives the same state and
    outcome as that dtype alone.  An empty sequence raises IndexError and
    an argument that is neither a dtype nor a sequence raises ValueError,
    the object unchanged. *)
Theorem set_dtypes_first_only (RIO : Rasterio) (self : Raster) (update_array : bool) :
  (1 <= count (attrs self))%Z ->
  (forall d rest,
      state_of (set_dtypes self (DtSeq (d :: rest)) update_array)
      = state_of (set_dtypes self (DtOne d) update_array)
      /\ outcome_of (set_dtypes self (DtSeq (d :: rest)) update_array)
         = outcome_of (set_dtypes self (DtOne d) update_array))
  /\ outcome_of (set_dtypes self (DtSeq []) update_array)
     = Raise (IndexError "tuple index out of range")
  /\ state_of (set_dtypes self (DtSeq []) update_array) = self
  /\ set_dtypes self DtOther update_array
     = (self, [],
        Raise (ValueError "Type of dtypes not understood, must be list or type or str")).
Proof.
  intro Hc. split; [| split; [| split]].
  - intros d rest. unfold set_dtypes, dtypes_normalise.
    destruct (Z.to_nat (count (attrs self))) as [| k] eqn:E; [lia |].
    cbn [repeat].
    destruct (count (attrs self) =? 1)%Z; cbn [bind];
      destruct (bind (dtypes_cast _ _ _ _) _) as [s | e]; split; reflexivity.
  - unfold set_dtypes, dtypes_normalise.
    destruct (count (attrs self) =? 1)%Z; reflexivity.
  - unfold set_dtypes, dtypes_normalise.
    destruct (count (attrs self) =? 1)%Z; reflexivity.
  - reflexivity.
Qed.

Lemma set_dtypes_first_only_witness :
  state_of (set_dtypes dem (DtSeq [DStr "float32"; DStr "int8"]) true)
  = state_of (set_dtypes dem (DtOne (DStr "float32")) true).
Proof.
  refine (proj1 (proj1 (set_dtypes_first_only reference_rasterio dem true _)
                   (DStr "float32") [DStr "int8"])).
  vm_compute. discriminate.
Defined.

(** X8.  [crop] checks its arguments before anything else: a mode other
    than the two known ones is an AssertionError, then a vector geometry
    is NotImplementedError, a list that does not hold four coordinates or
    any other geometry is ValueError.  The object is unchanged. *)
Theorem crop_rejects (RIO : Rasterio) (self : Raster) (g : CropGeom) (mode : string) :
  (mode <> "match_extent"%string -> mode <> "match_pixel"%string ->
   crop self g mode
   = (self, [], Raise (AssertionError "mode must be one of 'match_pixel', 'match_extent'")))
  /\ (mode = "match_extent"%string \/ mode = "match_pixel"%string ->
      (g = CropVector -> crop self g mode = (self, [], Raise NotImplementedError))
      /\ (g = CropOther ->
          crop self g mode
          = (self, [],
             Raise (ValueError "cropGeom must be a Raster, Vector, or list of coordinates.")))
      /\ (forall l, g = CropList l -> length l <> 4%nat ->
          crop self g mode
          = (self, [], Raise (ValueError "wrong number of values to unpack")))).
Proof.
  split.
  - intros H1 H2. unfold crop.
    apply String.eqb_neq in H1, H2. rewrite H1, H2. reflexivity.
  - intros Hm.
    assert (E : negb (String.eqb mode "match_extent" || String.eqb mode "match_pixel")
                = false).
    { destruct Hm as [-> | ->]; reflexivity. }
    split; [| split].
    + intros ->. unfold crop. rewrite E. reflexivity.
    + intros ->. unfold crop. rewrite E. reflexivity.
    + intros l -> Hl. unfold crop. rewrite E.
      destruct l as [| a [| b [| c [| d [| x l]]]]]; try reflexivity.
      exfalso. apply Hl. reflexivity.
Qed.

Lemma crop_rejects_witness :
  crop dem (CropList [0; 1; 2]) "match_pixel"
  = (dem, [], Raise (ValueError "wrong number of values to unpack")).
Proof.
  refine (proj2 (proj2 (proj2 (crop_rejects reference_rasterio dem (CropList [0; 1; 2])
                                 "match_pixel") _)) [0; 1; 2] eq_refl _).
  - right. reflexivity.
  - discriminate.
Defined.

(** ** coords on a north-up grid *)

Lemma Forall2_map_in {A B C} (R : B -> C -> Prop) (f : A -> B) (g : A -> C) (l : list A) :
  (forall x, In x l -> R (f x) (g x)) -> Forall2 R (map f l) (map g l).
Proof.
  induction l as [| x l IH]; intro H; simpl; constructor.
  - apply H. left. reflexivity.
  - apply IH. intros y Hy. apply H. right. exact Hy.
Qed.

Lemma Forall2_rev {A B} (R : A -> B -> Prop) (l : list A) (l' : list B) :
  Forall2 R l l' -> Forall2 R (rev l) (rev l').
Proof.
  induction 1 as [| x y l l' Hxy _ IH]; simpl; [constructor |].
  apply Forall2_app; [exact IH | constructor; [exact Hxy | constructor]].
Qed.

Lemma removelast_map {A B} (f : A -> B) (l : list A) :
  removelast (map f l) = map f (removelast l).
Proof.
  induction l as [| x [| y l] IH]; try reflexivity.
  change (f x :: removelast (map f (y :: l)) = f x :: map f (removelast (y :: l))).
  rewrite IH. reflexivity.
Qed.

Lemma removelast_cons_last {A} (x y : A) (l : list A) :
  removelast (x :: l ++ [y]) = x :: l.
Proof. exact (removelast_last (x :: l) y). Qed.

(** [np.linspace(a, b, n + 1)]: the [n] samples before the last, and the last. *)
Lemma linspace_split (a b : Q) (n : Z) :
  (0 <= n)%Z ->
  let f := fun k => ZtoQ (Z.of_nat k) * ((b - a) / ZtoQ n) + a in
  np.linspace a b (n + 1) =
  Ok (map f (seq 0 (Z.to_nat n)) ++ [if (1 <=? n)%Z then b else f (Z.to_nat n)]).
Proof.
  intros Hn f. unfold np.linspace.
  replace (n + 1 <? 0)%Z with false by (symmetry; apply Z.ltb_ge; lia).
  replace (Z.to_nat (n + 1)) with (S (Z.to_nat n)) by lia.
  replace (n + 1 - 1)%Z with n by lia.
  rewrite seq_S, map_app. cbn [map Nat.add]. fold f.
  destruct (1 <=? n)%Z eqn:E.
  - replace (1 <? n + 1)%Z with true by (symmetry; apply Z.ltb_lt; apply Z.leb_le in E; lia).
    rewrite removelast_last. reflexivity.
  - replace (1 <? n + 1)%Z with false by (symmetry; apply Z.ltb_ge; apply Z.leb_gt in E; lia).
    reflexivity.
Qed.

Lemma sign_pos (x : Q) : 0 < x -> np.sign x = 1%Z.
Proof.
  intro H. unfold np.sign. unfold Qlt in H. simpl in H.
  destruct (Qnum x); try reflexivity; lia.
Qed.

Lemma sign_neg (x : Q) : x < 0 -> np.sign x = (-1)%Z.
Proof.
  intro H. unfold np.sign. unfold Qlt in H. simpl in H.
  destruct (Qnum x); try reflexivity; lia.
Qed.

Lemma ZtoQ_nonzero (z : Z) : z <> 0%Z -> ~ ZtoQ z == 0.
Proof.
  intros H C. apply H. apply (proj1 (inject_Z_injective z 0)). exact C.
Qed.

(** X9.  On a coherent raster with a north-up grid, [coords] at the pixel
    corners returns [width] x-values, the j-th being [c + j * a], and
    [height] y-values, which are the samples [c + k * (a * width / height)]
    of the x-range for k from [height] down to 1: the y axis is built from
    the x bounds whatever the y origin and the pixel height are. *)
Theorem coords_north_up (self : Raster) :
  attrs self = getattrs (ds self) ->
  north_up (ds_transform (ds self)) ->
  (0 <= ds_width (ds self))%Z ->
  (0 <= ds_height (ds self))%Z ->
  let t := ds_transform (ds self) in
  let w := ds_width (ds self) in
  let h := ds_height (ds self) in
  exists xx yy,
    coords self "corner" false = Ok (Axes xx yy)
    /\ length xx = Z.to_nat w
    /\ length yy = Z.to_nat h
    /\ Forall2 Qeq xx (map (fun j => af_c t + ZtoQ (Z.of_nat j) * af_a t) (seq 0 (Z.to_nat w)))
    /\ Forall2 Qeq yy
         (rev (map (fun k => af_c t + ZtoQ (Z.of_nat k) * (af_a t * ZtoQ w / ZtoQ h))
                   (seq 1 (Z.to_nat h)))).
Proof.
  intros Ha (Hb & Hd & Hpa & Hne) Hw Hh t w h.
  fold t in Hb, Hd, Hpa, Hne. fold w in Hw. fold h in Hh.
  assert (Hbounds : bounds (attrs self)
                    = mkBoundingBox (af_c t) (af_f t + af_e t * ZtoQ h)
                                    (af_c t + af_a t * ZtoQ w) (af_f t)).
  { rewrite Ha. unfold getattrs. cbn [bounds]. unfold rio.bounds. fold t w h.
    unfold Qeqb. rewrite (Qeq_eq_bool _ _ Hb), (Qeq_eq_bool _ _ Hd). reflexivity. }
  unfold coords. cbn [String.eqb Ascii.eqb Bool.eqb orb negb].
  rewrite Hbounds. cbn [left right].
  assert (Hwd : width (attrs self) = w) by (rewrite Ha; reflexivity).
  assert (Hht : height (attrs self) = h) by (rewrite Ha; reflexivity).
  assert (Htr : transform (attrs self) = t) by (rewrite Ha; reflexivity).
  rewrite Hwd, Hht, Htr.
  rewrite (linspace_split _ _ w Hw), (linspace_split _ _ h Hh). cbn [bind].
  rewrite (sign_pos _ Hpa), (sign_neg _ Hne). cbn [np.slice_step bind].
  unfold np.drop_last. rewrite removelast_last, rev_app_distr. cbn [rev app].
  eexists. eexists. split; [reflexivity |].
  split; [now rewrite length_map, length_seq |].
  set (g := fun k => ZtoQ (Z.of_nat k) * ((af_c t + af_a t * ZtoQ w - af_c t) / ZtoQ h)
                     + af_c t).
  split; [| split].
  - destruct (Z.to_nat h) as [| m] eqn:E; [reflexivity |].
    rewrite <- cons_seq. cbn [map rev].
    rewrite removelast_cons_last. cbn [length].
    rewrite length_rev, length_map, length_seq. reflexivity.
  - apply Forall2_map_in. intros j Hj. apply in_seq in Hj.
    assert (Hw0 : ~ ZtoQ w == 0) by (apply ZtoQ_nonzero; lia).
    field. exact Hw0.
  - destruct (Z.to_nat h) as [| m] eqn:E; [constructor |].
    assert (Hh0 : ~ ZtoQ h == 0) by (apply ZtoQ_nonzero; lia).
    replace (1 <=? h)%Z with true by (symmetry; apply Z.leb_le; lia).
    rewrite <- cons_seq. cbn [map rev].
    rewrite removelast_cons_last.
    rewrite seq_S, map_app, rev_app_distr. cbn [map rev app Nat.add].
    constructor.
    + replace (Z.of_nat (S m)) with h by lia. field. exact Hh0.
    + apply Forall2_rev. apply Forall2_map_in. intros k _.
      unfold g. cbv beta. field. exact Hh0.
Qed.

Lemma coords_north_up_witness :
  exists xx yy,
    coords rgb "corner" false = Ok (Axes xx yy)
    /\ length xx = 5%nat /\ length yy = 4%nat.
Proof.
  destruct (coords_north_up rgb) as (xx & yy & H & Lx & Ly & _).
  - reflexivity.
  - vm_compute. repeat split; discriminate.
  - vm_compute. discriminate.
  - vm_compute. discriminate.
  - exists xx, yy. split; [exact H |]. split; [exact Lx | exact Ly].
Defined.

(** X10.  The center coordinates are the corner coordinates moved by half
    a pixel: when [coords(offset='corner', grid=False)] returns the axes
    [xx], [yy], then [coords(offset='center', grid=False)] returns
    [xx + dx / 2], [yy + dy / 2]. *)
Theorem coords_center_shift (self : Raster) (xx yy : list Q) :
  coords self "corner" false = Ok (Axes xx yy) ->
  coords self "center" false
  = Ok (Axes (map (fun x => x + af_a (transform (attrs self)) / 2) xx)
             (map (fun y => y + af_e (transform (attrs self)) / 2) yy)).
Proof.
  unfold coords. cbn [String.eqb Ascii.eqb Bool.eqb orb negb].
  destruct (np.linspace _ _ (width _ + 1)) as [xs | e]; [| discriminate]. cbn [bind].
  destruct (np.slice_step xs _) as [xs' | e]; [| discriminate]. cbn [bind].
  destruct (np.linspace _ _ (height _ + 1)) as [ys | e]; [| discriminate]. cbn [bind].
  destruct (np.slice_step ys _) as [ys' | e]; [| discriminate]. cbn [bind].
  intro H. apply Ok_inj in H. injection H as <- <-.
  unfold np.drop_last. rewrite !removelast_map. reflexivity.
Qed.

Lemma coords_center_shift_witness :
  exists xx yy,
    coords rgb "corner" false = Ok (Axes xx yy)
    /\ coords rgb "center" false
       = Ok (Axes (map (fun x => x + 30 / 2) xx) (map (fun y => y + (-30) / 2) yy)).
Proof.
  destruct (coords rgb "corner" false) as [[gx gy | xx yy] | e] eqn:E;
    try (vm_compute in E; discriminate E).
  exists xx, yy. split; [reflexivity |].
  exact (coords_center_shift rgb xx yy E).
Defined.

(** X11.  [coords] fails with AssertionError for an offset other than
    'corner' and 'center', and with ValueError ("slice step cannot be
    zero") when the pixel width of the transform is zero. *)
Theorem coords_fails (self : Raster) (offset : string) (grid : bool) :
  (offset <> "corner"%string -> offset <> "center"%string ->
   coords self offset grid
   = Raise (AssertionError "ctype is not one of 'corner', 'center'"))
  /\ (offset = "corner"%string \/ offset = "center"%string ->
      (0 <= width (attrs self))%Z ->
      af_a (transform (attrs self)) == 0 ->
      coords self offset grid = Raise (ValueError "slice step cannot be zero")).
Proof.
  split.
  - intros H1 H2. unfold coords.
    apply String.eqb_neq in H1, H2. rewrite H1, H2. reflexivity.
  - intros Ho Hw Ha. unfold coords.
    replace (negb (String.eqb offset "corner" || String.eqb offset "center")) with false
      by (destruct Ho as [-> | ->]; reflexivity).
    rewrite (linspace_split _ _ _ Hw). cbn [bind].
    replace (np.sign (af_a (transform (attrs self)))) with 0%Z; [reflexivity |].
    unfold np.sign. unfold Qeq in Ha. simpl in Ha.
    destruct (Qnum (af_a (transform (attrs self)))); try reflexivity; lia.
Qed.

Lemma coords_fails_witness :
  coords rgb "middle" true = Raise (AssertionError "ctype is not one of 'corner', 'center'").
Proof.
  apply (proj1 (coords_fails rgb "middle" true)); discriminate.
Defined.

(** ** outside_image on coordinates *)

(** X12.  With [index=False] the converted pair is bound to [xi, xj], so
    the test uses the row of the point and the [yj] the caller passed: the
    answer is [True] whenever that y coordinate is negative or larger than
    the height in pixels, and otherwise it is decided by the row alone,
    compared with the width; the column of the point plays no part. *)
Theorem outside_image_coordinates (self : Raster) (x y : Q) (i j : Z) :
  xy2ij self x y = Ok (i, j) ->
  (y < 0 \/ ZtoQ (ds_height (ds self)) < y -> outside_image self x y false = Ok true)
  /\ (0 <= y -> y <= ZtoQ (ds_height (ds self)) ->
      outside_image self x y false
      = Ok (Qltb (ZtoQ i) 0 || Qltb (ZtoQ (ds_width (ds self))) (ZtoQ i))).
Proof.
  intro Hi.
  assert (E : outside_image self x y false = outside_image self (ZtoQ i) y true).
  { unfold outside_image. cbn [negb]. rewrite Hi. reflexivity. }
  rewrite E, outside_image_index_eq. split.
  - intros [H | H]; apply Qltb_lt in H; rewrite H; rewrite ?orb_true_r; reflexivity.
  - intros H0 Hh. apply Qltb_ge in H0, Hh. rewrite H0, Hh.
    rewrite !orb_false_r. reflexivity.
Qed.

Lemma outside_image_coordinates_witness :
  outside_image dem 478031 3108100 false = Ok true.
Proof.
  refine (proj1 (outside_image_coordinates dem 478031 3108100 1 1 _) _).
  - vm_compute. reflexivity.
  - right. vm_compute. reflexivity.
Defined.

(** ** value_at_coords: one band *)

Lemma read_window_band_boundless (d : Dataset) (b : nat) (win : Window) (fill : option Q)
    (masked : bool) :
  (0 <= win_width win)%Z -> (0 <= win_height win)%Z ->
  exists a, rio.read_window_band d b win fill true masked = Ok a.
Proof.
  intros Hw Hh. unfold rio.read_window_band.
  replace ((win_width win <? 0)%Z || (win_height win <? 0)%Z) with false
    by (symmetry; apply orb_false_iff; split; apply Z.ltb_ge; assumption).
  cbn [negb andb]. eexists. reflexivity.
Qed.

(** X13.  Asking for one band together with [return_window=True] raises
    UnboundLocalError: the window is read and reduced, then the name [win]
    is returned without ever having been bound on that path.  This holds
    for every band of the dataset, every odd window size and no window,
    with the default boundless read. *)
Theorem value_at_coords_band_return_window (self : Raster) (x y : Q) (row col b : Z)
    (masked : bool) (window : option Z) (reducer : list cell -> option Q) :
  rio.index (ds self) x y = Ok (row, col) ->
  (1 <= b <= ds_count (ds self))%Z ->
  match window with Some w => (w mod 2 = 1)%Z /\ (0 <= w)%Z | None => True end ->
  value_at_coords self x y false (BandInt b) masked window true true reducer
  = Raise (UnboundLocalError "local variable 'win' referenced before assignment").
Proof.
  intros Hi Hb Hw. unfold value_at_coords.
  destruct window as [w |].
  - destruct Hw as [Hodd Hpos]. rewrite Hodd.
    change (negb (1 =? 1)%Z) with false. cbv iota.
    rewrite Hi. cbn [bind]. cbv beta iota zeta.
    rewrite read_window_index_band by exact Hb.
    destruct (read_window_band_boundless (ds self) (Z.to_nat (b - 1))
                (mkWindow (np.int (ZtoQ col - (ZtoQ w - 1) / 2))
                          (np.int (ZtoQ row - (ZtoQ w - 1) / 2)) w w)
                (nodata (attrs self)) masked Hpos Hpos) as [a Ha].
    rewrite Ha. reflexivity.
  - cbv iota. rewrite Hi. cbn [bind]. cbv beta iota zeta.
    rewrite read_window_index_band by exact Hb.
    rewrite !int_of_Z, read_window1. reflexivity.
Qed.

Lemma value_at_coords_band_return_window_witness :
  value_at_coords rgb 478031 3108100 false (BandInt 2) false (Some 3%Z) true true
                  ndarray.ma_mean
  = Raise (UnboundLocalError "local variable 'win' referenced before assignment").
Proof.
  apply (value_at_coords_band_return_window rgb 478031 3108100 1 1 2 false (Some 3%Z)).
  - vm_compute. reflexivity.
  - vm_compute. split; discriminate.
  - split; [reflexivity | discriminate].
Defined.

Lemma vac_bands_in (d : Dataset) (fmt : ReadOut -> result Value) (win : Window)
    (fill : option Q) (boundless masked : bool) (bs : list Z)
    (vs : list (Z * Value)) (ws : list (Z * ReadOut)) (b : Z) (v : Value) :
  vac_bands d fmt win fill boundless masked bs = Ok (vs, ws) ->
  In (b, v) vs ->
  exists a, rio.read_window_index d b win fill boundless masked = Ok a
            /\ fmt (Out2 a) = Ok v.
Proof.
  revert vs ws. induction bs as [| b0 bs IH]; intros vs ws H Hin.
  - cbn in H. apply Ok_inj in H. injection H as <- <-. destruct Hin.
  - cbn [vac_bands] in H.
    apply bind_ok in H. destruct H as (a & Ha & H).
    apply bind_ok in H. destruct H as (val & Hval & H).
    apply bind_ok in H. destruct H as ([vs' ws'] & Hrec & H).
    apply Ok_inj in H. injection H as <- <-.
    destruct Hin as [Heq | Hin].
    + injection Heq as -> ->. exists a. split; assumption.
    + eapply IH; eassumption.
Qed.

(** X14.  On a raster that is not single-band, the value returned for band
    [b] alone is the entry of [b] in the dict returned for all bands: if
    [value_at_coords(.., band=None)] gives the dict [vs] and [(b, v)] is in
    it, then [value_at_coords(.., band=b)] gives [v], for the same
    coordinate, window, masking and reducer. *)
Theorem value_at_coords_band_of_dict (self : Raster) (x y : Q) (masked : bool)
    (window : option Z) (boundless : bool) (reducer : list cell -> option Q)
    (vs : list (Z * Value)) (b : Z) (v : Value) :
  nbands self <> Some 1%Z ->
  value_at_coords self x y false BandNone masked window false boundless reducer
  = Ok (RetValue (PerBand vs)) ->
  In (b, v) vs ->
  value_at_coords self x y false (BandInt b) masked window false boundless reducer
  = Ok (RetValue (One v)).
Proof.
  intros Hn H Hin. unfold value_at_coords in *.
  destruct (match window with Some w => negb (w mod 2 =? 1)%Z | None => false end);
    [discriminate H |].
  destruct (rio.index (ds self) x y) as [[row col] | e]; [| discriminate H].
  cbn [bind] in *.
  destruct (match window with
            | Some w => (ZtoQ col - (ZtoQ w - 1) / 2, ZtoQ row - (ZtoQ w - 1) / 2, w, w)
            | None => (ZtoQ col, ZtoQ row, 1%Z, 1%Z)
            end) as [[[c r] wd] ht].
  cbv beta iota zeta in *.
  assert (Hnb : match nbands self with Some 1%Z => true | _ => false end = false).
  { destruct (nbands self) as [[| [p | p |] | p] |]; try reflexivity.
    exfalso. apply Hn. reflexivity. }
  rewrite Hnb in H.
  apply bind_ok in H. destruct H as ([vs' ws'] & Hv & H).
  apply Ok_inj in H. injection H as ->.
  destruct (vac_bands_in _ _ _ _ _ _ _ _ _ _ _ Hv Hin) as (a & Ha & Hf).
  rewrite Ha. cbn [bind]. rewrite Hf. reflexivity.
Qed.

Lemma value_at_coords_band_of_dict_witness :
  value_at_coords rgb 478031 3108100 false (BandInt 2) false (Some 3%Z) false true
                  ndarray.ma_mean
  = Ok (RetValue (One (VReduced (Some (99 # 9))))).
Proof.
  apply (value_at_coords_band_of_dict rgb 478031 3108100 false (Some 3%Z) true
           ndarray.ma_mean
           [(1%Z, VReduced (Some (36 # 9))); (2%Z, VReduced (Some (99 # 9)));
            (3%Z, VReduced (Some (162 # 9)))]).
  - vm_compute. discriminate.
  - vm_compute. reflexivity.
  - right. left. reflexivity.
Defined.

(** ** reproject onto a reference raster *)

Lemma divisor_python (z : Z) :
  (0 < z < 2 ^ 31)%Z -> rio.divisor false z = Ok (f64.of_Z z).
Proof.
  intros [Hl Hu]. unfold rio.divisor, f64.of_int.
  assert (K : (2 ^ 31 < 2 ^ 1024)%Z) by (vm_compute; reflexivity).
  set (big := (2 ^ 1024)%Z) in *. set (small := (2 ^ 31)%Z) in *.
  assert (E : (Z.abs z <? big)%Z = true) by (apply Z.ltb_lt; lia).
  rewrite E. cbn [bind].
  assert (E0 : (z =? 0)%Z = false) by (apply Z.eqb_neq; lia).
  rewrite E0. reflexivity.
Qed.

(** X15.  With a reference Raster of positive size, [reproject] targets
    the grid of the reference, whatever [dst_size], [dst_bounds] and
    [dst_res] the caller passed: the warp is called with the CRS of the
    reference, a destination of shape (count, height, width) of the
    reference, and the transform [from_bounds] makes of the bounds and the
    size of the reference; its result becomes the new Raster. *)
Theorem reproject_onto_reference (RIO : Rasterio) (self ref : Raster)
    (dst_size : option (Z * Z)) (dst_bounds : option DstBounds) (dst_res : option DstRes)
    (nd : PyNodata) (dt : option DtypeSpec) (rs : Resampling) :
  (dt = None -> dtypes (attrs self) <> []) ->
  (0 < width (attrs ref) < 2 ^ 31)%Z ->
  (0 < height (attrs ref) < 2 ^ 31)%Z ->
  (0 <= count (attrs self))%Z ->
  let b := bounds_to_f64 (bounds (attrs ref)) in
  let t := affine.mul64 (affine.translation64 (fleft b) (ftop b))
             (affine.scale64
                (PrimFloat.div (PrimFloat.sub (fright b) (fleft b))
                               (f64.of_Z (width (attrs ref))))
                (PrimFloat.div (PrimFloat.sub (fbottom b) (ftop b))
                               (f64.of_Z (height (attrs ref))))) in
  reproject self (Some (RefRaster ref)) None dst_size dst_bounds dst_res nd dt rs
  = warp_onto self
      (mkReprojKwargs (transform (attrs self)) (crs (attrs self)) (crs (attrs ref)) rs
         (self_nodata self) None (Some t)
         (Some (count (attrs self), height (attrs ref), width (attrs ref))))
      nd.
Proof.
  intros Hdt Hw Hh Hn b t.
  unfold reproject, reproject_validate. cbn [read_ref bind g_size g_res g_crs g_bounds].
  rewrite (reproject_dtype self dt Hdt). cbn [bind].
  unfold reproject_grid. cbn [g_res g_bounds g_size option_map as_bounding_box bind].
  fold b. unfold rio.from_bounds64.
  rewrite (divisor_python _ Hw), (divisor_python _ Hh). cbn [bind].
  fold t. cbn [bind src_transform src_crs dst_crs resampling dst_nodata dst_resolution
                 dst_transform destination].
  assert (Ha : np_alloc (count (attrs self), height (attrs ref), width (attrs ref))
               = Ok (count (attrs self), height (attrs ref), width (attrs ref))).
  { unfold np_alloc.
    destruct (count (attrs self) <? 0)%Z eqn:E1; [apply Z.ltb_lt in E1; lia |].
    destruct (height (attrs ref) <? 0)%Z eqn:E2; [apply Z.ltb_lt in E2; lia |].
    destruct (width (attrs ref) <? 0)%Z eqn:E3; [apply Z.ltb_lt in E3; lia |].
    reflexivity. }
  rewrite Ha. cbn [bind]. unfold warp_onto. cbn [dst_transform dst_crs]. reflexivity.
Qed.

Lemma reproject_onto_reference_witness :
  exists r,
    reproject dem (Some (RefRaster dem)) None (Some (7, 7)%Z) None (Some (ResNum 5))
      NdNone None nearest = Ok r
    /\ width (attrs r) = 100%Z /\ height (attrs r) = 100%Z.
Proof.
  eexists.
  rewrite (reproject_onto_reference reference_rasterio dem dem (Some (7, 7)%Z) None
             (Some (ResNum 5)) NdNone None nearest);
    [vm_compute; repeat split
    | intros _; vm_compute; discriminate
    | vm_compute; split; reflexivity
    | vm_compute; split; reflexivity
    | vm_compute; discriminate].
Defined.

(** ** save and the files on disk *)




(** ** The data setter *)

Lemma shape_eqb_eq (s t : Z * Z * Z) : shape_eqb s t = true <-> s = t.
Proof.
  destruct s as [[a b] c], t as [[a' b'] c']. unfold shape_eqb.
  rewrite !andb_true_iff, !Z.eqb_eq. split.
  - intros [[-> ->] ->]. reflexivity.
  - intro H. injection H as -> -> ->. auto.
Qed.

Lemma dtype_eqb_eq (x y : dtype) : dtype_eqb x y = true <-> x = y.
Proof.
  destruct x, y; simpl; split; intro H; try reflexivity; discriminate H.
Qed.

(** X17.  Assigning to [data] succeeds exactly for an array of the shape
    and dtype of the current data; then [data] returns the new array, and
    nothing else changes - the dataset handle, the copied attributes and
    [matches_disk] stay as they were.  Otherwise the object is unchanged. *)
Theorem data_setter_spec (self : Raster) (old : Array) (new_data : PyNewData) :
  data self = Some old ->
  (outcome_of (data_setter self new_data) = Ok tt <->
   exists a, new_data = NewArray a /\ ndarray.shape a = ndarray.shape old
             /\ a_dtype a = a_dtype old)
  /\ (forall a, new_data = NewArray a ->
                outcome_of (data_setter self new_data) = Ok tt ->
                state_of (data_setter self new_data) = set__data self (Some a)
                /\ data (state_of (data_setter self new_data)) = Some a
                /\ ds (state_of (data_setter self new_data)) = ds self
                /\ attrs (state_of (data_setter self new_data)) = attrs self
                /\ matches_disk (state_of (data_setter self new_data)) = matches_disk self)
  /\ (outcome_of (data_setter self new_data) <> Ok tt ->
      state_of (data_setter self new_data) = self).
Proof.
  intro Hd. unfold data in Hd. unfold data_setter. rewrite Hd.
  destruct new_data as [a |].
  - destruct (shape_eqb (ndarray.shape a) (ndarray.shape old)) eqn:Es; cbn [negb].
    + destruct (dtype_eqb (a_dtype a) (a_dtype old)) eqn:Et; cbn [negb].
      * apply shape_eqb_eq in Es. apply dtype_eqb_eq in Et.
        split; [| split].
        -- split; [intros _; exists a; auto | reflexivity].
        -- intros a' Ha _. injection Ha as <-. repeat split.
        -- intro H. exfalso. apply H. reflexivity.
      * split; [| split].
        -- split; [discriminate |].
           intros (a' & Ha & _ & Ht). injection Ha as <-.
           apply dtype_eqb_eq in Ht. congruence.
        -- intros a' _ H. discriminate H.
        -- reflexivity.
    + split; [| split].
      * split; [discriminate |].
        intros (a' & Ha & Hs & _). injection Ha as <-.
        apply shape_eqb_eq in Hs. congruence.
      * intros a' _ H. discriminate H.
      * reflexivity.
  - split; [| split].
    + split; [discriminate | intros (a & Ha & _); discriminate Ha].
    + intros a Ha. discriminate Ha.
    + reflexivity.
Qed.

Lemma data_setter_spec_witness :
  outcome_of (data_setter rgb (NewArray (rio.read_all example_rgb false))) = Ok tt.
Proof.
  apply (proj1 (data_setter_spec rgb (rio.read_all example_rgb true)
                  (NewArray (rio.read_all example_rgb false)) eq_refl)).
  exists (rio.read_all example_rgb false). repeat split.
Defined.

(** ** copy and shift, for a library that writes what it is given *)

Lemma reference_writes_as_given : writes_as_given reference_rasterio.
Proof.
  unfold writes_as_given. intros meta arr mf H.
  cbn [memfile_write reference_rasterio] in H.
  apply bind_ok in H. destruct H as (d & Hw & H).
  apply Ok_inj in H. subst mf. exists d. split; [reflexivity |].
  unfold ref_write in Hw.
  apply bind_ok in Hw. destruct Hw as (dt & Hdt & Hw).
  apply bind_ok in Hw. destruct Hw as (nd & Hnd & Hw).
  apply bind_ok in Hw. destruct Hw as (c & Hc & Hw).
  destruct (negb (dtype_eqb dt (a_dtype arr))); [discriminate Hw |].
  destruct (ndarray.shape arr) as [[nb h] w].
  destruct (negb _); [discriminate Hw |].
  apply Ok_inj in Hw. subst d. cbn.
  repeat split.
  - intros c0 Hc0. rewrite Hc0 in Hc. cbn in Hc. apply Ok_inj in Hc. symmetry. exact Hc.
  - destruct (m_nodata meta) as [| v | l]; try discriminate Hnd.
    + apply Ok_inj in Hnd. symmetry. exact Hnd.
    + destruct (in_dtype_range dt v); [| discriminate Hnd].
      apply Ok_inj in Hnd. symmetry. exact Hnd.
  - exact Hdt.
Qed.

(** What a completed write puts behind the new handle. *)
Lemma written_dataset {RIO : Rasterio} (meta : Meta) (arr : Array) (mf : MemoryFile)
    (d : Dataset) :
  writes_as_given RIO ->
  memfile_write meta (Some arr) = Ok mf ->
  rio.memfile_open mf = Ok d ->
  ds_transform d = m_transform meta
  /\ ds_width d = m_width meta /\ ds_height d = m_height meta
  /\ ds_count d = m_count meta
  /\ ds_pixels d = map (map (map fst)) (a_cells arr)
  /\ (forall c, m_crs meta = CrsObj c -> ds_crs d = c)
  /\ ds_nodata d = match m_nodata meta with NdNum v => Some v | _ => None end
  /\ ndarray.resolve (m_dtype meta) = Ok (ds_dtype d).
Proof.
  intros Hw Hm Ho. destruct (Hw _ _ _ Hm) as (d' & Hc & H).
  unfold rio.memfile_open in Ho. rewrite Hc in Ho. apply Ok_inj in Ho. subst d'.
  exact H.
Qed.

(** X18.  With a library that writes what it is given, a copy of a loaded
    Raster has the transform, CRS and nodata value of the original and holds
    the values of the original's array (or of the array passed in); it has
    no file name. *)
Theorem copy_preserves (RIO : Rasterio) (self r : Raster) (arr : Array)
    (new_array : option Array) :
  writes_as_given RIO ->
  data self = Some arr ->
  copy self (option_map Data3 new_array) = Ok r ->
  transform (attrs r) = transform (attrs self)
  /\ crs (attrs r) = crs (attrs self)
  /\ nodata (attrs r) = nodata (attrs self)
  /\ ds_pixels (ds r)
     = map (map (map fst)) (a_cells (match new_array with Some a => a | None => arr end))
  /\ filename r = None.
Proof.
  intros Hw Hd H. unfold copy in H.
  set (a := match new_array with Some a => a | None => arr end).
  assert (Hdata : match option_map Data3 new_array with
                  | Some x => Some x
                  | None => option_map Data3 (data self)
                  end = Some (Data3 a)).
  { unfold a. destruct new_array; [reflexivity | rewrite Hd; reflexivity]. }
  rewrite Hdata in H. unfold from_array in H. cbn [bind] in H.
  destruct (ndarray.shape a) as [[nb h] w].
  apply bind_ok in H. destruct H as (mfh & Hm & H).
  destruct (init_ok _ _ _ _ _ _ H)
    as (_ & _ & [Hattrs _] & _ & fname & d & Hds & Hf & _ & -> & Ho & _).
  destruct (written_dataset _ _ _ _ Hw Hm Ho) as (Ht & _ & _ & _ & Hp & Hc & Hn & _).
  cbn [m_transform m_crs m_nodata] in Ht, Hc, Hn.
  rewrite Hattrs, Hds. unfold getattrs. cbn [transform crs nodata].
  split; [exact Ht |]. split; [apply Hc; reflexivity |].
  split; [| split; [exact Hp | exact Hf]].
  rewrite Hn. destruct (nodata (attrs self)); reflexivity.
Qed.

Lemma copy_preserves_witness :
  exists r, copy rgb None = Ok r /\ transform (attrs r) = transform (attrs rgb).
Proof.
  destruct (copy rgb None) as [r | e] eqn:E.
  - exists r. split; [reflexivity |].
    exact (proj1 (copy_preserves reference_rasterio rgb r (rio.read_all example_rgb true)
                    None reference_writes_as_given eq_refl E)).
  - vm_compute in E. discriminate E.
Defined.

(** What [_update] hands to the library: the metadata it was given, the
    driver apart, and the array or, without one, the current data. *)
Lemma _update_written {RIO : Rasterio} (self s' : Raster) (imgdata : option Array)
    (m : Meta) (v : string) :
  _update self imgdata (Some m) v = Ok s' ->
  exists m' mf,
    memfile_write m' (match imgdata with None => data self | Some a => Some a end) = Ok mf
    /\ rio.memfile_open mf = Ok (ds s')
    /\ attrs s' = getattrs (ds s')
    /\ m_transform m' = m_transform m /\ m_width m' = m_width m
    /\ m_height m' = m_height m /\ m_count m' = m_count m
    /\ m_crs m' = m_crs m /\ m_nodata m' = m_nodata m /\ m_dtype m' = m_dtype m.
Proof.
  unfold _update.
  set (m' := if String.eqb (m_driver m) "VRT" then _ else m).
  destruct (memfile_write m' _) as [mf | e] eqn:Ew; cbn [bind]; [| discriminate].
  destruct (rio.memfile_open mf) as [d | e] eqn:Eo; cbn [bind]; [| discriminate].
  intro H. apply Ok_inj in H. subst s'.
  exists m', mf. split; [exact Ew |].
  assert (Hds : forall s, ds (if isLoaded s then load s else s) = ds s)
    by (intro s; destruct (isLoaded s); reflexivity).
  assert (Hat : forall s, attrs (if isLoaded s then load s else s) = attrs s)
    by (intro s; destruct (isLoaded s); reflexivity).
  rewrite Hds, Hat. cbn [ds attrs set_matches_disk _read_attrs set_ds].
  split; [exact Eo |]. split; [reflexivity |].
  unfold m'. destruct (String.eqb (m_driver m) "VRT"); repeat split.
Qed.

Lemma shift_written (RIO : Rasterio) (self : Raster) (arr : Array) (xoff yoff : Q) :
  writes_as_given RIO ->
  data self = Some arr ->
  outcome_of (shift self xoff yoff) = Ok tt ->
  let t := transform (attrs self) in
  let s' := state_of (shift self xoff yoff) in
  transform (attrs s')
  = mkAffine (af_a t) (af_b t) (af_c t + xoff) (af_d t) (af_e t) (af_f t + yoff)
  /\ width (attrs s') = ds_width (ds self)
  /\ height (attrs s') = ds_height (ds self)
  /\ count (attrs s') = ds_count (ds self)
  /\ crs (attrs s') = ds_crs (ds self)
  /\ nodata (attrs s') = ds_nodata (ds self)
  /\ ds_pixels (ds s') = map (map (map fst)) (a_cells arr).
Proof.
  intros Hw Hd Ho t s'. subst t s'. unfold shift in *.
  apply commit_ok in Ho.
  destruct (_update_written _ _ _ _ _ Ho)
    as (m' & mf & Hm & Hopen & Hat & Ht & Hwd & Hht & Hc & Hcrs & Hn & _).
  rewrite Hd in Hm.
  destruct (written_dataset _ _ _ _ Hw Hm Hopen)
    as (Dt & Dw & Dh & Dc & Dp & Dcrs & Dn & _).
  rewrite Hat. unfold getattrs. cbn [transform width height count crs nodata].
  rewrite Dt, Dw, Dh, Dc, Dn, Ht, Hwd, Hht, Hc, Hn.
  cbn [with_size_transform rio.meta m_transform m_width m_height m_count m_nodata].
  split; [reflexivity |]. split; [reflexivity |]. split; [reflexivity |].
  split; [reflexivity |].
  split; [apply Dcrs; rewrite Hcrs; reflexivity |].
  split; [destruct (ds_nodata (ds self)); reflexivity | exact Dp].
Qed.

(** X19.  With a library that writes what it is given, a completed
    [shift(xoff, yoff)] on a Raster holding data moves the origin of the
    transform by the offsets and changes nothing else: the other
    coefficients, size, band count, CRS, nodata value and pixel values are
    those from before. *)
Theorem shift_translates (RIO : Rasterio) (self : Raster) (arr : Array) (xoff yoff : Q) :
  writes_as_given RIO ->
  data self = Some arr ->
  outcome_of (shift self xoff yoff) = Ok tt ->
  let t := transform (attrs self) in
  let s' := state_of (shift self xoff yoff) in
  transform (attrs s')
  = mkAffine (af_a t) (af_b t) (af_c t + xoff) (af_d t) (af_e t) (af_f t + yoff)
  /\ width (attrs s') = ds_width (ds self)
  /\ height (attrs s') = ds_height (ds self)
  /\ count (attrs s') = ds_count (ds self)
  /\ crs (attrs s') = ds_crs (ds self)
  /\ nodata (attrs s') = ds_nodata (ds self)
  /\ ds_pixels (ds s') = map (map (map fst)) (a_cells arr).
Proof.
  exact (shift_written RIO self arr xoff yoff).
Qed.

Lemma shift_translates_witness :
  transform (attrs (state_of (shift rgb 10 (-5))))
  = mkAffine 30 0 (478000 + 10) 0 (-30) (3108140 + -5).
Proof.
  refine (proj1 (shift_translates reference_rasterio rgb (rio.read_all example_rgb true)
                   10 (-5) reference_writes_as_given eq_refl _)).
  vm_compute. reflexivity.
Defined.

(** ** interp_points *)

Lemma outside_image_index_true (self : Raster) (i j : Z) :
  (i < 0 \/ j < 0 \/ ds_width (ds self) < i \/ ds_height (ds self) < j)%Z ->
  outside_image self (ZtoQ i) (ZtoQ j) true = Ok true.
Proof.
  intro H. rewrite outside_image_index_eq. f_equal.
  assert (Z2Q : forall a b : Z, (a < b)%Z -> Qltb (ZtoQ a) (ZtoQ b) = true).
  { intros a b Hab. apply Qltb_lt. unfold ZtoQ. rewrite <- Zlt_Qlt. exact Hab. }
  assert (Zn : forall a : Z, (a < 0)%Z -> Qltb (ZtoQ a) 0 = true).
  { intros a Ha. apply Qltb_lt. unfold ZtoQ. change 0 with (inject_Z 0).
    rewrite <- Zlt_Qlt. exact Ha. }
  destruct H as [H | [H | [H | H]]].
  - rewrite (Zn i H). reflexivity.
  - rewrite (Zn j H). rewrite orb_true_r. reflexivity.
  - rewrite (Z2Q _ _ H). rewrite orb_true_r. reflexivity.
  - rewrite (Z2Q _ _ H). rewrite !orb_true_r. reflexivity.
Qed.

Lemma interp_loop_spec {NUM : Interpolation} (self : Raster) (xx yy : list Q)
    (nsize : Z) (mode : string) (band : Z) (pts : list (Q * Q))
    (out : list Printed) (vs : list (option Q)) :
  interp_loop self xx yy nsize mode band pts = (out, Ok vs) ->
  Forall2 (fun pt v =>
             forall i j, xy2ij self (fst pt) (snd pt) = Ok (i, j) ->
                         (i < 0 \/ j < 0 \/ ds_width (ds self) < i
                          \/ ds_height (ds self) < j)%Z ->
                         v = None) pts vs.
Proof.
  revert out vs. induction pts as [| pt pts IH]; intros out vs H.
  - cbn in H. injection H as <- <-. constructor.
  - cbn [interp_loop] in H.
    destruct (interp_point self xx yy nsize mode band pt) as [o1 [v |]] eqn:E1;
      [| discriminate H].
    destruct (interp_loop self xx yy nsize mode band pts) as [o2 [vs' |]] eqn:E2;
      [| discriminate H].
    injection H as <- <-. constructor; [| eapply IH; reflexivity].
    intros i j Hij Hout. unfold interp_point in E1. rewrite Hij in E1.
    rewrite (outside_image_index_true self i j Hout) in E1.
    injection E1 as _ <-. reflexivity.
Qed.

(** X22.  [interp_points] answers one value per point, and NaN - without
    looking at the data - for every point whose row index is negative or
    larger than the raster width, or whose column index is negative or
    larger than the raster height: the pair (row, column) is handed to a
    test that compares its first input with the width and its second with
    the height.  A mode outside the five known ones is an AssertionError. *)
Theorem interp_points_outside (NUM : Interpolation) (self : Raster) (pts : list (Q * Q))
    (nsize : Z) (mode : string) (band : Z) :
  (String.eqb mode "mean" || is_spline_mode mode = false ->
   interp_points self pts nsize mode band
   = ([], Raise (AssertionError "mode must be mean, linear, cubic, quintic or nearest.")))
  /\ (forall out vs,
         interp_points self pts nsize mode band = (out, Ok vs) ->
         length vs = length pts
         /\ Forall2 (fun pt v =>
                       forall i j, xy2ij self (fst pt) (snd pt) = Ok (i, j) ->
                                   (i < 0 \/ j < 0 \/ ds_width (ds self) < i
                                    \/ ds_height (ds self) < j)%Z ->
                                   v = None) pts vs).
Proof.
  split.
  - intro H. unfold interp_points. rewrite H. reflexivity.
  - intros out vs H. unfold interp_points in H.
    destruct (negb _); [discriminate H |].
    destruct (coords self "center" false) as [[gx gy | xx yy] | e]; try discriminate H.
    apply interp_loop_spec in H. split; [| exact H].
    symmetry. exact (Forall2_length H).
Qed.

Lemma interp_points_outside_witness :
  exists out vs,
    interp_points dem [(478031, 3108100); (0, 0)] 1 "mean" 1 = (out, Ok vs)
    /\ length vs = 2%nat.
Proof.
  destruct (interp_points dem [(478031, 3108100); (0, 0)] 1 "mean" 1) as [out [vs | e]] eqn:E.
  - exists out, vs. split; [reflexivity |].
    exact (proj1 (proj2 (interp_points_outside mean_kernels dem
                           [(478031, 3108100); (0, 0)] 1 "mean" 1) out vs E)).
  - vm_compute in E. discriminate E.
Defined.

(** ** What the new dataset holds, for a library that writes what it is given *)

Lemma from_array_written {RIO : Rasterio} (data : NdData) (t : PyTransform) (c : CrsInput)
    (nd : PyNodata) (r : Raster) :
  writes_as_given RIO ->
  from_array data t c nd = Ok r ->
  let arr := match data with
             | Data2 d ma rows => mkArray d ma [rows]
             | Data3 a => a
             end in
  ds_pixels (ds r) = map (map (map fst)) (a_cells arr)
  /\ nodata (attrs r) = match nd with NdNum v => Some v | _ => None end
  /\ (forall c0, c = CrsObj c0 -> crs (attrs r) = c0)
  /\ (forall t0, t = TAffine t0 -> transform (attrs r) = t0)
  /\ (forall a0 b0 c0 d0 e0 f0, t = TTuple [a0; b0; c0; d0; e0; f0] ->
                                transform (attrs r) = mkAffine a0 b0 c0 d0 e0 f0)
  /\ nbands r = Some (Z.of_nat (length (a_cells arr))).
Proof.
  intros Hw H arr. unfold from_array in H. fold arr in H.
  apply bind_ok in H. destruct H as (t' & Ht & H).
  apply bind_ok in H. destruct H as (c' & Hc & H).
  destruct (ndarray.shape arr) as [[nb h] w].
  apply bind_ok in H. destruct H as (mfh & Hm & H).
  destruct (init_ok _ _ _ _ _ _ H)
    as (Hl & _ & [Hattrs Hload] & _ & fname & d & Hds & _ & _ & _ & Ho & _).
  destruct (written_dataset _ _ _ _ Hw Hm Ho) as (Dt & _ & _ & _ & Dp & Dc & Dn & _).
  cbn [m_transform m_crs m_nodata] in Dt, Dc, Dn.
  destruct (Hload Hl) as [_ Hnb].
  rewrite Hattrs, Hds. unfold getattrs. cbn [transform crs nodata].
  rewrite Hds in Hnb.
  split; [exact Dp |]. split; [exact Dn |].
  split; [| split; [| split]].
  - intros c0 ->. cbn in Hc. apply Ok_inj in Hc. subst c'. apply Dc. reflexivity.
  - intros t0 ->. cbn in Ht. apply Ok_inj in Ht. subst t'. exact Dt.
  - intros a0 b0 c0 d0 e0 f0 ->. cbn in Ht. apply Ok_inj in Ht. subst t'. exact Dt.
  - rewrite Hnb, Dp, length_map. reflexivity.
Qed.

(** X23.  With a library that writes what it is given, [from_array] gives
    a Raster that holds what was passed: the values of the array, a 2-D
    array becoming the only band, the six numbers of a tuple as transform,
    the CRS object and the nodata value.  A transform that is neither an
    Affine nor a tuple is a ValueError. *)
Theorem from_array_holds (RIO : Rasterio) (data : NdData) (c0 : CRS) (nd : PyNodata) :
  from_array data TOther (CrsObj c0) nd
  = Raise (ValueError "transform argument needs to be Affine or tuple.")
  /\ (forall a b c d e f r,
         writes_as_given RIO ->
         from_array data (TTuple [a; b; c; d; e; f]) (CrsObj c0) nd = Ok r ->
         transform (attrs r) = mkAffine a b c d e f
         /\ crs (attrs r) = c0
         /\ nodata (attrs r) = match nd with NdNum v => Some v | _ => None end
         /\ match data with
            | Data2 _ _ rows => ds_pixels (ds r) = [map (map fst) rows]
                                /\ nbands r = Some 1%Z
            | Data3 arr => ds_pixels (ds r) = map (map (map fst)) (a_cells arr)
            end).
Proof.
  split; [reflexivity |].
  intros a b c d e f r Hw H.
  destruct (from_array_written _ _ _ _ _ Hw H) as (Hp & Hn & Hc & _ & Ht & Hb).
  split; [apply Ht; reflexivity |]. split; [apply Hc; reflexivity |].
  split; [exact Hn |].
  destruct data as [dt ma rows | arr]; [split |]; assumption.
Qed.

Lemma from_array_holds_witness :
  exists r,
    from_array (Data2 uint8 false [[(1, false); (2, false)]])
               (TTuple [30; 0; 478000; 0; -30; 3108140]) (CrsObj (EPSG 32645)) NdNone = Ok r
    /\ nbands r = Some 1%Z.
Proof.
  destruct (from_array (Data2 uint8 false [[(1, false); (2, false)]])
              (TTuple [30; 0; 478000; 0; -30; 3108140]) (CrsObj (EPSG 32645)) NdNone)
    as [r | e] eqn:E.
  - exists r. split; [reflexivity |].
    destruct (proj2 (from_array_holds reference_rasterio
                       (Data2 uint8 false [[(1, false); (2, false)]]) (EPSG 32645) NdNone)
                _ _ _ _ _ _ r reference_writes_as_given E) as (_ & _ & _ & _ & H).
    exact H.
  - vm_compute in E. discriminate E.
Defined.

(** X24.  With a library that writes what it is given, the Raster that
    [reproject] returns carries the nodata value passed as [nodata] - none
    by default - and not the nodata value of the source, which is only
    handed to the warp; its CRS is the one fixed by the validation. *)
Theorem reproject_result (RIO : Rasterio) (self : Raster) (dst_ref : option DstRef)
    (dst_crs : option CrsInput) (dst_size : option (Z * Z)) (dst_bounds : option DstBounds)
    (dst_res : option DstRes) (nd : PyNodata) (dtype : option DtypeSpec)
    (resampling : Resampling) (r : Raster) :
  writes_as_given RIO ->
  reproject self dst_ref dst_crs dst_size dst_bounds dst_res nd dtype resampling = Ok r ->
  nodata (attrs r) = match nd with NdNum v => Some v | _ => None end
  /\ exists g, reproject_validate dst_ref dst_crs dst_size dst_bounds dst_res = Ok g
               /\ crs (attrs r) = g_crs g.
Proof.
  intros Hw H. unfold reproject in H.
  apply bind_ok in H. destruct H as (g & Hg & H).
  apply bind_ok in H. destruct H as (? & _ & H).
  apply bind_ok in H. destruct H as ([kw fixed] & _ & H).
  apply bind_ok in H. destruct H as ([dst_data dst_transformed] & _ & H).
  apply bind_ok in H. destruct H as (? & _ & H).
  destruct (from_array_written _ _ _ _ _ Hw H) as (_ & Hn & Hc & _).
  split; [exact Hn |]. exists g. split; [exact Hg | apply Hc; reflexivity].
Qed.

Lemma reproject_result_witness :
  exists r, reproject rgb None (Some (CrsInt 32645)) None None None NdNone None nearest = Ok r
            /\ nodata (attrs r) = None /\ nodata (attrs rgb) = Some 255.
Proof.
  destruct (reproject rgb None (Some (CrsInt 32645)) None None None NdNone None nearest)
    as [r | e] eqn:E.
  - exists r. split; [reflexivity |]. split; [| reflexivity].
    exact (proj1 (reproject_result reference_rasterio rgb None (Some (CrsInt 32645)) None
                    None None NdNone None nearest r reference_writes_as_given E)).
  - vm_compute in E. discriminate E.
Defined.

(** X25.  With a library that writes what it is given, a completed
    [set_ndv] with one number on a single-band Raster holding data leaves
    that number as the nodata value and the transform as it was.  Without
    [update_array], or when no nodata value was set before, the pixel values
    are unchanged; with it, the cells that were masked (masked array) or
    equal to the old nodata value (plain array) hold the new value in the
    array's dtype, and every other value is unchanged. *)
Theorem set_ndv_single_band (RIO : Rasterio) (self : Raster) (arr : Array) (v : Q)
    (update_array : bool) :
  writes_as_given RIO ->
  count (attrs self) = 1%Z ->
  data self = Some arr ->
  outcome_of (set_ndv self (NdvNum v) update_array) = Ok tt ->
  let s' := state_of (set_ndv self (NdvNum v) update_array) in
  nodata (attrs s') = Some v
  /\ transform (attrs s') = ds_transform (ds self)
  /\ ds_pixels (ds s')
     = map (map (map (fun c : cell =>
         match update_array, nodata (attrs self) with
         | true, Some pre =>
             if (if a_ma arr then snd c else Qeqb (fst c) pre)
             then ndarray.cast (a_dtype arr) v else fst c
         | _, _ => fst c
         end))) (a_cells arr).
Proof.
  intros Hw Hc Hd Ho s'. subst s'. unfold set_ndv, ndv_normalise in *.
  rewrite Hc in *. change ((1 <? 1)%Z) with false in *. cbv iota in *.
  unfold data in Hd.
  assert (Hrw : exists arr',
             ndv_rewrite 1 (nodata (attrs self)) update_array (NdNum v) (_data self)
             = (Some arr', Ok (if update_array
                               then match nodata (attrs self) with
                                    | Some _ => Some arr'
                                    | None => None
                                    end
                               else None))
             /\ map (map (map fst)) (a_cells arr')
                = map (map (map (fun c : cell =>
                    match update_array, nodata (attrs self) with
                    | true, Some pre =>
                        if (if a_ma arr then snd c else Qeqb (fst c) pre)
                        then ndarray.cast (a_dtype arr) v else fst c
                    | _, _ => fst c
                    end))) (a_cells arr)).
  { unfold ndv_rewrite. rewrite Hd.
    destruct update_array; [| exists arr; split; reflexivity].
    destruct (nodata (attrs self)) as [pre |]; [| exists arr; split; reflexivity].
    change ((1 =? 1)%Z) with true. cbv iota.
    eexists. split; [reflexivity |]. cbn [a_cells].
    rewrite map_map. apply map_ext. intro band.
    destruct (a_ma arr); unfold fill_masked, replace_eq;
      rewrite map_map; apply map_ext; intro row;
      rewrite map_map; apply map_ext; intro c;
      match goal with |- fst (if ?b then _ else _) = _ => destruct b end; reflexivity. }
  destruct Hrw as (arr' & Hrw & Hvals).
  unfold data in *. rewrite Hrw in *. cbn [bind] in *.
  apply commit_ok in Ho.
  destruct (_update_written _ _ _ _ _ Ho)
    as (m' & mf & Hm & Hopen & Hat & Ht & _ & _ & _ & _ & Hn & _).
  assert (Hsrc : match (if update_array
                        then match nodata (attrs self) with
                             | Some _ => Some arr'
                             | None => None
                             end
                        else None) with
                 | None => data (set__data self (Some arr'))
                 | Some a => Some a
                 end = Some arr').
  { destruct update_array; [destruct (nodata (attrs self)) |]; reflexivity. }
  rewrite Hsrc in Hm.
  destruct (written_dataset _ _ _ _ Hw Hm Hopen) as (Dt & _ & _ & _ & Dp & _ & Dn & _).
  rewrite Hat. unfold getattrs. cbn [nodata transform].
  rewrite Dn, Hn, Dt, Ht, Dp, Hvals. cbn [m_nodata m_transform rio.meta].
  repeat split.
Qed.

Lemma set_ndv_single_band_witness :
  nodata (attrs (state_of (set_ndv dem (NdvNum 254) true))) = Some 254.
Proof.
  refine (proj1 (set_ndv_single_band reference_rasterio dem (rio.read_all example_ds true)
                   254 true reference_writes_as_given _ _ _)); vm_compute; reflexivity.
Defined.

(** X26.  With a library that writes what it is given, a completed
    [set_dtypes] with [update_array] on a single-band Raster holding data
    leaves a dataset of the first requested dtype whose values are the
    casts of the former values; nodata value and transform are unchanged. *)
Theorem set_dtypes_single_band (RIO : Rasterio) (self : Raster) (arr : Array)
    (dtypes : PyDtypes) (first : DtypeSpec) (d : dtype) :
  writes_as_given RIO ->
  count (attrs self) = 1%Z ->
  data self = Some arr ->
  ndarray.resolve first = Ok d ->
  dtypes = DtOne first \/ (exists rest, dtypes = DtSeq (first :: rest)) ->
  outcome_of (set_dtypes self dtypes true) = Ok tt ->
  let s' := state_of (set_dtypes self dtypes true) in
  ds_dtype (ds s') = d
  /\ ds_pixels (ds s')
     = map (map (map (fun c : cell => ndarray.cast d (fst c)))) (a_cells arr)
  /\ nodata (attrs s') = ds_nodata (ds self)
  /\ transform (attrs s') = ds_transform (ds self).
Proof.
  intros Hw Hc Hd Hr Hdt Ho s'. subst s'.
  assert (Hnorm : exists out rest,
             dtypes_normalise (count (attrs self)) dtypes = (out, Ok (first :: rest))).
  { unfold dtypes_normalise. rewrite Hc.
    destruct Hdt as [-> | [rest ->]]; eexists; eexists; reflexivity. }
  destruct Hnorm as (out & rest & Hnorm).
  unfold set_dtypes in *. rewrite Hnorm in *. cbn [bind] in *.
  assert (Hcast : dtypes_cast (count (attrs self)) true first (data self)
                  = Ok (Some (mkArray d (a_ma arr)
                          (map (map (map (fun c : cell => (ndarray.cast d (fst c), snd c))))
                               (a_cells arr))))).
  { unfold dtypes_cast. rewrite Hd, Hc. unfold ndarray.astype. rewrite Hr. reflexivity. }
  rewrite Hcast in *. cbn [bind] in *. apply commit_ok in Ho.
  destruct (_update_written _ _ _ _ _ Ho)
    as (m' & mf & Hm & Hopen & Hat & Ht & _ & _ & _ & _ & Hn & Hty).
  destruct (written_dataset _ _ _ _ Hw Hm Hopen) as (Dt & _ & _ & _ & Dp & _ & Dn & Dd).
  rewrite Hty in Dd. cbn [m_dtype] in Dd. rewrite Hr in Dd. apply Ok_inj in Dd.
  rewrite Hat. unfold getattrs. cbn [nodata transform].
  rewrite Dn, Hn, Dt, Ht, Dp. cbn [m_nodata m_transform rio.meta a_cells].
  split; [symmetry; exact Dd |].
  split.
  { rewrite map_map. apply map_ext. intro band.
    rewrite map_map. apply map_ext. intro row.
    rewrite map_map. reflexivity. }
  split; [destruct (ds_nodata (ds self)); reflexivity | reflexivity].
Qed.

Lemma set_dtypes_single_band_witness :
  ds_dtype (ds (state_of (set_dtypes dem (DtOne (DStr "float32")) true))) = float32.
Proof.
  refine (proj1 (set_dtypes_single_band reference_rasterio dem
                   (rio.read_all example_ds true) (DtOne (DStr "float32")) (DStr "float32")
                   float32
                   reference_writes_as_given _ _ _ _ _)); try (vm_compute; reflexivity).
  left. reflexivity.
Defined.
